(** * Bitbucket tool adapters: a shallow embedding and its verification

    The repository exposes five adapters over the Bitbucket Server REST API
    (list_projects, search_repositories, code_search, bitbucket_read and
    bitbucket_glob).  Each adapter is an [Observable] that emits progress,
    result and error events while it awaits the configuration service and
    the HTTP helper.  This file embeds the adapters as functions in a small
    monad that records every emitted event and every awaited call, and
    proves the properties stated about them.

    Numbers are integers ([Z]); strings are [string] (one [ascii] per
    character).  Fractional numbers, NaN and non-ASCII text are outside the
    model. *)

From Stdlib Require Import ZArith Lia Ascii.
From stdpp Require Import base tactics option list strings pretty.

Local Open Scope Z_scope.

(** ** JavaScript primitives used by the adapters *)

Module JS.

(** Truthiness of a string and of a number, as tested by [if (x)],
    [x ? a : b], [x || y] and [x && y]. *)
Definition truthy_string (s : string) : bool :=
  match s with EmptyString => false | String _ _ => true end.

Definition truthy_number (n : Z) : bool := negb (n =? 0).

(** An optional string ([undefined] when absent) used as a condition. *)
Definition truthy_opt (o : option string) : bool :=
  match o with Some s => truthy_string s | None => false end.

(** [`${n}`] for an integer [n]. *)
Definition toString (n : Z) : string := pretty n.

(** [s.startsWith(p)] *)
Definition startsWith (s p : string) : bool := String.prefix p s.

(** [s.slice(n)] for a non-negative index [n]. *)
Fixpoint str_slice (n : nat) (s : string) : string :=
  match n, s with
  | O, _ => s
  | S _, EmptyString => EmptyString
  | S n', String _ s' => str_slice n' s'
  end.

(** [s.substring(0, n)] *)
Definition substring0 (n : nat) (s : string) : string := String.substring 0 n s.

(** [c.toLowerCase()] on one ASCII character. *)
Definition lower (c : ascii) : ascii :=
  let n := Ascii.N_of_ascii c in
  if ((65 <=? n) && (n <=? 90))%N then Ascii.ascii_of_N (n + 32) else c.

(** [s.toLowerCase()] *)
Fixpoint toLowerCase (s : string) : string :=
  match s with
  | EmptyString => EmptyString
  | String c s' => String (lower c) (toLowerCase s')
  end.

(** [s.includes(sub)] *)
Fixpoint includes (s sub : string) : bool :=
  String.prefix sub s
  || match s with
     | EmptyString => false
     | String _ s' => includes s' sub
     end.

(** [s.split(sep)] for a separator of one character; the result is never
    empty: [''.split('\n')] is [['']]. *)
Fixpoint split (sep : ascii) (s : string) : list string :=
  match s with
  | EmptyString => [EmptyString]
  | String c s' =>
      if Ascii.eqb c sep then EmptyString :: split sep s'
      else match split sep s' with
           | h :: t => String c h :: t
           | [] => [String c EmptyString]
           end
  end.

(** [parts.join(sep)] *)
Definition join (sep : string) (parts : list string) : string :=
  String.concat sep parts.

(** [s.replace(/pat/g, rep)] for a pattern that is a fixed non-empty
    string: occurrences are found left to right and do not overlap.
    [skip] counts the characters of the current occurrence still to drop. *)
Fixpoint replaceAll_from (pat rep : string) (skip : nat) (s : string) : string :=
  match s with
  | EmptyString => EmptyString
  | String c s' =>
      match skip with
      | S k => replaceAll_from pat rep k s'
      | O =>
          if String.prefix pat s
          then rep +:+ replaceAll_from pat rep (String.length pat - 1) s'
          else String c (replaceAll_from pat rep 0 s')
      end
  end.

Definition replaceAll (pat rep s : string) : string := replaceAll_from pat rep 0 s.

(** Relative index of [Array.prototype.slice]: a negative index counts from
    the end, and the result is clamped to [0, len]. *)
Definition relative (len k : Z) : Z :=
  if k <? 0 then Z.max (len + k) 0 else Z.min k len.

(** [l.slice(start, end)] *)
Definition slice {A} (l : list A) (start end_ : Z) : list A :=
  let len := Z.of_nat (length l) in
  let k := relative len start in
  let final := relative len end_ in
  take (Z.to_nat (final - k)) (drop (Z.to_nat k) l).

(** [l.slice(start)] *)
Definition slice_from {A} (l : list A) (start : Z) : list A :=
  slice l start (Z.of_nat (length l)).

(** [l.map((x, idx) => f(x, idx))] *)
Definition map_idx {A B} (f : A -> Z -> B) (l : list A) : list B :=
  imap (fun i x => f x (Z.of_nat i)) l.

(** The string ['\n']. *)
Definition newline : string := String "010"%char EmptyString.

(** The string made of one double-quote character. *)
Definition quote : string := String "034"%char EmptyString.

(** A thrown value: an [Error] with its [name] and [message]. *)
Record Exn := mkExn { name : string; message : string }.

(** [new Error(msg)] *)
Definition Error (msg : string) : Exn := mkExn "Error" msg.

(** [String(error)] *)
Definition String_of (e : Exn) : string :=
  if truthy_string (message e) then name e +:+ ": " +:+ message e else name e.

(** [error.message || String(error)] *)
Definition message_or_string (e : Exn) : string :=
  if truthy_string (message e) then message e else String_of e.

End JS.

(** ** A fragment of JavaScript regular expressions

    The code searcher builds its file filter with [new RegExp].  The
    fragment below covers what the glob translation can emit: literal
    characters, escaped punctuation, [.], bracket classes without ranges,
    the postfix star, and the two anchors.  Anything else yields [None]. *)

Module Rx.

Inductive atom :=
| Lit (c : ascii)
| Dot
| Class (negated : bool) (members : list ascii).

Record piece := mkPiece { what : atom; starred : bool }.

Record regex := mkRegex {
  fromStart : bool;
  pieces : list piece;
  toEnd : bool;
  ignoreCase : bool
}.

Inductive mode :=
| Normal
| Escaped
| ClassOpen
| InClass (negated : bool) (members : list ascii).

Definition is_alnum (c : ascii) : bool :=
  let n := Ascii.N_of_ascii c in
  ((48 <=? n) && (n <=? 57) || (65 <=? n) && (n <=? 90) || (97 <=? n) && (n <=? 122))%N.

(** Star the piece parsed last; a star with nothing before it, or after a
    star, is rejected. *)
Definition star_last (done : list piece) : option (list piece) :=
  match done with
  | mkPiece a false :: rest => Some (mkPiece a true :: rest)
  | _ => None
  end.

(** One pass over the pattern; [done] holds the pieces parsed so far, most
    recent first, and [ended] records that [$] has been read. *)
Fixpoint parse_go (m : mode) (done : list piece) (s : string) : option (list piece * bool) :=
  match s with
  | EmptyString =>
      match m with Normal => Some (rev done, false) | _ => None end
  | String c s' =>
      match m with
      | Escaped =>
          if is_alnum c then None
          else parse_go Normal (mkPiece (Lit c) false :: done) s'
      | ClassOpen =>
          if Ascii.eqb c "^" then parse_go (InClass true []) done s'
          else if Ascii.eqb c "]" then parse_go Normal (mkPiece (Class false []) false :: done) s'
          else if Ascii.eqb c "\" || Ascii.eqb c "-" then None
          else parse_go (InClass false [c]) done s'
      | InClass neg ms =>
          if Ascii.eqb c "]" then parse_go Normal (mkPiece (Class neg ms) false :: done) s'
          else if Ascii.eqb c "\" || Ascii.eqb c "-" then None
          else parse_go (InClass neg (ms ++ [c])) done s'
      | Normal =>
          if Ascii.eqb c "\" then parse_go Escaped done s'
          else if Ascii.eqb c "." then parse_go Normal (mkPiece Dot false :: done) s'
          else if Ascii.eqb c "[" then parse_go ClassOpen done s'
          else if Ascii.eqb c "*" then
            match star_last done with
            | Some done' => parse_go Normal done' s'
            | None => None
            end
          else if Ascii.eqb c "$" then
            match s' with EmptyString => Some (rev done, true) | _ => None end
          else if existsb (Ascii.eqb c) ["^"; "("; ")"; "|"; "+"; "?"; "{"; "}"; "]"]%char
          then None
          else parse_go Normal (mkPiece (Lit c) false :: done) s'
      end
  end.

Definition parse (source flags : string) : option regex :=
  let ic := String.eqb flags "i" in
  if negb (String.eqb flags EmptyString || ic) then None
  else
    let '(anchored, body) :=
      match source with
      | String "^" s' => (true, s')
      | _ => (false, source)
      end in
    match parse_go Normal [] body with
    | Some (ps, ended) => Some (mkRegex anchored ps ended ic)
    | None => None
    end.

Definition same_char (ic : bool) (a b : ascii) : bool :=
  if ic then Ascii.eqb (JS.lower a) (JS.lower b) else Ascii.eqb a b.

(** [.] matches every character but a line terminator. *)
Definition accepts (ic : bool) (a : atom) (c : ascii) : bool :=
  match a with
  | Lit x => same_char ic x c
  | Dot => negb (Ascii.eqb c "010" || Ascii.eqb c "013")
  | Class neg ms => xorb neg (existsb (same_char ic c) ms)
  end.

(** Backtracking match of the pieces against a prefix of [s] (against all
    of [s] when [toEnd] is set). *)
Fixpoint match_here (ic toEnd : bool) (ps : list piece) (s : string) : bool :=
  match ps with
  | [] => if toEnd then negb (JS.truthy_string s) else true
  | mkPiece a false :: rest =>
      match s with
      | EmptyString => false
      | String c s' => accepts ic a c && match_here ic toEnd rest s'
      end
  | mkPiece a true :: rest =>
      (fix star (s : string) : bool :=
         match_here ic toEnd rest s
         || match s with
            | EmptyString => false
            | String c s' => accepts ic a c && star s'
            end) s
  end.

Fixpoint match_anywhere (ic toEnd : bool) (ps : list piece) (s : string) : bool :=
  match_here ic toEnd ps s
  || match s with
     | EmptyString => false
     | String _ s' => match_anywhere ic toEnd ps s'
     end.

(** [regex.test(s)] for a regex without the [g] flag. *)
Definition test (r : regex) (s : string) : bool :=
  if fromStart r then match_here (ignoreCase r) (toEnd r) (pieces r) s
  else match_anywhere (ignoreCase r) (toEnd r) (pieces r) s.

(** [new RegExp(source, flags)]: the constructor throws a SyntaxError on a
    pattern it cannot compile (here also on one outside the fragment). *)
Definition RegExp (source flags : string) : JS.Exn + (string -> bool) :=
  match parse source flags with
  | Some r => inr (test r)
  | None =>
      inl (JS.mkExn "SyntaxError"
             ("Invalid regular expression: /" +:+ source +:+ "/" +:+ flags))
  end.

End Rx.

(** ** The event protocol and the monad of an adapter run *)

Module Tool.

(** [ToolRun<Def>]: the events an adapter hands to [observer.next]. *)
Inductive ToolRun (R : Type) :=
| InProgress (progress : list string)
| Done (result : R)
| Error (message : string).

Arguments InProgress {R} progress.
Arguments Done {R} result.
Arguments Error {R} message.

(** A request handed to [fetchFromBitbucketAPI]: a GET of a path, or the
    POST of a search body [{query, entities: {[entity]: {}}, limits:
    {primary}}]. *)
Inductive Request :=
| GET (path : string)
| POST (path : string) (query : string) (entity : string) (primary : Z).

(** What a run does that its caller or the network can observe, in the
    order in which it happens. *)
Inductive Effect (R : Type) :=
| Next (run : ToolRun R)
| Complete
| GetLatest
| Fetch (request : Request).

Arguments Next {R} run.
Arguments Complete {R}.
Arguments GetLatest {R}.
Arguments Fetch {R} request.

(** [BitbucketAPIResponse<T>] *)
Record BitbucketAPIResponse (T : Type) := mkResponse {
  ok : bool;
  status : Z;
  statusText : string;
  data : option T;
  text : option string
}.

Arguments mkResponse {T} ok status statusText data text.
Arguments ok {T} _.
Arguments status {T} _.
Arguments statusText {T} _.
Arguments data {T} _.
Arguments text {T} _.

(** The outcome of running asynchronous code from a given log: it is still
    pending when the fuel of a loop ran out, it threw, or it returned. *)
Inductive Outcome (R A : Type) :=
| Pending
| Threw (e : JS.Exn) (log : list (Effect R))
| Returned (a : A) (log : list (Effect R)).

Arguments Pending {R A}.
Arguments Threw {R A} e log.
Arguments Returned {R A} a log.

Definition Async (R A : Type) : Type := list (Effect R) -> Outcome R A.

Definition ret {R A} (a : A) : Async R A := fun log => Returned a log.

Definition bind {R A B} (m : Async R A) (k : A -> Async R B) : Async R B :=
  fun log =>
    match m log with
    | Pending => Pending
    | Threw e log' => Threw e log'
    | Returned a log' => k a log'
    end.

(** [throw e] *)
Definition throw {R A} (e : JS.Exn) : Async R A := fun log => Threw e log.

(** [try { m } catch (error) { handler(error) }] *)
Definition try_catch {R A} (m : Async R A) (handler : JS.Exn -> Async R A) : Async R A :=
  fun log =>
    match m log with
    | Threw e log' => handler e log'
    | other => other
    end.

(** One observable step. *)
Definition perform {R} (e : Effect R) : Async R unit :=
  fun log => Returned tt (log ++ [e]).

(** [observer.next(run)] and [observer.complete()] *)
Definition next {R} (run : ToolRun R) : Async R unit := perform (Next run).
Definition complete {R} : Async R unit := perform Complete.

(** [await call]: the call is logged, then the promise either rejects
    (the exception is thrown at the await) or resolves to a value. *)
Definition await {R A} (call : Effect R) (settled : JS.Exn + A) : Async R A :=
  fun log =>
    match settled with
    | inl e => Threw e (log ++ [call])
    | inr a => Returned a (log ++ [call])
    end.

(** [for (const item of items) { body }] over a loop state [s]. *)
Fixpoint forOf {R A S} (body : A -> S -> Async R S) (items : list A) (s : S) : Async R S :=
  match items with
  | [] => ret s
  | item :: rest => bind (body item s) (forOf body rest)
  end.

(** [shift before o]: the outcome [o] of a run, had the log [before] come
    first. *)
Definition shift {R A} (before : list (Effect R)) (o : Outcome R A) : Outcome R A :=
  match o with
  | Pending => Pending
  | Threw e log => Threw e (before ++ log)
  | Returned a log => Returned a (before ++ log)
  end.

(** Code that only appends to the log and never reads it. *)
Definition Framed {R A} (m : Async R A) : Prop :=
  forall before log, m (before ++ log) = shift before (m log).

(** Code whose only observable steps are requests to the server. *)
Definition Quiet {R A} (m : Async R A) : Prop :=
  forall log,
    match m log with
    | Pending => True
    | Threw _ log' | Returned _ log' => exists requests, log' = log ++ map Fetch requests
    end.

(** The events of a log, and its calls. *)
Definition events {R} (log : list (Effect R)) : list (ToolRun R) :=
  omap (fun e => match e with Next run => Some run | _ => None end) log.

Definition fetches {R} (log : list (Effect R)) : list Request :=
  omap (fun e => match e with Fetch q => Some q | _ => None end) log.

Definition is_call {R} (e : Effect R) : bool :=
  match e with Next _ | Complete => false | GetLatest | Fetch _ => true end.

Definition calls {R} (log : list (Effect R)) : list (Effect R) :=
  List.filter is_call log.

(** The result carried by the first [done] event of a log. *)
Definition done_result {R} (log : list (Effect R)) : option R :=
  head (omap (fun ev => match ev with Done r => Some r | _ => None end) (events log)).

(** An outcome that is no longer pending. *)
Definition settled {R A} (o : Outcome R A) : Prop :=
  match o with Pending => False | _ => True end.

(** A terminal event: [done] or [error]. *)
Definition is_terminal {R} (run : ToolRun R) : bool :=
  match run with
  | InProgress _ => false
  | Done _ | Error _ => true
  end.

(** [conforms log]: the log follows the event protocol.  It holds calls and
    progress events, then exactly one terminal event, then the completion,
    and nothing after it. *)
Fixpoint conforms {R} (log : list (Effect R)) : bool :=
  match log with
  | [] => false
  | e :: rest =>
      match e, rest with
      | Next t, [Complete] => is_terminal t
      | Next (InProgress _), _ | GetLatest, _ | Fetch _, _ => conforms rest
      | _, _ => false
      end
  end.

(** The log of a run started from the empty log; a pending run has none. *)
Definition log_of {R A} (o : Outcome R A) : option (list (Effect R)) :=
  match o with
  | Pending => None
  | Threw _ log => Some log
  | Returned _ log => Some log
  end.

Definition run {R A} (m : Async R A) : option (list (Effect R)) := log_of (m []).

(** The result an adapter delivers, if its run emits a done event. *)
Definition result_of {R A} (m : Async R A) : option R :=
  match run m with
  | Some log => done_result log
  | None => None
  end.

End Tool.

Import Tool.

Declare Scope async_scope.
Delimit Scope async_scope with async.
Notation "'do' x <- m ; k" := (bind m (fun x => k))
  (at level 10, x name, m at level 100, k at level 200) : async_scope.
Notation "m ;; k" := (bind m (fun _ => k))
  (at level 100, k at level 200, right associativity) : async_scope.
Local Open Scope async_scope.

(** ** list_projects *)

Module ListProjects.

Record ListProjectsToolArgs := mkArgs {
  pattern : option string;
  limit : option Z;
  offset : option Z
}.

Module ProjectResult.
Record t := mk {
  key : string;
  name : string;
  description : option string;
  isPublic : bool;
  type : string
}.
End ProjectResult.

Record Result := mkResult {
  projects : list ProjectResult.t;
  totalCount : Z
}.

Module BitbucketProject.
Record t := mk {
  key : string;
  id : Z;
  name : string;
  description : option string;
  public : bool;
  type : string
}.
End BitbucketProject.

(** [BitbucketPaginatedResponse<T>]; [size] is optional here because the
    adapter guards against its absence. *)
Record BitbucketPaginatedResponse (T : Type) := mkPage {
  values : list T;
  size : option Z;
  isLastPage : bool;
  nextPageStart : option Z
}.

Arguments mkPage {T} values size isLastPage nextPageStart.
Arguments values {T} _.
Arguments size {T} _.
Arguments isLastPage {T} _.
Arguments nextPageStart {T} _.

(** The message of the validation error. *)
Definition offset_message (offset limit : Z) : string :=
  "offset (" +:+ JS.toString offset +:+ ") must be divisible by limit ("
  +:+ JS.toString limit +:+ ") for pagination. Try offset values like 0, "
  +:+ JS.toString limit +:+ ", " +:+ JS.toString (limit * 2) +:+ ", etc.".

Definition apiPath (limit offset : Z) : string :=
  "rest/api/1.0/projects?limit=" +:+ JS.toString limit +:+ "&start=" +:+ JS.toString offset.

(** [project.description && f(project.description)] *)
Definition on_description (f : string -> bool) (p : BitbucketProject.t) : bool :=
  match BitbucketProject.description p with
  | Some d => JS.truthy_string d && f d
  | None => false
  end.

(** The predicate of the regex filter. *)
Definition regex_matches (regex : string -> bool) (p : BitbucketProject.t) : bool :=
  regex (BitbucketProject.name p) || regex (BitbucketProject.key p) || on_description regex p.

(** The predicate of the fallback filter. *)
Definition substring_matches (lowerPattern : string) (p : BitbucketProject.t) : bool :=
  JS.includes (JS.toLowerCase (BitbucketProject.name p)) lowerPattern
  || JS.includes (JS.toLowerCase (BitbucketProject.key p)) lowerPattern
  || on_description (fun d => JS.includes (JS.toLowerCase d) lowerPattern) p.

(** [project.description || null] *)
Definition description_or_null (p : BitbucketProject.t) : option string :=
  match BitbucketProject.description p with
  | Some d => if JS.truthy_string d then Some d else None
  | None => None
  end.

Definition to_result (p : BitbucketProject.t) : ProjectResult.t :=
  ProjectResult.mk (BitbucketProject.key p) (BitbucketProject.name p)
    (description_or_null p) (BitbucketProject.public p) (BitbucketProject.type p).

(** [size || length] *)
Definition size_or (size : option Z) (length : Z) : Z :=
  match size with
  | Some n => if JS.truthy_number n then n else length
  | None => length
  end.

Section Adapter.

Context {Config : Type}.
Variable configService_getLatest : JS.Exn + Config.
Variable fetchFromBitbucketAPI :
  Request -> Config -> JS.Exn + BitbucketAPIResponse (BitbucketPaginatedResponse BitbucketProject.t).
(** [new RegExp(pattern, flags)]: a compiled [test], or the exception the
    constructor throws. *)
Variable RegExp : string -> string -> JS.Exn + (string -> bool).

(** The client-side pattern filter, with its inner [try]/[catch]. *)
Definition apply_pattern (pattern : option string) (projects : list BitbucketProject.t)
  : list BitbucketProject.t :=
  match pattern with
  | Some pat =>
      if JS.truthy_string pat then
        match RegExp pat "i" with
        | inr regex => List.filter (regex_matches regex) projects
        | inl _ =>
            let lowerPattern := JS.toLowerCase pat in
            List.filter (substring_matches lowerPattern) projects
        end
      else projects
  | None => projects
  end.

Definition executeSearch (pattern : option string) (limit offset : Z) : Async Result unit :=
  try_catch
    (do config <- await GetLatest configService_getLatest;
     next (InProgress
             ["Fetching projects"
              +:+ (match pattern with
                   | Some pat =>
                       if JS.truthy_string pat
                       then " matching " +:+ JS.quote +:+ pat +:+ JS.quote
                       else EmptyString
                   | None => EmptyString
                   end)
              +:+ "..."]);;
     let request := GET (apiPath limit offset) in
     do response <- await (Fetch request) (fetchFromBitbucketAPI request config);
     match ok response, data response with
     | true, Some page =>
         let projects := apply_pattern pattern (values page) in
         let results := map to_result projects in
         let result :=
           mkResult results (size_or (size page) (Z.of_nat (length results))) in
         next (Done result);;
         complete
     | _, _ =>
         next (Error ("Failed to fetch projects: " +:+ JS.toString (status response) +:+ " "
                      +:+ (if JS.truthy_string (statusText response)
                           then statusText response else "Unknown error")));;
         complete
     end)
    (fun error =>
       next (Error ("Error fetching projects: " +:+ JS.message error));;
       complete).

(** [offset % limit !== 0]: the remainder takes the sign of the dividend,
    and a zero [limit] gives NaN, which differs from [0]. *)
Definition bitbucketListProjectsTool (args : ListProjectsToolArgs) : Async Result unit :=
  let limit := default 30 (limit args) in
  let offset := default 0 (offset args) in
  if (limit =? 0) || negb (Z.rem offset limit =? 0) then
    next (Error (offset_message offset limit));;
    complete
  else executeSearch (pattern args) limit offset.

End Adapter.

End ListProjects.

(** ** search_repositories *)

Module SearchRepositories.

Record SearchRepositoriesToolArgs := mkArgs {
  query : string;
  limit : option Z
}.

Module Project.
Record t := mk {
  key : string;
  id : Z;
  name : string;
  description : option string;
  public : bool;
  type : string
}.
End Project.

Module Repository.
Record t := mk {
  id : Z;
  name : string;
  slug : string;
  description : option string;
  public : bool;
  archived : bool;
  project : Project.t;
  scmId : string;
  state : string;
  statusMessage : string;
  forkable : bool
}.
End Repository.

(** The [repositories] category of a search response. *)
Record Repositories := mkRepositories {
  category : string;
  count : Z;
  nextStart : Z;
  start : Z;
  values : list Repository.t;
  isLastPage : bool
}.

(** [SearchRepositoriesResponse]; [repositories] is optional because the
    adapter guards against its absence. *)
Record SearchRepositoriesResponse := mkData {
  scope_type : string;
  repositories : option Repositories;
  query_substituted : bool
}.

Record Result := mkResult {
  result_repositories : list Repository.t;
  totalCount : Z
}.

Definition searchPath : string := "rest/search/latest/search?avatarSize=64".

(** The message of the error thrown on a non-ok response. *)
Definition failed_message {T} (response : BitbucketAPIResponse T) : string :=
  "Bitbucket repository search failed: " +:+ JS.toString (status response) +:+ " "
  +:+ statusText response
  +:+ (match text response with
       | Some t => if JS.truthy_string t then " - " +:+ JS.substring0 100 t else EmptyString
       | None => EmptyString
       end).

(** The log of a run whose request was answered, up to its terminal event. *)
Definition answered (args : SearchRepositoriesToolArgs) (terminal : ToolRun Result)
  : Outcome Result unit :=
  Returned tt
    [Next (InProgress
             ["Searching for repositories matching " +:+ JS.quote +:+ query args +:+ JS.quote
              +:+ "..."]);
     GetLatest;
     Fetch (POST searchPath (query args) "repositories" (default 30 (limit args)));
     Next terminal;
     Complete].

Section Adapter.

Context {Config : Type}.
Variable configService_getLatest : JS.Exn + Config.
Variable fetchFromBitbucketAPI :
  Request -> Config -> JS.Exn + BitbucketAPIResponse SearchRepositoriesResponse.

(** The calls to [logger] have no effect on the run and are left out. *)
Definition executeSearch (query : string) (limit : Z) : Async Result unit :=
  try_catch
    (next (InProgress
             ["Searching for repositories matching " +:+ JS.quote +:+ query +:+ JS.quote +:+ "..."]);;
     do config <- await GetLatest configService_getLatest;
     let request := POST searchPath query "repositories" limit in
     do response <- await (Fetch request) (fetchFromBitbucketAPI request config);
     if negb (ok response) then throw (JS.Error (failed_message response))
     else
       match data response with
       | None => throw (JS.Error "No data returned from Bitbucket repository search")
       | Some d =>
           match repositories d with
           | None =>
               next (Done (mkResult [] 0));;
               complete
           | Some found =>
               let repositories := values found in
               let totalCount := count found in
               next (Done (mkResult repositories totalCount));;
               complete
           end
       end)
    (fun error =>
       next (Error ("Error searching Bitbucket repositories: " +:+ JS.message error));;
       complete).

Definition bitbucketSearchRepositoriesTool (args : SearchRepositoriesToolArgs)
  : Async Result unit :=
  executeSearch (query args) (default 30 (limit args)).

End Adapter.

End SearchRepositories.

(** ** code_search *)

Module CodeSearch.

Record CodeSearchToolArgs := mkArgs {
  query : string;
  project : option string;
  repository : option string;
  fileGlob : option string;
  limit : option Z
}.

Module Project.
Record t := mk { key : string; id : Z; name : string }.
End Project.

Module Repository.
Record t := mk {
  slug : string;
  id : Z;
  name : string;
  description : option string;
  project : Project.t
}.
End Repository.

Record Line := mkLine { line : Z; line_text : string }.

Record CodeHit := mkHit {
  repository_of : Repository.t;
  file : string;
  hitContexts : list (list Line);
  hitCount : Z
}.

(** The [code] category of a search response. *)
Record Code := mkCode {
  category : string;
  count : Z;
  nextStart : Z;
  start : Z;
  values : list CodeHit;
  isLastPage : bool
}.

Record CodeSearchResponse := mkData {
  scope_type : string;
  code : option Code;
  query_substituted : bool
}.

Record Result := mkResult {
  files : list CodeHit;
  totalCount : Z
}.

Definition searchPath : string := "rest/search/latest/search?avatarSize=64".

Definition failed_message {T} (response : BitbucketAPIResponse T) : string :=
  "Bitbucket code search failed: " +:+ JS.toString (status response) +:+ " "
  +:+ statusText response
  +:+ (match text response with
       | Some t => if JS.truthy_string t then " - " +:+ JS.substring0 100 t else EmptyString
       | None => EmptyString
       end).

(** The source of [globRegex]: the three replacements run one after the
    other, each over the output of the one before. *)
Definition globRegexSource (fileGlob : string) : string :=
  "^"
  +:+ JS.replaceAll "*" "[^/]*" (JS.replaceAll "**" ".*" (JS.replaceAll "." "\." fileGlob))
  +:+ "$".

Section Adapter.

Context {Config : Type}.
Variable configService_getLatest : JS.Exn + Config.
Variable fetchFromBitbucketAPI :
  Request -> Config -> JS.Exn + BitbucketAPIResponse CodeSearchResponse.
Variable RegExp : string -> string -> JS.Exn + (string -> bool).

Definition by_project (project : option string) (files : list CodeHit) : list CodeHit :=
  match project with
  | Some p =>
      if JS.truthy_string p
      then List.filter (fun f => String.eqb (Project.key (Repository.project (repository_of f))) p) files
      else files
  | None => files
  end.

Definition by_repository (repository : option string) (files : list CodeHit) : list CodeHit :=
  match repository with
  | Some r =>
      if JS.truthy_string r
      then List.filter (fun f => String.eqb (Repository.slug (repository_of f)) r) files
      else files
  | None => files
  end.

(** The glob filter; [new RegExp] may throw. *)
Definition by_fileGlob (fileGlob : option string) (files : list CodeHit)
  : Async Result (list CodeHit) :=
  match fileGlob with
  | Some g =>
      if JS.truthy_string g then
        match RegExp (globRegexSource g) EmptyString with
        | inr globRegex => ret (List.filter (fun f => globRegex (file f)) files)
        | inl e => throw e
        end
      else ret files
  | None => ret files
  end.

Definition executeSearch (args : CodeSearchToolArgs) (limit : Z) : Async Result unit :=
  try_catch
    (next (InProgress
             ["Searching for " +:+ JS.quote +:+ query args +:+ JS.quote +:+ " in code..."]);;
     do config <- await GetLatest configService_getLatest;
     let request := POST searchPath (query args) "code" limit in
     do response <- await (Fetch request) (fetchFromBitbucketAPI request config);
     if negb (ok response) then throw (JS.Error (failed_message response))
     else
       match data response with
       | None => throw (JS.Error "No data returned from Bitbucket code search")
       | Some d =>
           match code d with
           | None =>
               next (Done (mkResult [] 0));;
               complete
           | Some found =>
               let files := values found in
               let filteredFiles := by_project (project args) files in
               let filteredFiles := by_repository (repository args) filteredFiles in
               do filteredFiles <- by_fileGlob (fileGlob args) filteredFiles;
               next (Done (mkResult filteredFiles (Z.of_nat (length filteredFiles))));;
               complete
           end
       end)
    (fun error =>
       next (Error ("Error searching Bitbucket code: " +:+ JS.message error));;
       complete).

Definition bitbucketCodeSearchTool (args : CodeSearchToolArgs) : Async Result unit :=
  executeSearch args (default 25 (limit args)).

End Adapter.

End CodeSearch.

(** ** bitbucket_read *)

Module Read.

Record BitbucketReadToolArgs := mkArgs {
  project : string;
  repository : string;
  path : string;
  read_range : option (Z * Z)
}.

Record Result := mkResult {
  absolutePath : string;
  content : string;
  contentURL : option string
}.

(** The path relative to the repository: the scheme, the project and
    repository prefix and a leading slash are removed, in this order. *)
Definition relativePath (project repository path : string) : string :=
  let relativePath := path in
  let relativePath :=
    if JS.startsWith relativePath "file://" then JS.str_slice 7 relativePath
    else relativePath in
  let prefix := "/" +:+ project +:+ "/" +:+ repository +:+ "/" in
  let relativePath :=
    if JS.startsWith relativePath prefix
    then JS.str_slice (String.length prefix) relativePath
    else relativePath in
  if JS.startsWith relativePath "/" then JS.str_slice 1 relativePath else relativePath.

Definition bitbucketPath (project repository relativePath : string) : string :=
  "rest/api/1.0/projects/" +:+ project +:+ "/repos/" +:+ repository +:+ "/raw/"
  +:+ relativePath +:+ "?at=HEAD".

(** [startLine] and [endLine] for a file of [n] lines. *)
Definition line_range (read_range : option (Z * Z)) (n : Z) : Z * Z :=
  match read_range with
  | Some (a, b) => (Z.max 1 a, Z.min n b)
  | None => (1, n)
  end.

(** The selected lines, each behind its number. *)
Definition numbered (read_range : option (Z * Z)) (lines : list string) : list string :=
  let '(startLine, endLine) := line_range read_range (Z.of_nat (length lines)) in
  JS.map_idx (fun line idx => JS.toString (startLine + idx) +:+ ": " +:+ line)
    (JS.slice lines (startLine - 1) endLine).

Definition numberedLines (read_range : option (Z * Z)) (content : string) : string :=
  let lines := JS.split "010" content in
  JS.join JS.newline (numbered read_range lines).

Section Adapter.

Context {Config URI : Type}.
Variable configService_getLatest : JS.Exn + Config.
Variable fetchFromBitbucketAPI : Request -> Config -> JS.Exn + BitbucketAPIResponse string.
(** [URI.from({scheme, path})], [toURIString] and [toFilePathOrURI] of the
    URI library. *)
Variable URI_from : string -> string -> URI.
Variable toURIString : URI -> string.
Variable toFilePathOrURI : string -> string.

Definition bitbucketReadTool (args : BitbucketReadToolArgs) : Async Result unit :=
  let project := project args in
  let repository := repository args in
  next (InProgress
          ["Reading file " +:+ JS.quote +:+ path args +:+ JS.quote +:+ " from "
           +:+ project +:+ "/" +:+ repository +:+ "..."]);;
  let relativePath := relativePath project repository (path args) in
  let request := GET (bitbucketPath project repository relativePath) in
  try_catch
    (do config <- await GetLatest configService_getLatest;
     do response <- await (Fetch request) (fetchFromBitbucketAPI request config);
     if negb (ok response) then
       next (Error ("Failed to read file: " +:+ JS.toString (status response) +:+ " "
                    +:+ (if JS.truthy_string (statusText response)
                         then statusText response else "Unknown error")));;
       complete
     else
       let content :=
         match text response with
         | Some t => if JS.truthy_string t then t else EmptyString
         | None => EmptyString
         end in
       let numberedLines := numberedLines (read_range args) content in
       let fileUri :=
         toFilePathOrURI
           (toURIString
              (URI_from "file" ("/" +:+ project +:+ "/" +:+ repository +:+ "/" +:+ relativePath))) in
       next (Done (mkResult fileUri numberedLines None));;
       complete)
    (fun error =>
       next (Error ("Error reading file: "
                    +:+ (if JS.truthy_string (JS.message error)
                         then JS.message error else JS.String_of error)));;
       complete).

End Adapter.

End Read.

(** ** bitbucket_glob *)

Module Glob.

Record BitbucketGlobToolArgs := mkArgs {
  project : string;
  repository : string;
  filePattern : string;
  limit : option Z;
  offset : option Z
}.

Inductive ItemType := FILE | DIRECTORY.

Record BitbucketFileItem := mkItem {
  components : list string;
  type : ItemType
}.

(** The [children] page of a [BitbucketBrowseResponse]. *)
Record Children := mkChildren {
  values : list BitbucketFileItem;
  isLastPage : bool;
  nextPageStart : option Z
}.

Record BitbucketBrowseResponse := mkBrowse { children : Children }.

Definition apiPath (project repository path : string) (limit start : Z) : string :=
  "rest/api/1.0/projects/" +:+ project +:+ "/repos/" +:+ repository +:+ "/browse"
  +:+ (if JS.truthy_string path then "/" +:+ path else EmptyString)
  +:+ "?limit=" +:+ JS.toString limit +:+ "&start=" +:+ JS.toString start.

Definition itemPath (item : BitbucketFileItem) : string := JS.join "/" (components item).

(** The cursor of the next iteration: it moves only when the page is not the
    last one and [nextPageStart] is truthy. *)
Definition next_start (page : Children) (start : Z) : Z :=
  match nextPageStart page with
  | Some n => if negb (isLastPage page) && JS.truthy_number n then n else start
  | None => start
  end.

(** The progress event the adapter starts with. *)
Definition progress (args : BitbucketGlobToolArgs) : ToolRun (list string) :=
  InProgress
    ["Finding files matching " +:+ JS.quote +:+ filePattern args +:+ JS.quote +:+ " in "
     +:+ project args +:+ "/" +:+ repository args +:+ "..."].

(** The same invocation with another [limit] and [offset]. *)
Definition paged (args : BitbucketGlobToolArgs) (limit offset : Z) : BitbucketGlobToolArgs :=
  mkArgs (project args) (repository args) (filePattern args) (Some limit) (Some offset).

(** The pagination of the matched files. *)
Definition paginate (limit offset : Z) (matchedFiles : list string) : list string :=
  if JS.truthy_number limit
  then JS.slice matchedFiles offset (offset + limit)
  else JS.slice_from matchedFiles offset.

Section Adapter.

Context {Config URI : Type}.
Variable configService_getLatest : JS.Exn + Config.
Variable fetchFromBitbucketAPI :
  Request -> Config -> JS.Exn + BitbucketAPIResponse BitbucketBrowseResponse.
(** [picomatch(pattern)]: a matcher, or the exception it throws. *)
Variable picomatch : string -> JS.Exn + (string -> bool).
Variable URI_from : string -> string -> URI.
Variable toURIString : URI -> string.
Variable toFilePathOrURI : string -> string.

Section Traversal.

Variable project repository : string.
Variable config : Config.

Definition browse (path : string) (start : Z) : Request :=
  GET (apiPath project repository path 1000 start).

(** The body of the loop over the items of a page: a file is appended to
    [allFiles], a directory is traversed by [fetchDirectory]. *)
Definition visit (fetchDirectory : string -> list string -> Async (list string) (list string))
  (item : BitbucketFileItem) (allFiles : list string) : Async (list string) (list string) :=
  match type item with
  | FILE => ret (allFiles ++ [itemPath item])
  | DIRECTORY => fetchDirectory (itemPath item) allFiles
  end.

(** The paging loop of [fetchDirectory], entered with the cursor [start];
    [allFiles] is the array the closure appends to.  One unit of fuel is
    spent per iteration and per nested call. *)
Fixpoint fetchDirectory_from (fuel : nat) (path : string) (start : Z) (allFiles : list string)
  : Async (list string) (list string) :=
  match fuel with
  | O => fun _ => Pending
  | S fuel' =>
      do response <- await (Fetch (browse path start))
                       (fetchFromBitbucketAPI (browse path start) config);
      match ok response, data response with
      | true, Some d =>
          let items := values (children d) in
          do allFiles <-
            forOf (visit (fun path => fetchDirectory_from fuel' path 0)) items allFiles;
          if isLastPage (children d) then ret allFiles
          else fetchDirectory_from fuel' path (next_start (children d) start) allFiles
      | _, _ => ret allFiles
      end
  end.

Definition fetchDirectory (fuel : nat) (path : string) (allFiles : list string)
  : Async (list string) (list string) :=
  fetchDirectory_from fuel path 0 allFiles.

Definition fetchAllFiles (fuel : nat) : Async (list string) (list string) :=
  fetchDirectory fuel EmptyString [].

(** *** The remote file tree, as the traversal sees it *)

(** The page the server hands out for a directory and a cursor, when the
    fetch succeeds: the promise resolves, the response is ok and it carries
    data. *)
Definition page_at (path : string) (start : Z) : option Children :=
  match fetchFromBitbucketAPI (browse path start) config with
  | inr response => if ok response then children <$> data response else None
  | inl _ => None
  end.

(** A fetch that fails: a response that is not ok, or one without data. *)
Definition fails_at (path : string) (start : Z) : Prop :=
  exists response,
    fetchFromBitbucketAPI (browse path start) config = inr response
    /\ (ok response = false \/ data response = None).

(** The tree below [path] is finite and acyclic: the directory has finitely
    many pages (from some cursor on, every page that can be fetched is the
    last one), and every directory listed on one of its pages is again the
    root of such a tree. *)
Inductive FiniteTree : string -> Prop :=
| finite_tree (path : string) (bound : Z) :
    (forall start page,
        bound <= start -> page_at path start = Some page -> isLastPage page = true) ->
    (forall start page item,
        page_at path start = Some page -> In item (values page) ->
        type item = DIRECTORY -> FiniteTree (itemPath item)) ->
    FiniteTree path.

(** Every fetched page that is not the last one names a next cursor beyond
    the one it was requested with. *)
Definition Advancing : Prop :=
  forall path start page,
    page_at path start = Some page -> isLastPage page = false ->
    exists n, nextPageStart page = Some n /\ start < n.

(** No request of the traversal is rejected: each resolves to a response. *)
Definition Resolving : Prop :=
  forall path start, exists response,
    fetchFromBitbucketAPI (browse path start) config = inr response.

(** [Paging path c c']: the paging loop of [path], entered with cursor [c],
    reaches cursor [c'] by moving from each fetched page that is not the
    last one to the [nextPageStart] it reports. *)
Inductive Paging (path : string) : Z -> Z -> Prop :=
| paging_here (c : Z) : Paging path c c
| paging_next (c n c' : Z) (page : Children) :
    page_at path c = Some page -> isLastPage page = false ->
    nextPageStart page = Some n -> Paging path n c' -> Paging path c c'.

End Traversal.

Definition fileUri (project repository path : string) : string :=
  toFilePathOrURI
    (toURIString (URI_from "file" ("/" +:+ project +:+ "/" +:+ repository +:+ "/" +:+ path))).

(** The result the adapter delivers for a traversed file list and a
    compiled matcher. *)
Definition delivered (args : BitbucketGlobToolArgs) (isMatch : string -> bool)
  (files : list string) : list string :=
  map (fileUri (project args) (repository args))
    (paginate (default 100 (limit args)) (default 0 (offset args)) (List.filter isMatch files)).

(** What the adapter does with the traversed file list. *)
Definition onFiles (args : BitbucketGlobToolArgs) (filePaths : list string)
  : Async (list string) unit :=
  let limit := default 100 (limit args) in
  let offset := default 0 (offset args) in
  match picomatch (filePattern args) with
  | inl e => throw e
  | inr isMatch =>
      let matchedFiles := List.filter isMatch filePaths in
      let paginatedFiles := paginate limit offset matchedFiles in
      let files := map (fileUri (project args) (repository args)) paginatedFiles in
      next (Done files);;
      complete
  end.

Definition bitbucketGlobTool (fuel : nat) (args : BitbucketGlobToolArgs)
  : Async (list string) unit :=
  next (progress args);;
  try_catch
    (do config <- await GetLatest configService_getLatest;
     do filePaths <- fetchAllFiles (project args) (repository args) config fuel;
     onFiles args filePaths)
    (fun error =>
       next (Error ("Error matching files: "
                    +:+ (if JS.truthy_string (JS.message error)
                         then JS.message error else JS.String_of error)));;
       complete).

End Adapter.

End Glob.

(** ** Sample servers and inputs

    Concrete collaborators on which the adapters are run: a configuration
    service that resolves, and servers that answer with fixed responses. *)

Module Sample.

Definition getLatest : JS.Exn + unit := inr tt.

(** A server that answers every request with the same response. *)
Definition always {T} (response : BitbucketAPIResponse T)
  : Request -> unit -> JS.Exn + BitbucketAPIResponse T :=
  fun _ _ => inr response.

Definition respond {T} (d : T) : BitbucketAPIResponse T :=
  mkResponse true 200 "OK" (Some d) None.

(** *** list_projects *)

Definition project (key name : string) (description : option string) : ListProjects.BitbucketProject.t :=
  ListProjects.BitbucketProject.mk key 1 name description true "NORMAL".

Definition P1 := project "P1" "Payments (core)" None.
Definition P2 := project "P2" "Platform" (Some "shared (infra) code").
Definition P3 := project "P3" "Docs" (Some EmptyString).

(** A page whose [size] is zero although it lists a project. *)
Definition page_size_zero : ListProjects.BitbucketPaginatedResponse ListProjects.BitbucketProject.t :=
  ListProjects.mkPage [P1] (Some 0) true None.

(** A page of three projects that reports its size. *)
Definition page_of_three : ListProjects.BitbucketPaginatedResponse ListProjects.BitbucketProject.t :=
  ListProjects.mkPage [P1; P2; P3] (Some 3) true None.

(** A page of three projects without a size. *)
Definition page_without_size : ListProjects.BitbucketPaginatedResponse ListProjects.BitbucketProject.t :=
  ListProjects.mkPage [P1; P2; P3] None true None.

(** *** search_repositories *)

Definition repo (slug : string) : SearchRepositories.Repository.t :=
  SearchRepositories.Repository.mk 7 slug slug None false false
    (SearchRepositories.Project.mk "P1" 1 "Payments" None false "NORMAL")
    "git" "AVAILABLE" "Available" true.

Definition found_repositories : SearchRepositories.SearchRepositoriesResponse :=
  SearchRepositories.mkData "GLOBAL"
    (Some (SearchRepositories.mkRepositories "primary" 42 2 0 [repo "api"; repo "web"] false))
    false.

Definition no_repositories : SearchRepositories.SearchRepositoriesResponse :=
  SearchRepositories.mkData "GLOBAL" None false.

Definition forbidden : BitbucketAPIResponse SearchRepositories.SearchRepositoriesResponse :=
  mkResponse false 403 "Forbidden" None (Some "not permitted").

Definition without_data : BitbucketAPIResponse SearchRepositories.SearchRepositoriesResponse :=
  mkResponse true 204 "No Content" None None.

(** *** code_search *)

Definition hit (projectKey slug file : string) : CodeSearch.CodeHit :=
  CodeSearch.mkHit
    (CodeSearch.Repository.mk slug 7 slug None (CodeSearch.Project.mk projectKey 1 projectKey))
    file [[CodeSearch.mkLine 3 "// TODO"]] 1.

Definition found_code (files : list string) (count : Z) : CodeSearch.CodeSearchResponse :=
  CodeSearch.mkData "GLOBAL"
    (Some (CodeSearch.mkCode "primary" count 25 0 (map (hit "P1" "api") files) true))
    false.

Definition search_args (fileGlob : string) : CodeSearch.CodeSearchToolArgs :=
  CodeSearch.mkArgs "TODO" None None (Some fileGlob) None.

(** *** bitbucket_read *)

(** A file of five lines. *)
Definition five_lines : string :=
  "one" +:+ JS.newline +:+ "two" +:+ JS.newline +:+ "three" +:+ JS.newline
  +:+ "four" +:+ JS.newline +:+ "five".

Definition raw_file (content : string) : BitbucketAPIResponse string :=
  mkResponse true 200 "OK" None (Some content).

(** A URI library over strings. *)
Definition URI_from (scheme path : string) : string := scheme +:+ "://" +:+ path.
Definition toURIString (uri : string) : string := uri.
Definition toFilePathOrURI (uri : string) : string := uri.

(** *** bitbucket_glob *)

Definition file (components : list string) : Glob.BitbucketFileItem :=
  Glob.mkItem components Glob.FILE.

Definition directory (components : list string) : Glob.BitbucketFileItem :=
  Glob.mkItem components Glob.DIRECTORY.

Definition listing (values : list Glob.BitbucketFileItem) (isLastPage : bool)
  (nextPageStart : option Z) : BitbucketAPIResponse Glob.BitbucketBrowseResponse :=
  respond (Glob.mkBrowse (Glob.mkChildren values isLastPage nextPageStart)).

Definition url (path : string) (start : Z) : string := Glob.apiPath "P" "r" path 1000 start.

(** The repository [P/r]: its root is listed on two pages and holds
    [a.ts], a directory [secret] that may not be browsed, a directory
    [dir] and [b.js]; [dir] holds [c.ts] and a directory [sub] with
    [d.ts]. *)
Definition tree_server (request : Request) (config : unit)
  : JS.Exn + BitbucketAPIResponse Glob.BitbucketBrowseResponse :=
  match request with
  | GET u =>
      if String.eqb u (url EmptyString 0) then
        inr (listing [file ["a.ts"]; directory ["secret"]; directory ["dir"]] false (Some 3))
      else if String.eqb u (url EmptyString 3) then
        inr (listing [file ["b.js"]] true None)
      else if String.eqb u (url "dir" 0) then
        inr (listing [file ["dir"; "c.ts"]; directory ["dir"; "sub"]] true None)
      else if String.eqb u (url "dir/sub" 0) then
        inr (listing [file ["dir"; "sub"; "d.ts"]] true None)
      else if String.eqb u (url "secret" 0) then
        inr (mkResponse false 403 "Forbidden" None (Some "no access"))
      else inr (mkResponse false 404 "Not Found" None None)
  | POST _ _ _ _ => inr (mkResponse false 405 "Method Not Allowed" None None)
  end.

(** An empty repository: its root has one page, without entries. *)
Definition empty_server : Request -> unit -> JS.Exn + BitbucketAPIResponse Glob.BitbucketBrowseResponse :=
  always (listing [] true None).

(** A matcher in place of [picomatch]: the empty pattern is refused, and
    every other pattern is read as a file extension to look for. *)
Definition ends_with (suffix path : string) : bool :=
  String.eqb suffix
    (JS.str_slice (String.length path - String.length suffix) path).

Definition picomatch (pattern : string) : JS.Exn + (string -> bool) :=
  if JS.truthy_string pattern then inr (ends_with pattern)
  else inl (JS.mkExn "TypeError" "Expected pattern to be a non-empty string").

Definition glob_args (filePattern : string) (limit offset : option Z) : Glob.BitbucketGlobToolArgs :=
  Glob.mkArgs "P" "r" filePattern limit offset.

Definition glob (server : Request -> unit -> JS.Exn + BitbucketAPIResponse Glob.BitbucketBrowseResponse)
  (fuel : nat) (args : Glob.BitbucketGlobToolArgs) : Async (list string) unit :=
  Glob.bitbucketGlobTool getLatest server picomatch URI_from toURIString toFilePathOrURI fuel args.

(** *** Collaborators that fail *)

(** A configuration service that rejects. *)
Definition no_config : JS.Exn + unit := inl (JS.Error "no configuration").

(** A server whose every request is rejected. *)
Definition rejecting {T} : Request -> unit -> JS.Exn + BitbucketAPIResponse T :=
  fun _ _ => inl (JS.Error "socket hang up").

(** A response that is not ok and has no status text. *)
Definition unavailable {T} : BitbucketAPIResponse T :=
  mkResponse false 503 EmptyString None None.

(** A repository whose root page is not the last one and names no next
    page. *)
Definition stalled_server
  : Request -> unit -> JS.Exn + BitbucketAPIResponse Glob.BitbucketBrowseResponse :=
  always (listing [file ["a.ts"]] false None).

End Sample.

(** * Verification *)

(** Unfolds the operations of the monad, so that a run computes as far as
    the collaborators' answers are known. *)
Ltac run_async :=
  cbv beta delta [bind try_catch await next complete perform ret throw] in *.

(** ** list_projects *)

Section ListProjectsFacts.

Import ListProjects.

Context {Config : Type}.
Variable configService_getLatest : JS.Exn + Config.
Variable fetchFromBitbucketAPI :
  Request -> Config -> JS.Exn + BitbucketAPIResponse (BitbucketPaginatedResponse BitbucketProject.t).
Variable RegExp : string -> string -> JS.Exn + (string -> bool).

Local Abbreviation tool :=
  (bitbucketListProjectsTool configService_getLatest fetchFromBitbucketAPI RegExp).

(** The run of an invocation that passes the validation and whose fetch
    succeeds, whatever the pattern. *)
Lemma list_projects_run (args : ListProjectsToolArgs) config response page :
  let limit := default 30 (limit args) in
  let offset := default 0 (offset args) in
  limit <> 0 -> Z.rem offset limit = 0 ->
  configService_getLatest = inr config ->
  fetchFromBitbucketAPI (GET (apiPath limit offset)) config = inr response ->
  ok response = true -> data response = Some page ->
  exists progress,
    tool args [] =
    Returned tt
      [GetLatest; Next (InProgress progress); Fetch (GET (apiPath limit offset));
       Next (Done (mkResult
                     (map to_result (apply_pattern RegExp (pattern args) (values page)))
                     (size_or (size page)
                        (Z.of_nat (length (map to_result
                                             (apply_pattern RegExp (pattern args) (values page))))))));
       Complete].
Proof.
  intros limit offset Hl Hr Hc Hf Hok Hd.
  unfold bitbucketListProjectsTool. fold limit offset.
  destruct (limit =? 0) eqn:E0; [lia|].
  destruct (Z.rem offset limit =? 0) eqn:E1; [|lia].
  cbn [orb negb]. unfold executeSearch. run_async.
  rewrite Hc. cbn [app]. rewrite Hf, Hok, Hd. cbn [app].
  eexists. reflexivity.
Qed.

(** C5: when [limit > 0] and [offset % limit] is not zero, the run consists
    of one error event, whose message proposes the offsets 0, [limit] and
    [2 * limit], followed by the completion; the configuration service and
    the network are never called. *)
Theorem list_projects_rejects_misaligned_offset (args : ListProjectsToolArgs) :
  let limit := default 30 (limit args) in
  let offset := default 0 (offset args) in
  0 < limit -> Z.rem offset limit <> 0 ->
  tool args [] =
  Returned tt
    [Next (Error
             ("offset (" +:+ JS.toString offset +:+ ") must be divisible by limit ("
              +:+ JS.toString limit +:+ ") for pagination. Try offset values like 0, "
              +:+ JS.toString limit +:+ ", " +:+ JS.toString (limit * 2) +:+ ", etc."));
     Complete]
  /\ (forall log, tool args [] = Returned tt log -> calls log = [] /\ fetches log = []).
Proof.
  intros limit offset Hl Hr.
  assert (Hrun : tool args [] =
    Returned tt [Next (Error (offset_message offset limit)); Complete]).
  { unfold bitbucketListProjectsTool. fold limit offset.
    destruct (limit =? 0) eqn:E0; [lia|].
    destruct (Z.rem offset limit =? 0) eqn:E1; [lia|].
    reflexivity. }
  split; [exact Hrun|].
  intros log Hlog. rewrite Hrun in Hlog. injection Hlog as <-. split; reflexivity.
Qed.

(** C6, as the code has it: [totalCount] is the [size] the server reports
    when that field is present and not zero, page filter or not; it is the
    length of the filtered result when [size] is absent or zero. *)
Theorem list_projects_totalCount (args : ListProjectsToolArgs) config response page :
  let limit := default 30 (limit args) in
  let offset := default 0 (offset args) in
  limit <> 0 -> Z.rem offset limit = 0 ->
  configService_getLatest = inr config ->
  fetchFromBitbucketAPI (GET (apiPath limit offset)) config = inr response ->
  ok response = true -> data response = Some page ->
  exists log r,
    tool args [] = Returned tt log /\ done_result log = Some r
    /\ projects r = map to_result (apply_pattern RegExp (pattern args) (values page))
    /\ (forall n, size page = Some n -> n <> 0 -> totalCount r = n)
    /\ (size page = None \/ size page = Some 0 ->
        totalCount r = Z.of_nat (length (projects r))).
Proof.
  intros limit offset Hl Hr Hc Hf Hok Hd.
  destruct (list_projects_run args config response page Hl Hr Hc Hf Hok Hd) as [progress Hrun].
  eexists _, _. split; [exact Hrun|]. split; [reflexivity|]. cbn [projects totalCount].
  split; [reflexivity|]. split.
  - intros n Hn Hn0. rewrite Hn. unfold size_or, JS.truthy_number.
    destruct (n =? 0) eqn:E; [lia|reflexivity].
  - intros [Hn|Hn]; rewrite Hn; reflexivity.
Qed.

(** C10: a pattern that [new RegExp] refuses raises nothing: the filter
    keeps the projects whose lower-cased name, key or (non-empty)
    description contains the lower-cased pattern, and the run ends with a
    done event. *)
Theorem list_projects_invalid_pattern_falls_back
  (args : ListProjectsToolArgs) pat e config response page :
  let limit := default 30 (limit args) in
  let offset := default 0 (offset args) in
  pattern args = Some pat -> JS.truthy_string pat = true ->
  RegExp pat "i" = inl e ->
  limit <> 0 -> Z.rem offset limit = 0 ->
  configService_getLatest = inr config ->
  fetchFromBitbucketAPI (GET (apiPath limit offset)) config = inr response ->
  ok response = true -> data response = Some page ->
  let kept :=
    List.filter
      (fun p =>
         JS.includes (JS.toLowerCase (BitbucketProject.name p)) (JS.toLowerCase pat)
         || JS.includes (JS.toLowerCase (BitbucketProject.key p)) (JS.toLowerCase pat)
         || match BitbucketProject.description p with
            | Some d => JS.truthy_string d && JS.includes (JS.toLowerCase d) (JS.toLowerCase pat)
            | None => false
            end)
      (values page) in
  exists progress,
    tool args [] =
    Returned tt
      [GetLatest; Next (InProgress progress); Fetch (GET (apiPath limit offset));
       Next (Done (mkResult (map to_result kept)
                     (size_or (size page) (Z.of_nat (length (map to_result kept))))));
       Complete].
Proof.
  intros limit offset Hp Hpat He Hl Hr Hc Hf Hok Hd kept.
  destruct (list_projects_run args config response page Hl Hr Hc Hf Hok Hd) as [progress Hrun].
  exists progress. rewrite Hrun. unfold apply_pattern. rewrite Hp, Hpat, He. reflexivity.
Qed.

End ListProjectsFacts.

(** C5 on the invocation [{limit: 2, offset: 3}]. *)
Lemma list_projects_rejects_misaligned_offset_witness :
  (0 < 2 /\ Z.rem 3 2 <> 0)
  /\ ListProjects.bitbucketListProjectsTool Sample.getLatest
       (Sample.always (Sample.respond Sample.page_of_three)) Rx.RegExp
       (ListProjects.mkArgs None (Some 2) (Some 3)) []
     = Returned tt
         [Next (Error "offset (3) must be divisible by limit (2) for pagination. Try offset values like 0, 2, 4, etc.");
          Complete].
Proof.
  split; [split; [reflexivity | discriminate] |].
  apply (list_projects_rejects_misaligned_offset Sample.getLatest
           (Sample.always (Sample.respond Sample.page_of_three)) Rx.RegExp
           (ListProjects.mkArgs None (Some 2) (Some 3))); [reflexivity | discriminate].
Defined.

(** C6 as stated fails on a page that reports the size 0 and lists one
    project: [size] is present, and [totalCount] is 1. *)
Lemma list_projects_totalCount_counterexample :
  exists r,
    result_of (ListProjects.bitbucketListProjectsTool Sample.getLatest
                 (Sample.always (Sample.respond Sample.page_size_zero)) Rx.RegExp
                 (ListProjects.mkArgs None None None))
    = Some r
    /\ ListProjects.size Sample.page_size_zero = Some 0
    /\ ListProjects.totalCount r = 1
    /\ Some (ListProjects.totalCount r) <> ListProjects.size Sample.page_size_zero.
Proof.
  eexists. split; [reflexivity|]. split; [reflexivity|]. split; [reflexivity|]. discriminate.
Qed.

(** C6 on a page of three projects filtered by the pattern [plat]: the
    result lists one project and [totalCount] is the reported size, 3. *)
Lemma list_projects_totalCount_witness :
  exists log r,
    ListProjects.bitbucketListProjectsTool Sample.getLatest
      (Sample.always (Sample.respond Sample.page_of_three)) Rx.RegExp
      (ListProjects.mkArgs (Some "plat") None None) [] = Returned tt log
    /\ done_result log = Some r
    /\ length (ListProjects.projects r) = 1%nat
    /\ ListProjects.totalCount r = 3.
Proof.
  destruct (list_projects_totalCount Sample.getLatest
              (Sample.always (Sample.respond Sample.page_of_three)) Rx.RegExp
              (ListProjects.mkArgs (Some "plat") None None) tt
              (Sample.respond Sample.page_of_three) Sample.page_of_three)
    as (log & r & Hrun & Hdone & Hprojects & Hsize & _);
    [discriminate | reflexivity | reflexivity | reflexivity | reflexivity | reflexivity |].
  exists log, r. split; [exact Hrun|]. split; [exact Hdone|]. split.
  - rewrite Hprojects. reflexivity.
  - apply (Hsize 3); [reflexivity | discriminate].
Defined.

(** C10 on the pattern ["("], which is not a regular expression: the
    projects whose name or description contains ["("] are kept. *)
Lemma list_projects_invalid_pattern_falls_back_witness :
  exists progress,
    ListProjects.bitbucketListProjectsTool Sample.getLatest
      (Sample.always (Sample.respond Sample.page_of_three)) Rx.RegExp
      (ListProjects.mkArgs (Some "(") None None) []
    = Returned tt
        [GetLatest; Next (InProgress progress);
         Fetch (GET "rest/api/1.0/projects?limit=30&start=0");
         Next (Done (ListProjects.mkResult
                       [ListProjects.to_result Sample.P1; ListProjects.to_result Sample.P2] 3));
         Complete].
Proof.
  destruct (list_projects_invalid_pattern_falls_back Sample.getLatest
              (Sample.always (Sample.respond Sample.page_of_three)) Rx.RegExp
              (ListProjects.mkArgs (Some "(") None None) "("
              (JS.mkExn "SyntaxError" "Invalid regular expression: /(/i") tt
              (Sample.respond Sample.page_of_three) Sample.page_of_three)
    as [progress Hrun];
    [reflexivity | reflexivity | reflexivity | discriminate | reflexivity
     | reflexivity | reflexivity | reflexivity | reflexivity |].
  exists progress. exact Hrun.
Defined.

(** ** search_repositories *)

Section SearchRepositoriesFacts.

Import SearchRepositories.

Context {Config : Type}.
Variable configService_getLatest : JS.Exn + Config.
Variable fetchFromBitbucketAPI :
  Request -> Config -> JS.Exn + BitbucketAPIResponse SearchRepositoriesResponse.

Local Abbreviation tool :=
  (bitbucketSearchRepositoriesTool configService_getLatest fetchFromBitbucketAPI).

(** C8: the four answers to the search request.  A response that is not ok
    gives one error event with the status, the status text and the first
    hundred characters of the response text; an ok response without data
    gives one error event; data without [repositories] gives a done event
    with no repository and the count 0; otherwise the done event carries
    the values and the count of the server as they are. *)
Theorem search_repositories_outcomes (args : SearchRepositoriesToolArgs) config response :
  configService_getLatest = inr config ->
  fetchFromBitbucketAPI
    (POST searchPath (query args) "repositories" (default 30 (limit args))) config
  = inr response ->
  (ok response = false ->
   tool args [] =
   answered args
     (Error ("Error searching Bitbucket repositories: Bitbucket repository search failed: "
             +:+ JS.toString (status response) +:+ " " +:+ statusText response
             +:+ match text response with
                 | Some t =>
                     if JS.truthy_string t then " - " +:+ JS.substring0 100 t else EmptyString
                 | None => EmptyString
                 end)))
  /\ (ok response = true -> data response = None ->
      tool args [] =
      answered args
        (Error "Error searching Bitbucket repositories: No data returned from Bitbucket repository search"))
  /\ (forall d, ok response = true -> data response = Some d -> repositories d = None ->
      tool args [] = answered args (Done (mkResult [] 0)))
  /\ (forall d found,
         ok response = true -> data response = Some d -> repositories d = Some found ->
         tool args [] = answered args (Done (mkResult (values found) (count found)))).
Proof.
  intros Hc Hf.
  unfold bitbucketSearchRepositoriesTool, executeSearch, answered. run_async.
  rewrite Hc. cbn [app]. rewrite Hf. cbn [app].
  split; [|split; [|split]].
  - intros ->. reflexivity.
  - intros -> ->. reflexivity.
  - intros d -> -> ->. reflexivity.
  - intros d found -> -> ->. reflexivity.
Qed.

End SearchRepositoriesFacts.

(** C8 on four servers: one that answers 403, one that answers without
    data, one whose data has no [repositories], one that found two
    repositories and counts 42. *)
Lemma search_repositories_outcomes_witness :
  let args := SearchRepositories.mkArgs "api" None in
  let run response :=
    events <$> run (SearchRepositories.bitbucketSearchRepositoriesTool Sample.getLatest
                      (Sample.always response) args) in
  let progress :=
    InProgress ["Searching for repositories matching " +:+ JS.quote +:+ "api" +:+ JS.quote +:+ "..."] in
  run Sample.forbidden
  = Some [progress;
          Error "Error searching Bitbucket repositories: Bitbucket repository search failed: 403 Forbidden - not permitted"]
  /\ run Sample.without_data
     = Some [progress;
             Error "Error searching Bitbucket repositories: No data returned from Bitbucket repository search"]
  /\ run (Sample.respond Sample.no_repositories)
     = Some [progress; Done (SearchRepositories.mkResult [] 0)]
  /\ run (Sample.respond Sample.found_repositories)
     = Some [progress;
             Done (SearchRepositories.mkResult [Sample.repo "api"; Sample.repo "web"] 42)].
Proof.
  intros args run progress. unfold run, Tool.run.
  pose proof (fun response =>
    search_repositories_outcomes Sample.getLatest (Sample.always response) args tt response
      eq_refl eq_refl) as H.
  split; [|split; [|split]].
  - rewrite (proj1 (H Sample.forbidden) eq_refl). reflexivity.
  - rewrite (proj1 (proj2 (H Sample.without_data)) eq_refl eq_refl). reflexivity.
  - rewrite (proj1 (proj2 (proj2 (H (Sample.respond Sample.no_repositories))))
               Sample.no_repositories eq_refl eq_refl eq_refl).
    reflexivity.
  - rewrite (proj2 (proj2 (proj2 (H (Sample.respond Sample.found_repositories))))
               Sample.found_repositories _ eq_refl eq_refl eq_refl).
    reflexivity.
Defined.

(** ** code_search *)

Section CodeSearchFacts.

Import CodeSearch.

Context {Config : Type}.
Variable configService_getLatest : JS.Exn + Config.
Variable fetchFromBitbucketAPI :
  Request -> Config -> JS.Exn + BitbucketAPIResponse CodeSearchResponse.
Variable RegExp : string -> string -> JS.Exn + (string -> bool).

Local Abbreviation tool :=
  (bitbucketCodeSearchTool configService_getLatest fetchFromBitbucketAPI RegExp).

(** The glob filter returns a list or throws; it adds nothing to the log. *)
Lemma by_fileGlob_cases (fileGlob : option string) (files : list CodeHit) log :
  (exists kept, by_fileGlob RegExp fileGlob files log = Returned kept log)
  \/ (exists e, by_fileGlob RegExp fileGlob files log = Threw e log).
Proof.
  unfold by_fileGlob.
  destruct fileGlob as [g|]; [|left; eexists; reflexivity].
  destruct (JS.truthy_string g); [|left; eexists; reflexivity].
  destruct (RegExp (globRegexSource g) EmptyString) as [e|globRegex].
  - right. eexists. reflexivity.
  - left. eexists. reflexivity.
Qed.

(** Every run of the adapter returns, and its log holds at most one done
    event, whose [totalCount] is the length of its [files]. *)
Lemma code_search_done (args : CodeSearchToolArgs) :
  exists log,
    tool args [] = Returned tt log
    /\ forall r, In (Next (Done r)) log -> totalCount r = Z.of_nat (length (files r)).
Proof.
  unfold bitbucketCodeSearchTool, executeSearch.
  cbv beta delta [bind try_catch await next complete perform throw].
  destruct configService_getLatest as [e|config]; cbn [app].
  { eexists. split; [reflexivity|]. intros r Hin. cbn in Hin. intuition discriminate. }
  destruct (fetchFromBitbucketAPI _ config) as [e|response]; cbn [app].
  { eexists. split; [reflexivity|]. intros r Hin. cbn in Hin. intuition discriminate. }
  destruct (ok response); cbn [negb];
    [|eexists; split; [reflexivity|]; intros r Hin; cbn in Hin; intuition discriminate].
  destruct (data response) as [d|];
    [|eexists; split; [reflexivity|]; intros r Hin; cbn in Hin; intuition discriminate].
  destruct (code d) as [found|].
  - match goal with
    | |- context [by_fileGlob RegExp ?g ?fs ?l] =>
        destruct (by_fileGlob_cases g fs l) as [[kept ->] | [e ->]]
    end.
    + eexists. split; [reflexivity|]. intros r Hin. cbn in Hin.
      destruct Hin as [H|[H|[H|[H|[H|[]]]]]]; try discriminate H.
      injection H as <-. reflexivity.
    + eexists. split; [reflexivity|]. intros r Hin. cbn in Hin. intuition discriminate.
  - eexists. split; [reflexivity|]. intros r Hin. cbn in Hin.
    destruct Hin as [H|[H|[H|[H|[H|[]]]]]]; try discriminate H.
    injection H as <-. reflexivity.
Qed.

(** C7: whatever the server answers and whatever filters are set, a done
    event of code_search reports as [totalCount] the length of its [files]. *)
Theorem code_search_totalCount_is_filtered_length (args : CodeSearchToolArgs) log r :
  run (tool args) = Some log -> In (Next (Done r)) log ->
  totalCount r = Z.of_nat (length (files r)).
Proof.
  unfold run. destruct (code_search_done args) as (log' & -> & Hdone).
  intros [= <-]. apply Hdone.
Qed.

(** With code in the response and a [RegExp] that compiles the glob, the
    files of the result are the hits that pass the three filters in turn,
    and the count of the server is not used. *)
Lemma code_search_filters (args : CodeSearchToolArgs) config response d found globRegex g :
  configService_getLatest = inr config ->
  fetchFromBitbucketAPI (POST searchPath (query args) "code" (default 25 (limit args))) config
  = inr response ->
  ok response = true -> data response = Some d -> code d = Some found ->
  fileGlob args = Some g -> JS.truthy_string g = true ->
  RegExp (globRegexSource g) EmptyString = inr globRegex ->
  result_of (tool args)
  = Some (let kept :=
            List.filter (fun f => globRegex (file f))
              (by_repository (repository args) (by_project (project args) (values found))) in
          mkResult kept (Z.of_nat (length kept))).
Proof.
  intros Hc Hf Hok Hd Hcode Hg Hgt Hre.
  unfold result_of, run, bitbucketCodeSearchTool, executeSearch, by_fileGlob. run_async.
  rewrite Hc. cbn [app]. rewrite Hf, Hok. cbn [app negb]. rewrite Hd, Hcode, Hg, Hgt, Hre.
  reflexivity.
Qed.

End CodeSearchFacts.

(** C7 on a server that counts three hits, with the glob [**/*.go]: the one
    hit that passes the filter is reported with the count 1. *)
Lemma code_search_totalCount_is_filtered_length_witness :
  let tool :=
    CodeSearch.bitbucketCodeSearchTool Sample.getLatest
      (Sample.always (Sample.respond (Sample.found_code ["main.go"; "util.py"; "sub/dir.go"] 3)))
      Rx.RegExp (Sample.search_args "**/*.go") in
  let r := CodeSearch.mkResult [Sample.hit "P1" "api" "sub/dir.go"] 1 in
  exists log,
    run tool = Some log /\ In (Next (Done r)) log
    /\ CodeSearch.totalCount r = Z.of_nat (length (CodeSearch.files r)).
Proof.
  intros tool r. eexists. split; [reflexivity|].
  assert (Hin : In (Next (Done r))
                  [Next (InProgress ["Searching for " +:+ JS.quote +:+ "TODO" +:+ JS.quote +:+ " in code..."]);
                   GetLatest; Fetch (POST CodeSearch.searchPath "TODO" "code" 25);
                   Next (Done r); Complete]).
  { right. right. right. left. reflexivity. }
  split; [exact Hin|].
  exact (code_search_totalCount_is_filtered_length Sample.getLatest
           (Sample.always (Sample.respond (Sample.found_code ["main.go"; "util.py"; "sub/dir.go"] 3)))
           Rx.RegExp (Sample.search_args "**/*.go") _ r eq_refl Hin).
Defined.

(** C1: the translation as the code performs it.  Dots are escaped, a
    single star becomes [[^/]*] and the pattern is anchored; but the star
    of the [.*] written for a double star is rewritten by the replacement
    of single stars that follows, so [**] becomes [.[^/]*], which crosses
    no separator.  The glob [**/*.ts] therefore rejects [src/a/b.ts] (and
    [src/a/b.tsx]) and accepts only paths with one separator, such as
    [src/b.ts]; [*.json] accepts [package.json] and rejects
    [nested/package.json]. *)
Theorem code_search_glob_translation :
  CodeSearch.globRegexSource "**/*.ts" = "^.[^/]*/[^/]*\.ts$"
  /\ CodeSearch.globRegexSource "*.json" = "^[^/]*\.json$"
  /\ (let test glob path :=
        match Rx.RegExp (CodeSearch.globRegexSource glob) EmptyString with
        | inr globRegex => Some (globRegex path)
        | inl _ => None
        end in
      test "**/*.ts" "src/a/b.ts" = Some false
      /\ test "**/*.ts" "src/a/b.tsx" = Some false
      /\ test "**/*.ts" "src/b.ts" = Some true
      /\ test "*.json" "package.json" = Some true
      /\ test "*.json" "nested/package.json" = Some false)
  /\ result_of
       (CodeSearch.bitbucketCodeSearchTool Sample.getLatest
          (Sample.always
             (Sample.respond (Sample.found_code ["src/a/b.ts"; "src/a/b.tsx"; "src/b.ts"] 3)))
          Rx.RegExp (Sample.search_args "**/*.ts"))
     = Some (CodeSearch.mkResult [Sample.hit "P1" "api" "src/b.ts"] 1).
Proof. repeat split; vm_compute; reflexivity. Qed.

(** ** Array slices *)

Lemma slice_nonneg {A} (l : list A) (a b : Z) :
  0 <= a -> 0 <= b ->
  JS.slice l a b = take (Z.to_nat b - Z.to_nat a) (drop (Z.to_nat a) l).
Proof.
  intros Ha Hb. unfold JS.slice, JS.relative.
  destruct (a <? 0) eqn:Ea; [lia|]. destruct (b <? 0) eqn:Eb; [lia|].
  destruct (Z_lt_le_dec a (Z.of_nat (length l))) as [Hlt|Hge].
  - replace (Z.to_nat (Z.min a (Z.of_nat (length l)))) with (Z.to_nat a) by lia.
    destruct (Z_lt_le_dec b (Z.of_nat (length l))) as [Hb'|Hb'].
    + f_equal. lia.
    + rewrite !firstn_all2; [reflexivity | |]; rewrite length_skipn; lia.
  - rewrite !skipn_all2 by lia. rewrite !firstn_nil. reflexivity.
Qed.

Lemma slice_map {A B} (f : A -> B) (l : list A) (a b : Z) :
  JS.slice (map f l) a b = map f (JS.slice l a b).
Proof. unfold JS.slice. rewrite length_map, skipn_map, firstn_map. reflexivity. Qed.

Lemma slice_nil {A} (a b : Z) : JS.slice (@nil A) a b = [].
Proof. unfold JS.slice. rewrite skipn_nil, firstn_nil. reflexivity. Qed.

Lemma slice_of_prefix {A} (l : list A) (k n : Z) :
  0 <= k -> 0 < n -> JS.slice (JS.slice l 0 (k + n)) k (k + n) = JS.slice l k (k + n).
Proof.
  intros Hk Hn. rewrite !slice_nonneg by lia. cbn [Z.to_nat drop].
  rewrite Nat.sub_0_r. rewrite skipn_firstn_comm, firstn_firstn. f_equal. lia.
Qed.

Lemma slice_from_nonneg {A} (l : list A) (k : Z) :
  0 <= k -> JS.slice_from l k = drop (Z.to_nat k) l.
Proof.
  intros Hk. unfold JS.slice_from. rewrite slice_nonneg by lia.
  apply firstn_all2. rewrite length_skipn. lia.
Qed.


(** ** bitbucket_read *)

Lemma split_nonempty sep s : (1 <= length (JS.split sep s))%nat.
Proof.
  induction s as [|c s IH]; cbn [JS.split]; [cbn; lia|].
  destruct (Ascii.eqb c sep); [cbn; lia|].
  destruct (JS.split sep s); cbn in *; lia.
Qed.

(** The lines from [start] to [end_] of a file, numbered: there are
    [end_ - start + 1] of them, and the line numbered [i] is the [i]-th line
    of the file. *)
Lemma numbering (lines : list string) (start end_ : Z) :
  1 <= start -> start <= end_ -> end_ <= Z.of_nat (length lines) ->
  let output :=
    JS.map_idx (fun line idx => JS.toString (start + idx) +:+ ": " +:+ line)
      (JS.slice lines (start - 1) end_) in
  Z.of_nat (length output) = end_ - start + 1
  /\ forall i, start <= i <= end_ ->
       exists line,
         lines !! Z.to_nat (i - 1) = Some line
         /\ output !! Z.to_nat (i - start) = Some (JS.toString i +:+ ": " +:+ line).
Proof.
  intros H1 Hse HN output. subst output. unfold JS.map_idx.
  rewrite slice_nonneg by lia. split.
  - rewrite length_imap, length_take, length_drop. lia.
  - intros i Hi.
    destruct (lookup_lt_is_Some_2 lines (Z.to_nat (i - 1)) ltac:(lia)) as [line Hline].
    exists line. split; [exact Hline|].
    rewrite list_lookup_imap, lookup_take_lt by lia. rewrite lookup_drop.
    replace (Z.to_nat (start - 1) + Z.to_nat (i - start))%nat with (Z.to_nat (i - 1)) by lia.
    rewrite Hline. cbn. do 3 f_equal. lia.
Qed.

Lemma numbering_empty (lines : list string) (start end_ : Z) :
  1 <= start -> 0 <= end_ < start ->
  JS.map_idx (fun line idx => JS.toString (start + idx) +:+ ": " +:+ line)
    (JS.slice lines (start - 1) end_) = [].
Proof.
  intros H1 He. rewrite slice_nonneg by lia.
  replace (Z.to_nat end_ - Z.to_nat (start - 1))%nat with 0%nat by lia. reflexivity.
Qed.

Section ReadFacts.

Import Read.

Context {Config URI : Type}.
Variable configService_getLatest : JS.Exn + Config.
Variable fetchFromBitbucketAPI : Request -> Config -> JS.Exn + BitbucketAPIResponse string.
Variable URI_from : string -> string -> URI.
Variable toURIString : URI -> string.
Variable toFilePathOrURI : string -> string.

Local Abbreviation tool :=
  (bitbucketReadTool configService_getLatest fetchFromBitbucketAPI
     URI_from toURIString toFilePathOrURI).

(** The result of a read whose fetch succeeds. *)
Lemma read_result (args : BitbucketReadToolArgs) config response :
  let relative := relativePath (project args) (repository args) (path args) in
  configService_getLatest = inr config ->
  fetchFromBitbucketAPI (GET (bitbucketPath (project args) (repository args) relative)) config
  = inr response ->
  ok response = true ->
  result_of (tool args)
  = Some (mkResult
            (toFilePathOrURI
               (toURIString
                  (URI_from "file"
                     ("/" +:+ project args +:+ "/" +:+ repository args +:+ "/" +:+ relative))))
            (JS.join JS.newline
               (numbered (read_range args)
                  (JS.split "010" (default EmptyString (text response)))))
            None).
Proof.
  intros relative Hc Hf Hok.
  unfold result_of, run, bitbucketReadTool. run_async. fold relative.
  rewrite Hc. cbn [app]. rewrite Hf, Hok. cbn [app negb log_of].
  unfold numberedLines.
  replace (match text response with
           | Some t => if JS.truthy_string t then t else EmptyString
           | None => EmptyString
           end) with (default EmptyString (text response))
    by (destruct (text response) as [[|c t]|]; reflexivity).
  reflexivity.
Qed.

(** C9, as the code has it: the start is [max(1, a)] and the end is
    [min(N, b)]; when the start does not exceed the end, the content is the
    lines from start to end, each behind its number and [": "], joined by
    newlines, [end - start + 1] lines in all; when the end lies before the
    start (and is not negative) the content has no line; without a range the
    whole file is numbered. *)
Theorem read_numbers_selected_lines (args : BitbucketReadToolArgs) config response :
  let relative := relativePath (project args) (repository args) (path args) in
  configService_getLatest = inr config ->
  fetchFromBitbucketAPI (GET (bitbucketPath (project args) (repository args) relative)) config
  = inr response ->
  ok response = true ->
  let lines := JS.split "010" (default EmptyString (text response)) in
  let N := Z.of_nat (length lines) in
  let start := match read_range args with Some (a, _) => Z.max 1 a | None => 1 end in
  let end_ := match read_range args with Some (_, b) => Z.min N b | None => N end in
  exists absolutePath output,
    result_of (tool args) = Some (mkResult absolutePath (JS.join JS.newline output) None)
    /\ (start <= end_ ->
        Z.of_nat (length output) = end_ - start + 1
        /\ forall i, start <= i <= end_ ->
             exists line,
               lines !! Z.to_nat (i - 1) = Some line
               /\ output !! Z.to_nat (i - start) = Some (JS.toString i +:+ ": " +:+ line))
    /\ (0 <= end_ < start -> output = [])
    /\ (read_range args = None -> start = 1 /\ end_ = N /\ start <= end_).
Proof.
  intros relative Hc Hf Hok lines N start end_.
  eexists _, (numbered (read_range args) lines).
  split; [exact (read_result args config response Hc Hf Hok)|].
  assert (Hnum : numbered (read_range args) lines
                 = JS.map_idx (fun line idx => JS.toString (start + idx) +:+ ": " +:+ line)
                     (JS.slice lines (start - 1) end_)).
  { unfold numbered, line_range. subst start end_ N.
    destruct (read_range args) as [[a b]|]; reflexivity. }
  assert (Hstart : 1 <= start) by (subst start; destruct (read_range args) as [[a b]|]; lia).
  assert (Hend : end_ <= N) by (subst end_; destruct (read_range args) as [[a b]|]; lia).
  rewrite Hnum. split; [|split].
  - intros Hse. apply numbering; assumption.
  - intros He. apply numbering_empty; assumption.
  - intros Hnone. subst start end_. rewrite Hnone.
    pose proof (split_nonempty "010" (default EmptyString (text response))).
    subst N lines. lia.
Qed.

End ReadFacts.

(** C9 on a file of five lines and the range [2, 9]: the end is clamped to
    5, and the content has the four lines 2 to 5 behind their numbers. *)
Lemma read_numbers_selected_lines_witness :
  exists absolutePath output,
    result_of (Read.bitbucketReadTool Sample.getLatest
                 (Sample.always (Sample.raw_file Sample.five_lines))
                 Sample.URI_from Sample.toURIString Sample.toFilePathOrURI
                 (Read.mkArgs "P" "r" "file:///P/r/src/numbers.txt" (Some (2, 9))))
    = Some (Read.mkResult absolutePath (JS.join JS.newline output) None)
    /\ Z.of_nat (length output) = 4
    /\ output !! 0%nat = Some "2: two"
    /\ output !! 3%nat = Some "5: five".
Proof.
  destruct (read_numbers_selected_lines Sample.getLatest
              (Sample.always (Sample.raw_file Sample.five_lines))
              Sample.URI_from Sample.toURIString Sample.toFilePathOrURI
              (Read.mkArgs "P" "r" "file:///P/r/src/numbers.txt" (Some (2, 9))) tt
              (Sample.raw_file Sample.five_lines) eq_refl eq_refl eq_refl)
    as (absolutePath & output & Hresult & Hlines & _).
  exists absolutePath, output. split; [exact Hresult|].
  destruct (Hlines ltac:(vm_compute; discriminate)) as [Hlen Hat].
  split; [rewrite Hlen; reflexivity|].
  destruct (Hat 2 ltac:(vm_compute; split; discriminate)) as (l2 & E2 & O2).
  destruct (Hat 5 ltac:(vm_compute; split; discriminate)) as (l5 & E5 & O5).
  vm_compute in E2, E5. injection E2 as <-. injection E5 as <-.
  split; [exact O2 | exact O5].
Defined.

(** C9 as stated fails on a range that starts beyond the end of the file:
    for the range [7, 9] on five lines the end is 5 and the start is 7; no
    line is emitted, where [end - start + 1] is [-1]. *)
Lemma read_range_beyond_file_counterexample :
  let lines := JS.split "010" Sample.five_lines in
  let start := Z.max 1 7 in
  let end_ := Z.min (Z.of_nat (length lines)) 9 in
  Read.numbered (Some (7, 9)) lines = []
  /\ end_ - start + 1 = -1
  /\ Z.of_nat (length (Read.numbered (Some (7, 9)) lines)) <> end_ - start + 1
  /\ Read.content <$>
       result_of (Read.bitbucketReadTool Sample.getLatest
                    (Sample.always (Sample.raw_file Sample.five_lines))
                    Sample.URI_from Sample.toURIString Sample.toFilePathOrURI
                    (Read.mkArgs "P" "r" "src/numbers.txt" (Some (7, 9))))
     = Some EmptyString.
Proof. vm_compute. repeat split; discriminate. Qed.

(** ** bitbucket_glob: the traversal *)

Section TraversalFacts.

Import Glob.

Context {Config : Type}.
Variable fetchFromBitbucketAPI :
  Request -> Config -> JS.Exn + BitbucketAPIResponse BitbucketBrowseResponse.
Variable project repository : string.
Variable config : Config.

Local Abbreviation loop := (fetchDirectory_from fetchFromBitbucketAPI project repository config).
Local Abbreviation request := (browse project repository).
Local Abbreviation page_at := (Glob.page_at fetchFromBitbucketAPI project repository config).
Local Abbreviation fails_at := (Glob.fails_at fetchFromBitbucketAPI project repository config).
Local Abbreviation FiniteTree := (Glob.FiniteTree fetchFromBitbucketAPI project repository config).
Local Abbreviation Advancing := (Glob.Advancing fetchFromBitbucketAPI project repository config).
Local Abbreviation Resolving := (Glob.Resolving fetchFromBitbucketAPI project repository config).
Local Abbreviation Paging := (Glob.Paging fetchFromBitbucketAPI project repository config).

(** *** The loops, one step at a time *)

Lemma forOf_cons {R A S} (body : A -> S -> Async R S) item rest s log :
  forOf body (item :: rest) s log =
  match body item s log with
  | Pending => Pending
  | Threw e log' => Threw e log'
  | Returned s' log' => forOf body rest s' log'
  end.
Proof. reflexivity. Qed.

(** What a request can come to: it is rejected, it fails, or it delivers a
    page. *)
Lemma fetch_cases path start :
  (exists e, fetchFromBitbucketAPI (request path start) config = inl e)
  \/ fails_at path start
  \/ (exists page, page_at path start = Some page).
Proof.
  unfold Glob.fails_at, Glob.page_at.
  destruct (fetchFromBitbucketAPI (request path start) config) as [e|response] eqn:Hf.
  - left. eauto.
  - right. destruct (ok response) eqn:Hok.
    + destruct (data response) as [d|] eqn:Hd.
      * right. eexists. reflexivity.
      * left. eauto.
    + left. eauto.
Qed.

Lemma loop_rejected fuel path start allFiles log e :
  fetchFromBitbucketAPI (request path start) config = inl e ->
  loop (S fuel) path start allFiles log = Threw e (log ++ [Fetch (request path start)]).
Proof. intros H. cbn [fetchDirectory_from]. unfold bind, await. rewrite H. reflexivity. Qed.

Lemma loop_failed fuel path start allFiles log :
  fails_at path start ->
  loop (S fuel) path start allFiles log = Returned allFiles (log ++ [Fetch (request path start)]).
Proof.
  intros (response & H & Hfail). cbn [fetchDirectory_from]. unfold bind, await. rewrite H.
  destruct Hfail as [-> | Hd]; [reflexivity|]. rewrite Hd. destruct (ok response); reflexivity.
Qed.

Lemma loop_page fuel path start allFiles log page :
  page_at path start = Some page ->
  loop (S fuel) path start allFiles log =
  match forOf (visit (fun p => loop fuel p 0)) (values page) allFiles
          (log ++ [Fetch (request path start)]) with
  | Pending => Pending
  | Threw e log' => Threw e log'
  | Returned allFiles' log' =>
      if isLastPage page then Returned allFiles' log'
      else loop fuel path (next_start page start) allFiles' log'
  end.
Proof.
  unfold Glob.page_at. intros H. cbn [fetchDirectory_from]. unfold bind, await.
  destruct (fetchFromBitbucketAPI (request path start) config) as [e|response]; [discriminate|].
  destruct (ok response); [|discriminate].
  destruct (data response) as [d|]; [|discriminate].
  injection H as <-.
  destruct (forOf _ _ _ _); try reflexivity.
  destruct (isLastPage (children d)); reflexivity.
Qed.

(** *** More fuel changes nothing once a run has settled *)

Lemma forOf_visit_more_fuel (f f' : string -> list string -> Async (list string) (list string)) :
  (forall p allFiles log, settled (f p allFiles log) -> f' p allFiles log = f p allFiles log) ->
  forall items allFiles log,
    settled (forOf (visit f) items allFiles log) ->
    forOf (visit f') items allFiles log = forOf (visit f) items allFiles log.
Proof.
  intros Hf items. induction items as [|item rest IH]; intros allFiles log Hs; [reflexivity|].
  rewrite !forOf_cons in *. unfold visit at 1 3. unfold visit at 1 in Hs.
  destruct (type item).
  - unfold ret in *. apply IH, Hs.
  - destruct (f (itemPath item) allFiles log) eqn:E.
    + destruct Hs.
    + rewrite Hf; rewrite E; [reflexivity | exact I].
    + rewrite Hf; rewrite E; [|exact I]. apply IH, Hs.
Qed.

Lemma loop_more_fuel fuel :
  forall fuel' path start allFiles log,
    settled (loop fuel path start allFiles log) -> (fuel <= fuel')%nat ->
    loop fuel' path start allFiles log = loop fuel path start allFiles log.
Proof.
  induction fuel as [|fuel IH]; intros fuel' path start allFiles log Hs Hle; [destruct Hs|].
  destruct fuel' as [|fuel']; [lia|].
  destruct (fetch_cases path start) as [[e He] | [Hfail | [page Hpage]]].
  - rewrite !(loop_rejected _ _ _ _ _ e He). reflexivity.
  - rewrite !(loop_failed _ _ _ _ _ Hfail). reflexivity.
  - rewrite (loop_page fuel' _ _ _ _ page Hpage).
    rewrite (loop_page fuel _ _ _ _ page Hpage) in *.
    assert (Hitems : settled (forOf (visit (fun p => loop fuel p 0)) (values page) allFiles
                                (log ++ [Fetch (request path start)]))).
    { destruct (forOf _ _ _ _); [destruct Hs | exact I | exact I]. }
    rewrite (forOf_visit_more_fuel (fun p => loop fuel p 0) (fun p => loop fuel' p 0));
      [| intros p a l Hp; apply IH; [exact Hp | lia] | exact Hitems].
    destruct (forOf _ _ _ _) as [|e l'|allFiles' l']; try reflexivity.
    destruct (isLastPage page); [reflexivity|].
    apply IH; [exact Hs | lia].
Qed.

(** *** Termination on a finite tree *)

Lemma forOf_visit_settles (items : list BitbucketFileItem) :
  (forall item, In item items -> type item = DIRECTORY ->
     forall allFiles log, exists fuel, settled (loop fuel (itemPath item) 0 allFiles log)) ->
  forall allFiles log,
    exists fuel, settled (forOf (visit (fun p => loop fuel p 0)) items allFiles log).
Proof.
  induction items as [|item rest IH]; intros Hdirs allFiles log; [exists O; exact I|].
  assert (Hrest : forall allFiles log,
             exists fuel, settled (forOf (visit (fun p => loop fuel p 0)) rest allFiles log)).
  { apply IH. intros i Hi. apply Hdirs. right. exact Hi. }
  destruct (type item) eqn:Ht.
  - destruct (Hrest (allFiles ++ [itemPath item]) log) as [fuel Hfuel].
    exists fuel. rewrite forOf_cons. unfold visit at 1. rewrite Ht. exact Hfuel.
  - destruct (Hdirs item (or_introl eq_refl) Ht allFiles log) as [fuel1 H1].
    destruct (loop fuel1 (itemPath item) 0 allFiles log) as [|e l'|allFiles' l'] eqn:E1;
      [destruct H1| |].
    + exists fuel1. rewrite forOf_cons. unfold visit at 1. rewrite Ht, E1. exact I.
    + destruct (Hrest allFiles' l') as [fuel2 H2].
      exists (Nat.max fuel1 fuel2). rewrite forOf_cons. unfold visit at 1. rewrite Ht.
      rewrite (loop_more_fuel fuel1); [| rewrite E1; exact I | lia]. rewrite E1.
      rewrite (forOf_visit_more_fuel (fun p => loop fuel2 p 0)); [exact H2 | | exact H2].
      intros p a l Hp. apply loop_more_fuel; [exact Hp | lia].
Qed.

Section Progress.

Hypothesis advancing : Advancing.

Lemma advance path start page :
  0 <= start -> page_at path start = Some page -> isLastPage page = false ->
  exists n, nextPageStart page = Some n /\ start < n /\ next_start page start = n.
Proof.
  intros H0 Hpage Hlast. destruct (advancing path start page Hpage Hlast) as (n & Hn & Hlt).
  exists n. split; [exact Hn|]. split; [exact Hlt|].
  unfold next_start. rewrite Hn, Hlast. unfold JS.truthy_number.
  destruct (n =? 0) eqn:E; [lia | reflexivity].
Qed.

Lemma loop_settles path :
  FiniteTree path ->
  forall start allFiles log, 0 <= start -> exists fuel, settled (loop fuel path start allFiles log).
Proof.
  induction 1 as [path bound Hlast _ IHdirs].
  assert (Hk : forall k start, (Z.to_nat (bound - start) <= k)%nat -> 0 <= start ->
                 forall allFiles log, exists fuel, settled (loop fuel path start allFiles log)).
  { induction k as [|k IHk]; intros start Hm H0 allFiles log;
      (destruct (fetch_cases path start) as [[e He] | [Hfail | [page Hpage]]];
       [ exists 1%nat; rewrite (loop_rejected _ _ _ _ _ e He); exact I
       | exists 1%nat; rewrite (loop_failed _ _ _ _ _ Hfail); exact I
       | ]).
    - destruct (forOf_visit_settles (values page)
                  (fun item Hin Ht a l => IHdirs start page item Hpage Hin Ht 0 a l (Z.le_refl 0))
                  allFiles (log ++ [Fetch (request path start)])) as [fuel Hfuel].
      exists (S fuel). rewrite (loop_page _ _ _ _ _ page Hpage).
      destruct (forOf _ _ _ _); [destruct Hfuel | exact I |].
      rewrite (Hlast start page); [exact I | lia | exact Hpage].
    - destruct (forOf_visit_settles (values page)
                  (fun item Hin Ht a l => IHdirs start page item Hpage Hin Ht 0 a l (Z.le_refl 0))
                  allFiles (log ++ [Fetch (request path start)])) as [fuel1 H1].
      destruct (forOf (visit (fun p => loop fuel1 p 0)) (values page) allFiles
                  (log ++ [Fetch (request path start)])) as [|e l'|allFiles' l'] eqn:E1;
        [destruct H1 | |].
      + exists (S fuel1). rewrite (loop_page _ _ _ _ _ page Hpage), E1. exact I.
      + destruct (isLastPage page) eqn:El.
        * exists (S fuel1). rewrite (loop_page _ _ _ _ _ page Hpage), E1, El. exact I.
        * destruct (advance path start page H0 Hpage El) as (n & _ & Hlt & Hn).
          destruct (IHk n ltac:(lia) ltac:(lia) allFiles' l') as [fuel2 H2].
          exists (S (Nat.max fuel1 fuel2)). rewrite (loop_page _ _ _ _ _ page Hpage).
          rewrite (forOf_visit_more_fuel (fun p => loop fuel1 p 0));
            [| intros p a l Hp; apply loop_more_fuel; [exact Hp | lia] | rewrite E1; exact I].
          rewrite E1, El, Hn.
          rewrite (loop_more_fuel fuel2); [exact H2 | exact H2 | lia]. }
  intros start allFiles log H0. exact (Hk _ start (Nat.le_refl _) H0 allFiles log).
Qed.

(** *** The cursor of the paging loop *)

Lemma loop_paging fuel :
  forall path start allFiles log files log',
    0 <= start ->
    loop fuel path start allFiles log = Returned files log' ->
    exists final,
      Paging path start final
      /\ (fails_at path final
          \/ exists page, page_at path final = Some page /\ isLastPage page = true).
Proof.
  induction fuel as [|fuel IH]; intros path start allFiles log files log' H0 Hrun;
    [discriminate|].
  destruct (fetch_cases path start) as [[e He] | [Hfail | [page Hpage]]].
  - rewrite (loop_rejected _ _ _ _ _ e He) in Hrun. discriminate.
  - exists start. split; [constructor | left; exact Hfail].
  - rewrite (loop_page _ _ _ _ _ page Hpage) in Hrun.
    destruct (forOf _ _ _ _) as [|e l'|allFiles' l']; try discriminate.
    destruct (isLastPage page) eqn:El.
    + exists start. split; [constructor | right; eauto].
    + destruct (advance path start page H0 Hpage El) as (n & Hnext & Hlt & Hn).
      rewrite Hn in Hrun.
      destruct (IH path n allFiles' l' files log' ltac:(lia) Hrun) as (final & Hp & Hstop).
      exists final. split; [|exact Hstop].
      exact (paging_next _ _ _ _ _ start n final page Hpage El Hnext Hp).
Qed.

End Progress.

(** *** No request rejected, no exception *)

Lemma forOf_visit_never_throws (f : string -> list string -> Async (list string) (list string)) :
  (forall p allFiles log e log', f p allFiles log <> Threw e log') ->
  forall items allFiles log e log', forOf (visit f) items allFiles log <> Threw e log'.
Proof.
  intros Hf items. induction items as [|item rest IH]; intros allFiles log e log';
    [discriminate|].
  rewrite forOf_cons. unfold visit at 1. destruct (type item).
  - apply IH.
  - destruct (f (itemPath item) allFiles log) as [|e1 l1|a1 l1] eqn:E;
      [discriminate | exfalso; exact (Hf _ _ _ _ _ E) | apply IH].
Qed.

Lemma loop_never_throws :
  Resolving ->
  forall fuel path start allFiles log e log', loop fuel path start allFiles log <> Threw e log'.
Proof.
  intros Hres fuel. induction fuel as [|fuel IH]; intros path start allFiles log e log';
    [discriminate|].
  destruct (fetch_cases path start) as [[e1 He] | [Hfail | [page Hpage]]].
  - destruct (Hres path start) as [response Hr]. rewrite Hr in He. discriminate.
  - rewrite (loop_failed _ _ _ _ _ Hfail). discriminate.
  - rewrite (loop_page _ _ _ _ _ page Hpage).
    destruct (forOf _ _ _ _) as [|e1 l1|a1 l1] eqn:E; [discriminate | |].
    + exfalso. revert E. apply forOf_visit_never_throws. intros p a l. apply IH.
    + destruct (isLastPage page); [discriminate | apply IH].
Qed.

(** *** The traversal and the log *)

Lemma shift_app {R A} (l1 l2 : list (Effect R)) (o : Outcome R A) :
  shift (l1 ++ l2) o = shift l1 (shift l2 o).
Proof. destruct o; cbn; rewrite <- ?app_assoc; reflexivity. Qed.

Lemma framed_forOf {R A S} (body : A -> S -> Async R S) :
  (forall item s, Framed (body item s)) ->
  forall items s, Framed (forOf body items s).
Proof.
  intros Hbody items. induction items as [|item rest IH]; intros s before log; [reflexivity|].
  rewrite !forOf_cons, Hbody.
  destruct (body item s log) as [|e l'|s' l']; cbn; [reflexivity | reflexivity | apply IH].
Qed.

Lemma framed_visit f :
  (forall p allFiles, Framed (f p allFiles)) ->
  forall item allFiles, Framed (visit f item allFiles).
Proof.
  intros Hf item allFiles. unfold visit. destruct (type item); [|apply Hf].
  intros before log. reflexivity.
Qed.

Lemma loop_framed fuel : forall path start allFiles, Framed (loop fuel path start allFiles).
Proof.
  induction fuel as [|fuel IH]; intros path start allFiles before log; [reflexivity|].
  destruct (fetch_cases path start) as [[e He] | [Hfail | [page Hpage]]].
  - rewrite !(loop_rejected _ _ _ _ _ e He). cbn. rewrite app_assoc. reflexivity.
  - rewrite !(loop_failed _ _ _ _ _ Hfail). cbn. rewrite app_assoc. reflexivity.
  - rewrite !(loop_page _ _ _ _ _ page Hpage). rewrite <- app_assoc.
    rewrite (framed_forOf _ (framed_visit _ (fun p a => IH p 0 a))).
    destruct (forOf _ _ _ _) as [|e l'|allFiles' l']; cbn; try reflexivity.
    destruct (isLastPage page); [reflexivity | apply IH].
Qed.

Lemma quiet_forOf {R A S} (body : A -> S -> Async R S) :
  (forall item s, Quiet (body item s)) ->
  forall items s, Quiet (forOf body items s).
Proof.
  intros Hbody items. induction items as [|item rest IH]; intros s log.
  - exists []. cbn. rewrite app_nil_r. reflexivity.
  - rewrite forOf_cons. pose proof (Hbody item s log) as Hb.
    destruct (body item s log) as [|e l'|s' l']; [exact I | exact Hb |].
    destruct Hb as [qs ->]. pose proof (IH s' (log ++ map Fetch qs)) as Hr.
    destruct (forOf body rest s' _) as [|e l'|s'' l'']; [exact I | |];
      destruct Hr as [qs' ->]; exists (qs ++ qs'); rewrite map_app, app_assoc; reflexivity.
Qed.

Lemma loop_quiet fuel : forall path start allFiles, Quiet (loop fuel path start allFiles).
Proof.
  induction fuel as [|fuel IH]; intros path start allFiles log; [exact I|].
  destruct (fetch_cases path start) as [[e He] | [Hfail | [page Hpage]]].
  - rewrite (loop_rejected _ _ _ _ _ e He). exists [request path start]. reflexivity.
  - rewrite (loop_failed _ _ _ _ _ Hfail). exists [request path start]. reflexivity.
  - rewrite (loop_page _ _ _ _ _ page Hpage).
    assert (Hv : forall item s, Quiet (visit (fun p => loop fuel p 0) item s)).
    { intros item s l. unfold visit. destruct (type item); [|apply IH].
      exists []. cbn. rewrite app_nil_r. reflexivity. }
    pose proof (quiet_forOf _ Hv (values page) allFiles (log ++ [Fetch (request path start)])) as Hf.
    destruct (forOf _ _ _ _) as [|e l'|allFiles' l']; [exact I | |].
    + destruct Hf as [qs ->]. exists (request path start :: qs).
      rewrite <- app_assoc. reflexivity.
    + destruct Hf as [qs ->].
      assert (Hhere : exists requests,
                 (log ++ [Fetch (request path start)]) ++ map Fetch qs = log ++ map Fetch requests).
      { exists (request path start :: qs). rewrite <- app_assoc. reflexivity. }
      destruct (isLastPage page); [exact Hhere|].
      pose proof (IH path (next_start page start) allFiles'
                    ((log ++ [Fetch (request path start)]) ++ map Fetch qs)) as Hn.
      destruct (loop fuel path _ allFiles' _) as [|e l'|a l']; [exact I | |];
        destruct Hn as [qs' ->]; exists (request path start :: qs ++ qs');
        rewrite map_cons, map_app, <- !app_assoc; reflexivity.
Qed.

End TraversalFacts.
(** ** bitbucket_glob: the adapter *)

Section GlobFacts.

Import Glob.

Context {Config URI : Type}.
Variable picomatch : string -> JS.Exn + (string -> bool).
Variable URI_from : string -> string -> URI.
Variable toURIString : URI -> string.
Variable toFilePathOrURI : string -> string.

Local Abbreviation tool getLatest fetch :=
  (bitbucketGlobTool (Config:=Config) getLatest fetch picomatch URI_from toURIString toFilePathOrURI).
Local Abbreviation delivered := (Glob.delivered URI_from toURIString toFilePathOrURI).

(** The run of the adapter when the configuration resolves, the traversal
    returns and the pattern compiles: the progress event, the requests of
    the traversal, the done event. *)
Lemma glob_run getLatest fetch fuel (args : BitbucketGlobToolArgs) config isMatch files log :
  getLatest = inr config ->
  picomatch (filePattern args) = inr isMatch ->
  fetchAllFiles fetch (project args) (repository args) config fuel [] = Returned files log ->
  exists requests,
    tool getLatest fetch fuel args [] =
    Returned tt
      ([Next (progress args); GetLatest] ++ map Fetch requests
       ++ [Next (Done (delivered args isMatch files)); Complete]).
Proof.
  intros Hc Hp Hrun.
  pose proof (loop_quiet fetch (project args) (repository args) config fuel EmptyString 0 [] [])
    as Hq.
  pose proof (loop_framed fetch (project args) (repository args) config fuel EmptyString 0 []
                [Next (progress args); GetLatest] []) as Hf.
  unfold fetchAllFiles, fetchDirectory in Hrun. rewrite Hrun in Hq, Hf.
  destruct Hq as [requests ->]. exists requests.
  unfold bitbucketGlobTool, fetchAllFiles, fetchDirectory, onFiles. run_async.
  rewrite Hc. cbn [app] in *. rewrite Hf. cbn [shift app]. rewrite Hp.
  rewrite <- !app_assoc. reflexivity.
Qed.

Lemma events_of_glob_run (args : BitbucketGlobToolArgs) requests result :
  events ([Next (progress args); GetLatest] ++ map Fetch requests
          ++ [Next (Done result); Complete])
  = [progress args; Done result].
Proof.
  assert (H : events (R:=list string) (map Fetch requests) = []).
  { induction requests as [|q qs IH]; [reflexivity | exact IH]. }
  unfold events in *. rewrite !omap_app, H. reflexivity.
Qed.

Lemma glob_events getLatest fetch fuel (args : BitbucketGlobToolArgs) config isMatch files log :
  getLatest = inr config ->
  picomatch (filePattern args) = inr isMatch ->
  fetchAllFiles fetch (project args) (repository args) config fuel [] = Returned files log ->
  events <$> run (tool getLatest fetch fuel args)
  = Some [progress args; Done (delivered args isMatch files)].
Proof.
  intros Hc Hp Hrun. destruct (glob_run _ _ _ _ _ _ _ _ Hc Hp Hrun) as [requests Htool].
  unfold run. rewrite Htool. cbn [log_of fmap option_fmap option_map].
  rewrite events_of_glob_run. reflexivity.
Qed.

Lemma glob_result getLatest fetch fuel (args : BitbucketGlobToolArgs) config isMatch files log :
  getLatest = inr config ->
  picomatch (filePattern args) = inr isMatch ->
  fetchAllFiles fetch (project args) (repository args) config fuel [] = Returned files log ->
  result_of (tool getLatest fetch fuel args) = Some (delivered args isMatch files).
Proof.
  intros Hc Hp Hrun. destruct (glob_run _ _ _ _ _ _ _ _ Hc Hp Hrun) as [requests Htool].
  unfold result_of, run. rewrite Htool. cbn [log_of]. unfold done_result.
  rewrite events_of_glob_run. reflexivity.
Qed.

End GlobFacts.

Section GlobClaims.

Import Glob.

Context {Config URI : Type}.
Variable configService_getLatest : JS.Exn + Config.
Variable fetchFromBitbucketAPI :
  Request -> Config -> JS.Exn + BitbucketAPIResponse BitbucketBrowseResponse.
Variable picomatch : string -> JS.Exn + (string -> bool).
Variable URI_from : string -> string -> URI.
Variable toURIString : URI -> string.
Variable toFilePathOrURI : string -> string.

Local Abbreviation tool :=
  (bitbucketGlobTool configService_getLatest fetchFromBitbucketAPI picomatch
     URI_from toURIString toFilePathOrURI).
Local Abbreviation delivered := (Glob.delivered URI_from toURIString toFilePathOrURI).
Local Abbreviation loop := (fetchDirectory_from fetchFromBitbucketAPI).
Local Abbreviation traverse := (fetchAllFiles fetchFromBitbucketAPI).

(** C2: on a finite, acyclic tree whose pages advance the cursor, the
    traversal terminates: from some amount of fuel on, every run has the
    same outcome, which is not pending, and which is a file list when no
    request is rejected.  Moreover a paging loop that returns has moved its
    cursor along the [nextPageStart] of the pages it fetched, and has
    stopped at a cursor whose fetch failed or whose page was the last. *)
Theorem glob_traversal_terminates (project repository : string) (config : Config)
  (log : list (Effect (list string))) :
  FiniteTree fetchFromBitbucketAPI project repository config EmptyString ->
  Advancing fetchFromBitbucketAPI project repository config ->
  (exists fuel outcome,
      settled outcome
      /\ (forall fuel', (fuel <= fuel')%nat -> traverse project repository config fuel' log = outcome)
      /\ (Resolving fetchFromBitbucketAPI project repository config ->
          exists files log', outcome = Returned files log'))
  /\ (forall fuel path start allFiles log0 files log',
         0 <= start ->
         loop project repository config fuel path start allFiles log0 = Returned files log' ->
         exists final,
           Paging fetchFromBitbucketAPI project repository config path start final
           /\ (fails_at fetchFromBitbucketAPI project repository config path final
               \/ exists page,
                   page_at fetchFromBitbucketAPI project repository config path final = Some page
                   /\ isLastPage page = true)).
Proof.
  intros Htree Hadv. split.
  - destruct (loop_settles _ _ _ _ Hadv _ Htree 0 [] log (Z.le_refl 0)) as [fuel Hfuel].
    exists fuel, (traverse project repository config fuel log).
    split; [exact Hfuel|]. split.
    + intros fuel' Hle. apply loop_more_fuel; [exact Hfuel | exact Hle].
    + intros Hres. unfold fetchAllFiles, fetchDirectory in *.
      destruct (loop project repository config fuel EmptyString 0 [] log) as [|e l|files l] eqn:E.
      * destruct Hfuel.
      * exfalso. exact (loop_never_throws _ _ _ _ Hres _ _ _ _ _ _ _ E).
      * eauto.
  - intros fuel path start allFiles log0 files log' H0 Hrun.
    exact (loop_paging _ _ _ _ Hadv fuel path start allFiles log0 files log' H0 Hrun).
Qed.

(** C3: a page fetch that fails ends the paging loop of its directory with
    the files gathered so far and emits nothing; the loop over the items of
    the parent page goes on with the next sibling; whatever pages failed,
    a traversal that returns is followed by one done event and no error
    event; an empty repository and a pattern without a match give a done
    event with the empty list. *)
Theorem glob_failed_page_skips_branch_only :
  (forall project repository config fuel path start allFiles log,
      fails_at fetchFromBitbucketAPI project repository config path start ->
      loop project repository config (S fuel) path start allFiles log
      = Returned allFiles (log ++ [Fetch (browse project repository path start)]))
  /\ (forall project repository config fuel dir rest allFiles log,
         type dir = DIRECTORY ->
         fails_at fetchFromBitbucketAPI project repository config (itemPath dir) 0 ->
         forOf (visit (fun p => loop project repository config (S fuel) p 0)) (dir :: rest)
           allFiles log
         = forOf (visit (fun p => loop project repository config (S fuel) p 0)) rest
             allFiles (log ++ [Fetch (browse project repository (itemPath dir) 0)]))
  /\ (forall fuel args config isMatch files log,
         configService_getLatest = inr config ->
         picomatch (filePattern args) = inr isMatch ->
         traverse (project args) (repository args) config fuel [] = Returned files log ->
         events <$> run (tool fuel args)
         = Some [progress args; Done (delivered args isMatch files)])
  /\ (forall fuel args config isMatch page,
         configService_getLatest = inr config ->
         picomatch (filePattern args) = inr isMatch ->
         page_at fetchFromBitbucketAPI (project args) (repository args) config EmptyString 0
         = Some page ->
         values page = [] -> isLastPage page = true ->
         events <$> run (tool (S fuel) args) = Some [progress args; Done []])
  /\ (forall fuel args config isMatch files log,
         configService_getLatest = inr config ->
         picomatch (filePattern args) = inr isMatch ->
         traverse (project args) (repository args) config fuel [] = Returned files log ->
         List.filter isMatch files = [] ->
         events <$> run (tool fuel args) = Some [progress args; Done []]).
Proof.
  split; [|split; [|split; [|split]]].
  - intros project repository config fuel path start allFiles log Hfail.
    apply loop_failed. exact Hfail.
  - intros project repository config fuel dir rest allFiles log Ht Hfail.
    rewrite forOf_cons. unfold visit at 1. rewrite Ht.
    rewrite (loop_failed _ _ _ _ _ _ _ _ _ Hfail). reflexivity.
  - intros fuel args config isMatch files log Hc Hp Hrun.
    exact (glob_events _ _ _ _ _ _ _ _ _ _ _ _ Hc Hp Hrun).
  - intros fuel args config isMatch page Hc Hp Hpage Hvalues Hlast.
    assert (Hrun : traverse (project args) (repository args) config (S fuel) []
                   = Returned [] ([] ++ [Fetch (browse (project args) (repository args) EmptyString 0)])).
    { unfold fetchAllFiles, fetchDirectory. rewrite (loop_page _ _ _ _ _ _ _ _ _ page Hpage).
      rewrite Hvalues, Hlast. reflexivity. }
    rewrite (glob_events _ _ _ _ _ _ _ _ _ _ _ _ Hc Hp Hrun).
    unfold Glob.delivered. cbn [List.filter]. unfold paginate, JS.slice_from.
    destruct (JS.truthy_number _); rewrite slice_nil; reflexivity.
  - intros fuel args config isMatch files log Hc Hp Hrun Hnone.
    rewrite (glob_events _ _ _ _ _ _ _ _ _ _ _ _ Hc Hp Hrun).
    unfold Glob.delivered. rewrite Hnone. unfold paginate, JS.slice_from.
    destruct (JS.truthy_number _); rewrite slice_nil; reflexivity.
Qed.

(** C4: the output is a function of the arguments and of the traversed
    file list, so two invocations that traverse the same list, even of
    two servers, deliver the same events; the page [(offset k, limit n)]
    is the slice from [k] to [k + n] of the page [(offset 0, limit k + n)];
    and with the limit 0 the page runs from the offset to the end. *)
Theorem glob_pagination_coherent fuel (args : BitbucketGlobToolArgs) config isMatch files log :
  configService_getLatest = inr config ->
  picomatch (filePattern args) = inr isMatch ->
  traverse (project args) (repository args) config fuel [] = Returned files log ->
  (forall getLatest' fetch' config' fuel' log',
      getLatest' = inr config' ->
      fetchAllFiles fetch' (project args) (repository args) config' fuel' [] = Returned files log' ->
      events <$> run (bitbucketGlobTool (Config:=Config) getLatest' fetch' picomatch
                        URI_from toURIString toFilePathOrURI fuel' args)
      = events <$> run (tool fuel args))
  /\ (forall k n, 0 <= k -> 0 < n ->
      exists page whole,
        result_of (tool fuel (paged args n k)) = Some page
        /\ result_of (tool fuel (paged args (k + n) 0)) = Some whole
        /\ page = JS.slice whole k (k + n))
  /\ (forall k,
        result_of (tool fuel (paged args 0 k))
        = Some (map (fileUri URI_from toURIString toFilePathOrURI (project args) (repository args))
                  (JS.slice_from (List.filter isMatch files) k)))
  /\ (forall k, 0 <= k ->
        JS.slice_from (List.filter isMatch files) k
        = drop (Z.to_nat k) (List.filter isMatch files)).
Proof.
  intros Hc Hp Hrun. split; [|split; [|split]].
  - intros getLatest' fetch' config' fuel' log' Hc' Hrun'.
    rewrite (glob_events _ _ _ _ _ _ _ _ _ _ _ _ Hc Hp Hrun).
    rewrite (glob_events _ _ _ _ _ _ _ _ _ _ _ _ Hc' Hp Hrun'). reflexivity.
  - intros k n Hk Hn. eexists _, _.
    split; [exact (glob_result _ _ _ _ _ _ _ (paged args n k) _ _ _ _ Hc Hp Hrun)|].
    split; [exact (glob_result _ _ _ _ _ _ _ (paged args (k + n) 0) _ _ _ _ Hc Hp Hrun)|].
    change (delivered (paged args n k) isMatch files)
      with (map (fileUri URI_from toURIString toFilePathOrURI (project args) (repository args))
              (paginate n k (List.filter isMatch files))).
    change (delivered (paged args (k + n) 0) isMatch files)
      with (map (fileUri URI_from toURIString toFilePathOrURI (project args) (repository args))
              (paginate (k + n) 0 (List.filter isMatch files))).
    unfold paginate, JS.truthy_number.
    destruct (n =? 0) eqn:En; [lia|]. destruct (k + n =? 0) eqn:Ekn; [lia|]. cbn [negb].
    rewrite slice_map. f_equal. rewrite Z.add_0_l. symmetry. apply slice_of_prefix; assumption.
  - intros k. rewrite (glob_result _ _ _ _ _ _ _ (paged args 0 k) _ _ _ _ Hc Hp Hrun).
    reflexivity.
  - intros k Hk. apply slice_from_nonneg. exact Hk.
Qed.

End GlobClaims.

(** ** The sample repository is a finite tree *)

Section SampleTree.

Import Glob.

Local Abbreviation page_at := (Glob.page_at Sample.tree_server "P" "r" tt).
Local Abbreviation FiniteTree := (Glob.FiniteTree Sample.tree_server "P" "r" tt).

(** Decides which page of the sample server a request names: each test of
    the server on the address is replaced by what it says of the path and
    the cursor. *)
Ltac which_page :=
  unfold Glob.page_at, Glob.fails_at, browse, Sample.tree_server, Sample.url in *;
  repeat match goal with
    | H : context [String.eqb ?a ?b] |- _ =>
        let E := fresh "E" in
        destruct (String.eqb a b) eqn:E;
        [ apply String.eqb_eq in E;
          cbv [Sample.url Glob.apiPath JS.truthy_string] in E;
          cbn [String.append] in E; simplify_eq
        | clear E ]
    | |- context [String.eqb ?a ?b] =>
        let E := fresh "E" in
        destruct (String.eqb a b) eqn:E;
        [ apply String.eqb_eq in E;
          cbv [Sample.url Glob.apiPath JS.truthy_string] in E;
          cbn [String.append] in E; simplify_eq
        | clear E ]
    end.

Lemma secret_finite : FiniteTree "secret".
Proof.
  apply (finite_tree _ _ _ _ "secret" 0).
  - intros start page _ H. which_page; cbn in H; simplify_eq; reflexivity.
  - intros start page item H Hin Ht. which_page; cbn in H; simplify_eq.
Qed.

Lemma sub_finite : FiniteTree "dir/sub".
Proof.
  apply (finite_tree _ _ _ _ "dir/sub" 0).
  - intros start page _ H. which_page; cbn in H; simplify_eq; reflexivity.
  - intros start page item H Hin Ht. which_page; cbn in H; simplify_eq.
    cbn in Hin. destruct Hin as [<-|[]]. discriminate Ht.
Qed.

Lemma dir_finite : FiniteTree "dir".
Proof.
  apply (finite_tree _ _ _ _ "dir" 0).
  - intros start page _ H. which_page; cbn in H; simplify_eq; reflexivity.
  - intros start page item H Hin Ht. which_page; cbn in H; simplify_eq.
    cbn in Hin. destruct Hin as [<-|[<-|[]]]; [discriminate Ht | exact sub_finite].
Qed.

Lemma tree_finite : FiniteTree EmptyString.
Proof.
  apply (finite_tree _ _ _ _ EmptyString 1).
  - intros start page Hs H. which_page; cbn in H; simplify_eq; try reflexivity. lia.
  - intros start page item H Hin Ht. which_page; cbn in H; simplify_eq.
    + cbn in Hin. destruct Hin as [<-|[<-|[<-|[]]]];
        [discriminate Ht | exact secret_finite | exact dir_finite].
    + cbn in Hin. destruct Hin as [<-|[]]. discriminate Ht.
Qed.

Lemma tree_advancing : Glob.Advancing Sample.tree_server "P" "r" tt.
Proof.
  intros path start page H Hlast.
  destruct path as [|c path]; which_page; cbn in H; simplify_eq; cbn in Hlast; try discriminate.
  exists 3. split; [reflexivity | lia].
Qed.

Lemma tree_resolving : Glob.Resolving Sample.tree_server "P" "r" tt.
Proof.
  intros path start. unfold browse, Sample.tree_server.
  repeat match goal with
    | |- context [String.eqb ?a ?b] => destruct (String.eqb a b)
    end; eexists; reflexivity.
Qed.

Lemma secret_fails : Glob.fails_at Sample.tree_server "P" "r" tt "secret" 0.
Proof. eexists. split; [reflexivity | left; reflexivity]. Qed.

End SampleTree.

(** ** bitbucket_glob on the sample repository *)

(** The traversal of the sample repository with four units of fuel. *)
Lemma sample_traversal :
  Glob.fetchAllFiles Sample.tree_server "P" "r" tt 4 []
  = Returned ["a.ts"; "dir/c.ts"; "dir/sub/d.ts"; "b.js"]
      (map Fetch
         [GET (Sample.url EmptyString 0); GET (Sample.url "secret" 0); GET (Sample.url "dir" 0);
          GET (Sample.url "dir/sub" 0); GET (Sample.url EmptyString 3)]).
Proof. vm_compute. reflexivity. Qed.

(** C2 on the sample repository: its tree is finite and its pages advance,
    and from some fuel on the traversal returns the four files, depth
    first. *)
Lemma glob_traversal_terminates_witness :
  Glob.FiniteTree Sample.tree_server "P" "r" tt EmptyString
  /\ Glob.Advancing Sample.tree_server "P" "r" tt
  /\ exists fuel log,
      forall fuel', (fuel <= fuel')%nat ->
        Glob.fetchAllFiles Sample.tree_server "P" "r" tt fuel' []
        = Returned ["a.ts"; "dir/c.ts"; "dir/sub/d.ts"; "b.js"] log.
Proof.
  split; [exact tree_finite|]. split; [exact tree_advancing|].
  destruct (glob_traversal_terminates Sample.tree_server "P" "r" tt []
              tree_finite tree_advancing) as [(fuel & outcome & _ & Hall & _) _].
  exists (Nat.max fuel 4). eexists. intros fuel' Hle.
  rewrite (Hall fuel') by lia. rewrite <- (Hall (Nat.max fuel 4)) by lia.
  pose proof sample_traversal as Hs.
  unfold Glob.fetchAllFiles, Glob.fetchDirectory in *.
  rewrite (loop_more_fuel Sample.tree_server "P" "r" tt 4);
    [exact Hs | rewrite Hs; exact I | lia].
Defined.

(** C3 on the sample repository, whose directory [secret] answers 403: the
    files listed after it are delivered, in one done event; the empty
    repository and a pattern without a match deliver the empty list. *)
Lemma glob_failed_page_skips_branch_only_witness :
  Glob.fails_at Sample.tree_server "P" "r" tt "secret" 0
  /\ events <$> run (Sample.glob Sample.tree_server 4 (Sample.glob_args ".ts" None None))
     = Some [Glob.progress (Sample.glob_args ".ts" None None);
             Done ["file:///P/r/a.ts"; "file:///P/r/dir/c.ts"; "file:///P/r/dir/sub/d.ts"]]
  /\ events <$> run (Sample.glob Sample.empty_server 1 (Sample.glob_args ".ts" None None))
     = Some [Glob.progress (Sample.glob_args ".ts" None None); Done []]
  /\ events <$> run (Sample.glob Sample.tree_server 4 (Sample.glob_args ".py" None None))
     = Some [Glob.progress (Sample.glob_args ".py" None None); Done []].
Proof.
  split; [exact secret_fails|].
  destruct (glob_failed_page_skips_branch_only Sample.getLatest Sample.tree_server
              Sample.picomatch Sample.URI_from Sample.toURIString Sample.toFilePathOrURI)
    as (_ & _ & Hdone & _ & Hnone).
  destruct (glob_failed_page_skips_branch_only Sample.getLatest Sample.empty_server
              Sample.picomatch Sample.URI_from Sample.toURIString Sample.toFilePathOrURI)
    as (_ & _ & _ & Hempty & _).
  split; [|split].
  - exact (Hdone 4%nat (Sample.glob_args ".ts" None None) tt (Sample.ends_with ".ts") _ _
             eq_refl eq_refl sample_traversal).
  - exact (Hempty 0%nat (Sample.glob_args ".ts" None None) tt (Sample.ends_with ".ts")
             (Glob.mkChildren [] true None) eq_refl eq_refl eq_refl eq_refl eq_refl).
  - exact (Hnone 4%nat (Sample.glob_args ".py" None None) tt (Sample.ends_with ".py") _ _
             eq_refl eq_refl sample_traversal eq_refl).
Defined.

(** C4 on the sample repository and the pattern [.ts]: the page of offset 1
    and limit 1 is the slice from 1 to 2 of the page of offset 0 and limit
    2, and the limit 0 delivers everything from the offset 1 on. *)
Lemma glob_pagination_coherent_witness :
  let args := Sample.glob_args ".ts" None None in
  result_of (Sample.glob Sample.tree_server 4 (Glob.paged args 1 1))
  = Some ["file:///P/r/dir/c.ts"]
  /\ result_of (Sample.glob Sample.tree_server 4 (Glob.paged args 2 0))
     = Some ["file:///P/r/a.ts"; "file:///P/r/dir/c.ts"]
  /\ JS.slice ["file:///P/r/a.ts"; "file:///P/r/dir/c.ts"] 1 2 = ["file:///P/r/dir/c.ts"]
  /\ result_of (Sample.glob Sample.tree_server 4 (Glob.paged args 0 1))
     = Some ["file:///P/r/dir/c.ts"; "file:///P/r/dir/sub/d.ts"].
Proof.
  intros args.
  destruct (glob_pagination_coherent Sample.getLatest Sample.tree_server Sample.picomatch
              Sample.URI_from Sample.toURIString Sample.toFilePathOrURI
              4%nat args tt (Sample.ends_with ".ts") _ _ eq_refl eq_refl sample_traversal)
    as (_ & Hpage & Hrest & _).
  destruct (Hpage 1 1 ltac:(lia) ltac:(lia)) as (page & whole & H1 & H2 & Hslice).
  unfold Sample.glob. split; [|split; [|split]].
  - rewrite H1. f_equal. rewrite Hslice.
    assert (Hw : Some whole = Some ["file:///P/r/a.ts"; "file:///P/r/dir/c.ts"]).
    { rewrite <- H2. vm_compute. reflexivity. }
    injection Hw as ->. reflexivity.
  - vm_compute. reflexivity.
  - reflexivity.
  - rewrite (Hrest 1). reflexivity.
Defined.

(** * Further properties of the adapters *)

(** A filter keeps a sublist. *)
Lemma filter_sublist {A} (f : A -> bool) (l : list A) : List.filter f l `sublist_of` l.
Proof.
  induction l as [|x l IH]; cbn [List.filter]; [constructor|].
  destruct (f x); [apply sublist_skip | apply sublist_cons]; exact IH.
Qed.

Lemma Forall_of_sublist {A} (P : A -> Prop) (l1 l2 : list A) :
  l1 `sublist_of` l2 -> Forall P l2 -> Forall P l1.
Proof.
  induction 1 as [|x l1 l2 _ IH|x l1 l2 _ IH]; intros Hall; [constructor| |].
  - inversion Hall; subst. constructor; [assumption | apply IH; assumption].
  - inversion Hall; subst. apply IH. assumption.
Qed.

(** ** list_projects *)

Section ListProjectsMore.

Import ListProjects.

Context {Config : Type}.
Variable configService_getLatest : JS.Exn + Config.
Variable fetchFromBitbucketAPI :
  Request -> Config -> JS.Exn + BitbucketAPIResponse (BitbucketPaginatedResponse BitbucketProject.t).
Variable RegExp : string -> string -> JS.Exn + (string -> bool).

Local Abbreviation tool :=
  (bitbucketListProjectsTool configService_getLatest fetchFromBitbucketAPI RegExp).

(** The run of an invocation that passes the validation, by what the
    collaborators answer. *)
Lemma list_projects_aligned_run (args : ListProjectsToolArgs) :
  let limit := default 30 (limit args) in
  let offset := default 0 (offset args) in
  limit <> 0 -> Z.rem offset limit = 0 ->
  exists progress,
    tool args [] =
    match configService_getLatest with
    | inl e =>
        Returned tt [GetLatest; Next (Error ("Error fetching projects: " +:+ JS.message e));
                     Complete]
    | inr config =>
        match fetchFromBitbucketAPI (GET (apiPath limit offset)) config with
        | inl e =>
            Returned tt
              [GetLatest; Next (InProgress progress); Fetch (GET (apiPath limit offset));
               Next (Error ("Error fetching projects: " +:+ JS.message e)); Complete]
        | inr response =>
            Returned tt
              [GetLatest; Next (InProgress progress); Fetch (GET (apiPath limit offset));
               Next (match ok response, data response with
                     | true, Some page =>
                         let results :=
                           map to_result (apply_pattern RegExp (pattern args) (values page)) in
                         Done (mkResult results
                                 (size_or (size page) (Z.of_nat (length results))))
                     | _, _ =>
                         Error ("Failed to fetch projects: " +:+ JS.toString (status response)
                                +:+ " "
                                +:+ (if JS.truthy_string (statusText response)
                                     then statusText response else "Unknown error"))
                     end);
               Complete]
        end
    end.
Proof.
  intros limit offset Hl Hr.
  unfold bitbucketListProjectsTool. fold limit offset.
  destruct (limit =? 0) eqn:E0; [lia|].
  destruct (Z.rem offset limit =? 0) eqn:E1; [|lia].
  cbn [orb negb]. unfold executeSearch. run_async. eexists.
  destruct configService_getLatest as [e|config]; cbn [app]; [reflexivity|].
  destruct (fetchFromBitbucketAPI _ config) as [e|response]; cbn [app]; [reflexivity|].
  destruct (ok response); [|reflexivity].
  destruct (data response); reflexivity.
Qed.

Lemma list_projects_misaligned_run (args : ListProjectsToolArgs) :
  let limit := default 30 (limit args) in
  let offset := default 0 (offset args) in
  limit = 0 \/ Z.rem offset limit <> 0 ->
  tool args [] = Returned tt [Next (Error (offset_message offset limit)); Complete].
Proof.
  intros limit offset H.
  unfold bitbucketListProjectsTool. fold limit offset.
  destruct (limit =? 0) eqn:E0; [reflexivity|].
  destruct (Z.rem offset limit =? 0) eqn:E1; [lia | reflexivity].
Qed.

Lemma aligned_or_not (limit offset : Z) :
  (limit <> 0 /\ Z.rem offset limit = 0) \/ (limit = 0 \/ Z.rem offset limit <> 0).
Proof. lia. Qed.

(** X1: whatever the arguments and whatever the collaborators answer, a run
    of list_projects returns, its log follows the event protocol (one
    terminal event, then the completion), and it sends at most one request,
    the GET of the projects page with the limit and the offset (30 and 0 by
    default). *)
Theorem list_projects_protocol (args : ListProjectsToolArgs) :
  exists log,
    tool args [] = Returned tt log
    /\ conforms log = true
    /\ (fetches log = []
        \/ fetches log
           = [GET ("rest/api/1.0/projects?limit=" +:+ JS.toString (default 30 (limit args))
                   +:+ "&start=" +:+ JS.toString (default 0 (offset args)))]).
Proof.
  destruct (aligned_or_not (default 30 (limit args)) (default 0 (offset args)))
    as [[Hl Hr] | Hbad].
  - destruct (list_projects_aligned_run args Hl Hr) as [progress Hrun].
    rewrite Hrun. clear Hrun.
    destruct configService_getLatest as [e|config].
    { eexists. split; [reflexivity|]. split; [reflexivity | left; reflexivity]. }
    destruct (fetchFromBitbucketAPI _ config) as [e|response].
    { eexists. split; [reflexivity|]. split; [reflexivity | right; reflexivity]. }
    eexists. split; [reflexivity|]. split; [|right; reflexivity].
    cbn [conforms]. destruct (ok response); [|reflexivity].
    destruct (data response); reflexivity.
  - rewrite (list_projects_misaligned_run args Hbad).
    eexists. split; [reflexivity|]. split; [reflexivity | left; reflexivity].
Qed.

(** X2: the configuration service is asked, and the network used, exactly
    when the offset is a multiple of a limit that is not zero: a limit of 0
    is refused like a misaligned offset, whatever the offset. *)
Theorem list_projects_validation (args : ListProjectsToolArgs) log :
  tool args [] = Returned tt log ->
  (calls log = [] <-> default 30 (limit args) = 0
                      \/ Z.rem (default 0 (offset args)) (default 30 (limit args)) <> 0).
Proof.
  intros Hrun.
  destruct (aligned_or_not (default 30 (limit args)) (default 0 (offset args)))
    as [[Hl Hr] | Hbad].
  - destruct (list_projects_aligned_run args Hl Hr) as [progress Hrun'].
    rewrite Hrun' in Hrun. clear Hrun'. split; [|lia]. intros Hcalls. exfalso.
    destruct configService_getLatest as [e|config].
    { injection Hrun as <-. discriminate Hcalls. }
    destruct (fetchFromBitbucketAPI _ config) as [e|response];
      injection Hrun as <-; discriminate Hcalls.
  - rewrite (list_projects_misaligned_run args Hbad) in Hrun. injection Hrun as <-.
    split; [intros _; exact Hbad | reflexivity].
Qed.

(** X3: a response that is not ok, or that carries no data, ends the run
    with one error event that names the status and the status text, or
    [Unknown error] when the status text is empty; no done event is
    emitted. *)
Theorem list_projects_fetch_failure (args : ListProjectsToolArgs) config response :
  let limit := default 30 (limit args) in
  let offset := default 0 (offset args) in
  limit <> 0 -> Z.rem offset limit = 0 ->
  configService_getLatest = inr config ->
  fetchFromBitbucketAPI (GET (apiPath limit offset)) config = inr response ->
  ok response = false \/ data response = None ->
  exists progress,
    events <$> run (tool args)
    = Some [InProgress progress;
            Error ("Failed to fetch projects: " +:+ JS.toString (status response) +:+ " "
                   +:+ (if JS.truthy_string (statusText response)
                        then statusText response else "Unknown error"))]
    /\ result_of (tool args) = None.
Proof.
  intros limit offset Hl Hr Hc Hf Hfail.
  destruct (list_projects_aligned_run args Hl Hr) as [progress Hrun].
  fold limit offset in Hrun.
  exists progress. unfold result_of, run. rewrite Hrun, Hc, Hf.
  destruct Hfail as [Hok | Hd].
  - rewrite Hok. split; reflexivity.
  - rewrite Hd. destruct (ok response); split; reflexivity.
Qed.

(** X4: when the configuration service rejects, the run is one error event
    with the message of the exception, without a progress event and without
    a request; when the request is rejected, the error event follows the
    progress event. *)
Theorem list_projects_rejections (args : ListProjectsToolArgs) :
  let limit := default 30 (limit args) in
  let offset := default 0 (offset args) in
  limit <> 0 -> Z.rem offset limit = 0 ->
  (forall e, configService_getLatest = inl e ->
     tool args [] =
     Returned tt [GetLatest; Next (Error ("Error fetching projects: " +:+ JS.message e));
                  Complete])
  /\ (forall config e,
        configService_getLatest = inr config ->
        fetchFromBitbucketAPI (GET (apiPath limit offset)) config = inl e ->
        exists progress,
          events <$> run (tool args)
          = Some [InProgress progress; Error ("Error fetching projects: " +:+ JS.message e)]).
Proof.
  intros limit offset Hl Hr.
  destruct (list_projects_aligned_run args Hl Hr) as [progress Hrun].
  fold limit offset in Hrun. split.
  - intros e He. rewrite Hrun, He. reflexivity.
  - intros config e Hc Hf. exists progress.
    unfold run. rewrite Hrun, Hc, Hf. reflexivity.
Qed.

(** X5: the projects of a result are the server's projects of the page, in
    the server's order, with some left out by the filter and none added;
    without a pattern, or with the empty pattern, none is left out; and no
    project of a result has an empty description. *)
Theorem list_projects_result_is_sublist (args : ListProjectsToolArgs) config response page :
  let limit := default 30 (limit args) in
  let offset := default 0 (offset args) in
  limit <> 0 -> Z.rem offset limit = 0 ->
  configService_getLatest = inr config ->
  fetchFromBitbucketAPI (GET (apiPath limit offset)) config = inr response ->
  ok response = true -> data response = Some page ->
  exists r kept,
    result_of (tool args) = Some r
    /\ projects r = map to_result kept
    /\ kept `sublist_of` values page
    /\ (pattern args = None \/ pattern args = Some EmptyString -> kept = values page)
    /\ Forall (fun p => ProjectResult.description p <> Some EmptyString) (projects r).
Proof.
  intros limit offset Hl Hr Hc Hf Hok Hd.
  destruct (list_projects_aligned_run args Hl Hr) as [progress Hrun].
  fold limit offset in Hrun.
  eexists _, (apply_pattern RegExp (pattern args) (values page)).
  split; [unfold result_of, run; rewrite Hrun, Hc, Hf, Hok, Hd; reflexivity|].
  split; [reflexivity|]. split; [|split].
  - unfold apply_pattern. destruct (pattern args) as [pat|]; [|reflexivity].
    destruct (JS.truthy_string pat); [|reflexivity].
    destruct (RegExp pat "i"); apply filter_sublist.
  - intros [Hp | Hp]; unfold apply_pattern; rewrite Hp; reflexivity.
  - cbn [projects]. apply Forall_forall. intros p Hin.
    apply list_elem_of_In, in_map_iff in Hin. destruct Hin as (b & <- & _).
    unfold to_result, description_or_null. cbn [ProjectResult.description].
    destruct (BitbucketProject.description b) as [[|c d]|]; discriminate.
Qed.

End ListProjectsMore.

(** X2 on the invocation [{limit: 0, offset: 0}]: it is refused without a
    call, although the offset is 0. *)
Lemma list_projects_validation_witness :
  let args := ListProjects.mkArgs None (Some 0) (Some 0) in
  let log : list (Effect ListProjects.Result) :=
    [Next (Error "offset (0) must be divisible by limit (0) for pagination. Try offset values like 0, 0, 0, etc.");
     Complete] in
  ListProjects.bitbucketListProjectsTool Sample.getLatest
    (Sample.always (Sample.respond Sample.page_of_three)) Rx.RegExp args [] = Returned tt log
  /\ (calls log = [] <-> 0 = 0 \/ Z.rem 0 0 <> 0).
Proof.
  intros args log. split; [reflexivity|].
  exact (list_projects_validation Sample.getLatest
           (Sample.always (Sample.respond Sample.page_of_three)) Rx.RegExp args log eq_refl).
Defined.

(** X3 on a server that answers 503 without a status text. *)
Lemma list_projects_fetch_failure_witness :
  exists progress,
    events <$> run (ListProjects.bitbucketListProjectsTool Sample.getLatest
                      (Sample.always Sample.unavailable) Rx.RegExp
                      (ListProjects.mkArgs None None None))
    = Some [InProgress progress; Error "Failed to fetch projects: 503 Unknown error"].
Proof.
  destruct (list_projects_fetch_failure Sample.getLatest (Sample.always Sample.unavailable)
              Rx.RegExp (ListProjects.mkArgs None None None) tt Sample.unavailable)
    as (progress & Hevents & _);
    [discriminate | reflexivity | reflexivity | reflexivity | left; reflexivity |].
  exists progress. exact Hevents.
Defined.

(** X4 on a configuration service that rejects and on a server that rejects
    every request. *)
Lemma list_projects_rejections_witness :
  ListProjects.bitbucketListProjectsTool Sample.no_config
    (Sample.always (Sample.respond Sample.page_of_three)) Rx.RegExp
    (ListProjects.mkArgs None None None) []
  = Returned tt [GetLatest; Next (Error "Error fetching projects: no configuration"); Complete]
  /\ exists progress,
      events <$> run (ListProjects.bitbucketListProjectsTool Sample.getLatest
                        Sample.rejecting Rx.RegExp (ListProjects.mkArgs None None None))
      = Some [InProgress progress; Error "Error fetching projects: socket hang up"].
Proof.
  split.
  - apply (proj1 (list_projects_rejections Sample.no_config
                    (Sample.always (Sample.respond Sample.page_of_three)) Rx.RegExp
                    (ListProjects.mkArgs None None None)
                    ltac:(discriminate) eq_refl) (JS.Error "no configuration")).
    reflexivity.
  - apply (proj2 (list_projects_rejections Sample.getLatest Sample.rejecting Rx.RegExp
                    (ListProjects.mkArgs None None None)
                    ltac:(discriminate) eq_refl) tt (JS.Error "socket hang up"));
      reflexivity.
Defined.

(** X5 on a page of three projects and the pattern [docs]: one project is
    kept. *)
Lemma list_projects_result_is_sublist_witness :
  exists r kept,
    result_of (ListProjects.bitbucketListProjectsTool Sample.getLatest
                 (Sample.always (Sample.respond Sample.page_of_three)) Rx.RegExp
                 (ListProjects.mkArgs (Some "docs") None None))
    = Some r
    /\ ListProjects.projects r = map ListProjects.to_result kept
    /\ kept `sublist_of` [Sample.P1; Sample.P2; Sample.P3]
    /\ ListProjects.projects r = [ListProjects.to_result Sample.P3].
Proof.
  destruct (list_projects_result_is_sublist Sample.getLatest
              (Sample.always (Sample.respond Sample.page_of_three)) Rx.RegExp
              (ListProjects.mkArgs (Some "docs") None None) tt
              (Sample.respond Sample.page_of_three) Sample.page_of_three)
    as (r & kept & Hr & Hp & Hsub & _);
    [discriminate | reflexivity | reflexivity | reflexivity | reflexivity | reflexivity |].
  exists r, kept. split; [exact Hr|]. split; [exact Hp|]. split; [exact Hsub|].
  assert (Hres : Some r = Some (ListProjects.mkResult [ListProjects.to_result Sample.P3] 3)).
  { rewrite <- Hr. vm_compute. reflexivity. }
  injection Hres as ->. reflexivity.
Defined.

(** ** search_repositories *)

Section SearchRepositoriesMore.

Import SearchRepositories.

Context {Config : Type}.
Variable configService_getLatest : JS.Exn + Config.
Variable fetchFromBitbucketAPI :
  Request -> Config -> JS.Exn + BitbucketAPIResponse SearchRepositoriesResponse.

Local Abbreviation tool :=
  (bitbucketSearchRepositoriesTool configService_getLatest fetchFromBitbucketAPI).

(** The run of the adapter, by what the collaborators answer. *)
Lemma search_repositories_run (args : SearchRepositoriesToolArgs) :
  let request := POST searchPath (query args) "repositories" (default 30 (limit args)) in
  let progress :=
    InProgress ["Searching for repositories matching " +:+ JS.quote +:+ query args +:+ JS.quote
                +:+ "..."] in
  let failed e := Error ("Error searching Bitbucket repositories: " +:+ JS.message e) in
  tool args [] =
  match configService_getLatest with
  | inl e => Returned tt [Next progress; GetLatest; Next (failed e); Complete]
  | inr config =>
      match fetchFromBitbucketAPI request config with
      | inl e => Returned tt [Next progress; GetLatest; Fetch request; Next (failed e); Complete]
      | inr response =>
          answered args
            (if negb (ok response) then failed (JS.Error (failed_message response))
             else match data response with
                  | None =>
                      failed (JS.Error "No data returned from Bitbucket repository search")
                  | Some d =>
                      match repositories d with
                      | None => Done (mkResult [] 0)
                      | Some found => Done (mkResult (values found) (count found))
                      end
                  end)
      end
  end.
Proof.
  intros request progress failed.
  unfold bitbucketSearchRepositoriesTool, executeSearch, answered. run_async.
  destruct configService_getLatest as [e|config]; cbn [app]; [reflexivity|].
  fold request. destruct (fetchFromBitbucketAPI request config) as [e|response]; cbn [app];
    [reflexivity|].
  destruct (ok response); cbn [negb]; [|reflexivity].
  destruct (data response) as [d|]; [|reflexivity].
  destruct (repositories d); reflexivity.
Qed.

(** X6: whatever the collaborators answer, a run of search_repositories
    returns, its log follows the event protocol, and it sends at most one
    request: the POST of the query for the [repositories] entity with the
    limit (30 by default). *)
Theorem search_repositories_protocol (args : SearchRepositoriesToolArgs) :
  exists log,
    tool args [] = Returned tt log
    /\ conforms log = true
    /\ (fetches log = []
        \/ fetches log
           = [POST "rest/search/latest/search?avatarSize=64" (query args) "repositories"
                (default 30 (limit args))]).
Proof.
  rewrite search_repositories_run.
  destruct configService_getLatest as [e|config].
  { eexists. split; [reflexivity|]. split; [reflexivity | left; reflexivity]. }
  destruct (fetchFromBitbucketAPI _ config) as [e|response].
  { eexists. split; [reflexivity|]. split; [reflexivity | right; reflexivity]. }
  unfold answered. eexists. split; [reflexivity|]. split; [|right; reflexivity].
  cbn [conforms]. destruct (ok response); cbn [negb]; [|reflexivity].
  destruct (data response) as [d|]; [|reflexivity].
  destruct (repositories d); reflexivity.
Qed.

(** X7: a rejected configuration and a rejected request both end the run
    with one error event after the progress event, carrying the message of
    the exception; after a rejected configuration no request is sent. *)
Theorem search_repositories_rejections (args : SearchRepositoriesToolArgs) :
  let progress :=
    InProgress ["Searching for repositories matching " +:+ JS.quote +:+ query args +:+ JS.quote
                +:+ "..."] in
  (forall e, configService_getLatest = inl e ->
     exists log,
       tool args [] = Returned tt log
       /\ events log
          = [progress; Error ("Error searching Bitbucket repositories: " +:+ JS.message e)]
       /\ fetches log = [])
  /\ (forall config e,
        configService_getLatest = inr config ->
        fetchFromBitbucketAPI
          (POST searchPath (query args) "repositories" (default 30 (limit args))) config
        = inl e ->
        events <$> run (tool args)
        = Some [progress; Error ("Error searching Bitbucket repositories: " +:+ JS.message e)]).
Proof.
  intros progress. split.
  - intros e He. rewrite search_repositories_run, He. eexists.
    split; [reflexivity|]. split; reflexivity.
  - intros config e Hc Hf. unfold run. rewrite search_repositories_run, Hc, Hf. reflexivity.
Qed.

End SearchRepositoriesMore.

(** X7 on a configuration service that rejects and on a server that rejects
    every request. *)
Lemma search_repositories_rejections_witness :
  let args := SearchRepositories.mkArgs "api" None in
  let progress :=
    InProgress ["Searching for repositories matching " +:+ JS.quote +:+ "api" +:+ JS.quote +:+ "..."] in
  events <$> run (SearchRepositories.bitbucketSearchRepositoriesTool Sample.no_config
                    (Sample.always (Sample.respond Sample.found_repositories)) args)
  = Some [progress; Error "Error searching Bitbucket repositories: no configuration"]
  /\ events <$> run (SearchRepositories.bitbucketSearchRepositoriesTool Sample.getLatest
                       Sample.rejecting args)
     = Some [progress; Error "Error searching Bitbucket repositories: socket hang up"].
Proof.
  intros args progress. split.
  - destruct (proj1 (search_repositories_rejections Sample.no_config
                       (Sample.always (Sample.respond Sample.found_repositories)) args)
                (JS.Error "no configuration") eq_refl) as (log & Hrun & Hevents & _).
    unfold run. rewrite Hrun. cbn [log_of fmap option_fmap option_map]. rewrite Hevents.
    reflexivity.
  - exact (proj2 (search_repositories_rejections Sample.getLatest Sample.rejecting args)
             tt (JS.Error "socket hang up") eq_refl eq_refl).
Defined.

(** ** code_search *)

(** *** The translation of a glob *)

(** The replacement of single stars, one character at a time. *)
Lemma replace_star_cons (c : ascii) (s : string) :
  JS.replaceAll_from "*" "[^/]*" 0 (String c s)
  = if Ascii.eqb c "*" then "[^/]*" +:+ JS.replaceAll_from "*" "[^/]*" 0 s
    else String c (JS.replaceAll_from "*" "[^/]*" 0 s).
Proof.
  cbn [JS.replaceAll_from String.prefix String.length Nat.sub].
  destruct (ascii_dec "*" c) as [<-|Hne].
  - destruct s; reflexivity.
  - destruct (Ascii.eqb_spec c "*") as [->|_]; [contradiction Hne; reflexivity | reflexivity].
Qed.

Lemma append_cons (c : ascii) (s t : string) : String c s +:+ t = String c (s +:+ t).
Proof. reflexivity. Qed.

Lemma append_empty (t : string) : EmptyString +:+ t = t.
Proof. reflexivity. Qed.

Lemma includes_cons (c : ascii) (s sub : string) :
  JS.includes (String c s) sub = String.prefix sub (String c s) || JS.includes s sub.
Proof. reflexivity. Qed.

Lemma prefix_cons (a c : ascii) (p s : string) :
  String.prefix (String a p) (String c s) = Ascii.eqb a c && String.prefix p s.
Proof.
  cbn [String.prefix]. destruct (ascii_dec a c) as [->|Hne].
  - rewrite Ascii.eqb_refl. reflexivity.
  - destruct (Ascii.eqb_spec a c); [contradiction | reflexivity].
Qed.

(** After the replacement of single stars, followed by any text that does
    not start with a star, no star stands behind a dot, nor at the start. *)
Lemma replace_star_no_dot_star (s tail : string) :
  JS.includes tail ".*" = false -> String.prefix "*" tail = false ->
  JS.includes (JS.replaceAll_from "*" "[^/]*" 0 s +:+ tail) ".*" = false
  /\ String.prefix "*" (JS.replaceAll_from "*" "[^/]*" 0 s +:+ tail) = false.
Proof.
  intros Htail Hstart. induction s as [|c s [IHi IHp]]; [split; assumption|].
  rewrite replace_star_cons. destruct (Ascii.eqb_spec c "*") as [->|Hne].
  - rewrite !append_cons, append_empty.
    rewrite !includes_cons, !prefix_cons, IHi. split; reflexivity.
  - rewrite append_cons.
    rewrite includes_cons, !prefix_cons, IHi, IHp, andb_false_r. split; [reflexivity|].
    destruct (Ascii.eqb_spec "*" c) as [<-|_]; [contradiction Hne|]; reflexivity.
Qed.

(** X8: for every glob, the source of the regular expression holds no
    [.*]: every star in it closes a class [[^/]], so nothing that the
    translation writes for a double star can match a path separator. *)
Theorem glob_source_has_no_dot_star (fileGlob : string) :
  JS.includes (CodeSearch.globRegexSource fileGlob) ".*" = false.
Proof.
  unfold CodeSearch.globRegexSource, JS.replaceAll.
  rewrite append_cons, append_empty, includes_cons, prefix_cons.
  apply (replace_star_no_dot_star _ "$"); reflexivity.
Qed.

Section CodeSearchMore.

Import CodeSearch.

Context {Config : Type}.
Variable configService_getLatest : JS.Exn + Config.
Variable fetchFromBitbucketAPI :
  Request -> Config -> JS.Exn + BitbucketAPIResponse CodeSearchResponse.
Variable RegExp : string -> string -> JS.Exn + (string -> bool).

Local Abbreviation tool :=
  (bitbucketCodeSearchTool configService_getLatest fetchFromBitbucketAPI RegExp).

(** The hits that pass the project and repository filters, and then the
    glob filter, which may throw. *)
Lemma by_fileGlob_outcome (fileGlob : option string) (files : list CodeHit) log :
  by_fileGlob RegExp fileGlob files log =
  match fileGlob with
  | Some g =>
      if JS.truthy_string g then
        match RegExp (globRegexSource g) EmptyString with
        | inr globRegex => Returned (List.filter (fun f => globRegex (file f)) files) log
        | inl e => Threw e log
        end
      else Returned files log
  | None => Returned files log
  end.
Proof.
  unfold by_fileGlob. destruct fileGlob as [g|]; [|reflexivity].
  destruct (JS.truthy_string g); [|reflexivity].
  destruct (RegExp (globRegexSource g) EmptyString); reflexivity.
Qed.

(** The run of the adapter, by what the collaborators answer. *)
Lemma code_search_run (args : CodeSearchToolArgs) :
  let request := POST searchPath (query args) "code" (default 25 (limit args)) in
  let progress :=
    InProgress ["Searching for " +:+ JS.quote +:+ query args +:+ JS.quote +:+ " in code..."] in
  let failed e := Error ("Error searching Bitbucket code: " +:+ JS.message e) in
  tool args [] =
  match configService_getLatest with
  | inl e => Returned tt [Next progress; GetLatest; Next (failed e); Complete]
  | inr config =>
      match fetchFromBitbucketAPI request config with
      | inl e => Returned tt [Next progress; GetLatest; Fetch request; Next (failed e); Complete]
      | inr response =>
          Returned tt
            [Next progress; GetLatest; Fetch request;
             Next (if negb (ok response) then failed (JS.Error (failed_message response))
                   else match data response with
                        | None => failed (JS.Error "No data returned from Bitbucket code search")
                        | Some d =>
                            match code d with
                            | None => Done (mkResult [] 0)
                            | Some found =>
                                let passed :=
                                  by_repository (repository args)
                                    (by_project (project args) (values found)) in
                                let done kept :=
                                  Done (mkResult kept (Z.of_nat (length kept))) in
                                match fileGlob args with
                                | Some g =>
                                    if JS.truthy_string g then
                                      match RegExp (globRegexSource g) EmptyString with
                                      | inr globRegex =>
                                          done (List.filter (fun f => globRegex (file f)) passed)
                                      | inl e => failed e
                                      end
                                    else done passed
                                | None => done passed
                                end
                            end
                        end);
             Complete]
      end
  end.
Proof.
  intros request progress failed.
  unfold bitbucketCodeSearchTool, executeSearch.
  cbv beta delta [bind try_catch await next complete perform throw].
  destruct configService_getLatest as [e|config]; cbn [app]; [reflexivity|].
  fold request. destruct (fetchFromBitbucketAPI request config) as [e|response]; cbn [app];
    [reflexivity|].
  destruct (ok response); cbn [negb]; [|reflexivity].
  destruct (data response) as [d|]; [|reflexivity].
  destruct (code d) as [found|]; [|reflexivity].
  rewrite !by_fileGlob_outcome.
  destruct (fileGlob args) as [g|]; [|reflexivity].
  destruct (JS.truthy_string g); [|reflexivity].
  destruct (RegExp (globRegexSource g) EmptyString); reflexivity.
Qed.

(** X9: whatever the collaborators answer, a run of code_search returns,
    its log follows the event protocol, and it sends at most one request:
    the POST of the query for the [code] entity with the limit (25 by
    default); the project, repository and glob filters are never sent to
    the server. *)
Theorem code_search_protocol (args : CodeSearchToolArgs) :
  exists log,
    tool args [] = Returned tt log
    /\ conforms log = true
    /\ (fetches log = []
        \/ fetches log
           = [POST "rest/search/latest/search?avatarSize=64" (query args) "code"
                (default 25 (limit args))]).
Proof.
  rewrite code_search_run.
  destruct configService_getLatest as [e|config].
  { eexists. split; [reflexivity|]. split; [reflexivity | left; reflexivity]. }
  destruct (fetchFromBitbucketAPI _ config) as [e|response].
  { eexists. split; [reflexivity|]. split; [reflexivity | right; reflexivity]. }
  eexists. split; [reflexivity|]. split; [|right; reflexivity].
  cbn [conforms]. destruct (ok response); cbn [negb]; [|reflexivity].
  destruct (data response) as [d|]; [|reflexivity].
  destruct (code d) as [found|]; [|reflexivity].
  cbv zeta. destruct (fileGlob args) as [g|]; [|reflexivity].
  destruct (JS.truthy_string g); [|reflexivity].
  destruct (RegExp (globRegexSource g) EmptyString); reflexivity.
Qed.

(** X10: the answers to the search request, as for search_repositories: a
    response that is not ok gives one error event with the status, the
    status text and the first hundred characters of the response text; an
    ok response without data gives one error event; data without [code]
    gives a done event with no file and the count 0. *)
Theorem code_search_outcomes (args : CodeSearchToolArgs) config response :
  let progress :=
    InProgress ["Searching for " +:+ JS.quote +:+ query args +:+ JS.quote +:+ " in code..."] in
  configService_getLatest = inr config ->
  fetchFromBitbucketAPI (POST searchPath (query args) "code" (default 25 (limit args))) config
  = inr response ->
  (ok response = false ->
   events <$> run (tool args)
   = Some [progress;
           Error ("Error searching Bitbucket code: Bitbucket code search failed: "
                  +:+ JS.toString (status response) +:+ " " +:+ statusText response
                  +:+ match text response with
                      | Some t =>
                          if JS.truthy_string t then " - " +:+ JS.substring0 100 t
                          else EmptyString
                      | None => EmptyString
                      end)])
  /\ (ok response = true -> data response = None ->
      events <$> run (tool args)
      = Some [progress;
              Error "Error searching Bitbucket code: No data returned from Bitbucket code search"])
  /\ (forall d, ok response = true -> data response = Some d -> code d = None ->
      events <$> run (tool args) = Some [progress; Done (mkResult [] 0)]).
Proof.
  intros progress Hc Hf. unfold run. rewrite code_search_run, Hc, Hf.
  split; [|split].
  - intros ->. reflexivity.
  - intros -> ->. reflexivity.
  - intros d -> -> ->. reflexivity.
Qed.

(** X11: the files of a result are hits of the server, in the server's
    order, with some left out and none added; every file kept has the
    project key asked for, the repository slug asked for, and a path the
    compiled glob accepts, for each of these filters that is set and not
    empty; a filter that is absent or the empty string leaves nothing out. *)
Theorem code_search_filters_sound (args : CodeSearchToolArgs) config response d found r :
  configService_getLatest = inr config ->
  fetchFromBitbucketAPI (POST searchPath (query args) "code" (default 25 (limit args))) config
  = inr response ->
  ok response = true -> data response = Some d -> code d = Some found ->
  result_of (tool args) = Some r ->
  files r `sublist_of` values found
  /\ (forall p, project args = Some p -> JS.truthy_string p = true ->
        Forall (fun f => Project.key (Repository.project (repository_of f)) = p) (files r))
  /\ (forall s, repository args = Some s -> JS.truthy_string s = true ->
        Forall (fun f => Repository.slug (repository_of f) = s) (files r))
  /\ (forall g globRegex, fileGlob args = Some g -> JS.truthy_string g = true ->
        RegExp (globRegexSource g) EmptyString = inr globRegex ->
        Forall (fun f => globRegex (file f) = true) (files r))
  /\ (JS.truthy_opt (project args) = false -> JS.truthy_opt (repository args) = false ->
      JS.truthy_opt (fileGlob args) = false -> files r = values found).
Proof.
  intros Hc Hf Hok Hd Hcode Hr.
  unfold result_of, run in Hr. rewrite code_search_run, Hc, Hf, Hok, Hd, Hcode in Hr.
  cbn [negb log_of] in Hr. cbv zeta in Hr.
  assert (Hproj : by_project (project args) (values found) `sublist_of` values found).
  { unfold by_project. destruct (project args) as [p|]; [|reflexivity].
    destruct (JS.truthy_string p); [apply filter_sublist | reflexivity]. }
  assert (Hrepo : forall l, by_repository (repository args) l `sublist_of` l).
  { intros l. unfold by_repository. destruct (repository args) as [s|]; [|reflexivity].
    destruct (JS.truthy_string s); [apply filter_sublist | reflexivity]. }
  set (passed := by_repository (repository args) (by_project (project args) (values found))) in *.
  assert (Hpassed : passed `sublist_of` values found).
  { etransitivity; [apply Hrepo | exact Hproj]. }
  assert (Hkey : forall p, project args = Some p -> JS.truthy_string p = true ->
            Forall (fun f => Project.key (Repository.project (repository_of f)) = p) passed).
  { intros p Hp Ht. apply (Forall_of_sublist _ _ _ (Hrepo _)).
    unfold by_project. rewrite Hp, Ht. apply Forall_forall. intros f Hin.
    apply list_elem_of_In, filter_In in Hin. destruct Hin as [_ Heq].
    apply String.eqb_eq in Heq. exact Heq. }
  assert (Hslug : forall s, repository args = Some s -> JS.truthy_string s = true ->
            Forall (fun f => Repository.slug (repository_of f) = s) passed).
  { intros s Hs Ht. subst passed. unfold by_repository. rewrite Hs, Ht.
    apply Forall_forall. intros f Hin.
    apply list_elem_of_In, filter_In in Hin. destruct Hin as [_ Heq].
    apply String.eqb_eq in Heq. exact Heq. }
  assert (Hfiles : files r `sublist_of` passed
                   /\ (forall g globRegex, fileGlob args = Some g -> JS.truthy_string g = true ->
                         RegExp (globRegexSource g) EmptyString = inr globRegex ->
                         Forall (fun f => globRegex (file f) = true) (files r))
                   /\ (JS.truthy_opt (fileGlob args) = false -> files r = passed)).
  { destruct (fileGlob args) as [g|].
    - destruct (JS.truthy_string g) eqn:Ht.
      + destruct (RegExp (globRegexSource g) EmptyString) as [e|globRegex] eqn:Hre;
          [discriminate Hr|].
        injection Hr as <-. cbn [files]. split; [apply filter_sublist|]. split.
        * intros g' re' [= <-] _ Hre'. rewrite Hre in Hre'. injection Hre' as <-.
          apply Forall_forall. intros f Hin.
          apply list_elem_of_In, filter_In in Hin. exact (proj2 Hin).
        * cbn [JS.truthy_opt]. rewrite Ht. discriminate.
      + injection Hr as <-. cbn [files]. split; [reflexivity|]. split; [|reflexivity].
        intros g' re' [= <-] Ht'. rewrite Ht in Ht'. discriminate.
    - injection Hr as <-. cbn [files]. split; [reflexivity|]. split; [|reflexivity].
      intros g' re' Hg. discriminate Hg. }
  destruct Hfiles as (Hsub & Hglob & Hnoglob).
  split; [etransitivity; [exact Hsub | exact Hpassed]|].
  split; [intros p Hp Ht; exact (Forall_of_sublist _ _ _ Hsub (Hkey p Hp Ht))|].
  split; [intros s Hs Ht; exact (Forall_of_sublist _ _ _ Hsub (Hslug s Hs Ht))|].
  split; [exact Hglob|].
  intros Hp Hs Hg. rewrite (Hnoglob Hg). subst passed.
  unfold by_repository, by_project, JS.truthy_opt in *.
  destruct (project args) as [p|]; [rewrite Hp|];
    (destruct (repository args) as [s|]; [rewrite Hs|]); reflexivity.
Qed.

(** X12: when [new RegExp] refuses the source written for the glob, the run
    ends, after the request, with one error event carrying the message of
    the exception; no done event is emitted, whatever the server found. *)
Theorem code_search_invalid_glob (args : CodeSearchToolArgs) config response d found g e :
  configService_getLatest = inr config ->
  fetchFromBitbucketAPI (POST searchPath (query args) "code" (default 25 (limit args))) config
  = inr response ->
  ok response = true -> data response = Some d -> code d = Some found ->
  fileGlob args = Some g -> JS.truthy_string g = true ->
  RegExp (globRegexSource g) EmptyString = inl e ->
  events <$> run (tool args)
  = Some [InProgress ["Searching for " +:+ JS.quote +:+ query args +:+ JS.quote +:+ " in code..."];
          Error ("Error searching Bitbucket code: " +:+ JS.message e)]
  /\ result_of (tool args) = None.
Proof.
  intros Hc Hf Hok Hd Hcode Hg Ht Hre.
  unfold result_of, run. rewrite code_search_run, Hc, Hf, Hok, Hd, Hcode.
  cbn [negb log_of]. cbv zeta. rewrite Hg, Ht, Hre. split; reflexivity.
Qed.

End CodeSearchMore.

(** X10 on a server that answers 503, one that answers without data and one
    whose data has no [code]. *)
Lemma code_search_outcomes_witness :
  let args := Sample.search_args "*.go" in
  let events_with response :=
    events <$> run (CodeSearch.bitbucketCodeSearchTool Sample.getLatest
                      (Sample.always response) Rx.RegExp args) in
  let progress := InProgress ["Searching for " +:+ JS.quote +:+ "TODO" +:+ JS.quote +:+ " in code..."] in
  events_with Sample.unavailable
  = Some [progress;
          Error "Error searching Bitbucket code: Bitbucket code search failed: 503 "]
  /\ events_with (mkResponse true 200 "OK" None None)
     = Some [progress;
             Error "Error searching Bitbucket code: No data returned from Bitbucket code search"]
  /\ events_with (Sample.respond (CodeSearch.mkData "GLOBAL" None false))
     = Some [progress; Done (CodeSearch.mkResult [] 0)].
Proof.
  intros args events_with progress.
  pose proof (fun response =>
    code_search_outcomes Sample.getLatest (Sample.always response) Rx.RegExp args tt response
      eq_refl eq_refl) as H.
  split; [|split].
  - exact (proj1 (H Sample.unavailable) eq_refl).
  - exact (proj1 (proj2 (H (mkResponse true 200 "OK" None None))) eq_refl eq_refl).
  - exact (proj2 (proj2 (H (Sample.respond (CodeSearch.mkData "GLOBAL" None false))))
             (CodeSearch.mkData "GLOBAL" None false) eq_refl eq_refl eq_refl).
Defined.

(** X11 on three hits of the repository [api] of [P1], filtered by that
    project, that repository and the glob [*.go]: the one file kept is a
    hit of the server and passes the three filters. *)
Lemma code_search_filters_sound_witness :
  let args := CodeSearch.mkArgs "TODO" (Some "P1") (Some "api") (Some "*.go") None in
  let hits := ["main.go"; "util.py"; "sub/dir.go"] in
  let r := CodeSearch.mkResult [Sample.hit "P1" "api" "main.go"] 1 in
  result_of (CodeSearch.bitbucketCodeSearchTool Sample.getLatest
               (Sample.always (Sample.respond (Sample.found_code hits 3))) Rx.RegExp args)
  = Some r
  /\ CodeSearch.files r `sublist_of` map (Sample.hit "P1" "api") hits
  /\ Forall (fun f => CodeSearch.Repository.slug (CodeSearch.repository_of f) = "api")
       (CodeSearch.files r).
Proof.
  intros args hits r.
  assert (Hr : result_of (CodeSearch.bitbucketCodeSearchTool Sample.getLatest
                            (Sample.always (Sample.respond (Sample.found_code hits 3)))
                            Rx.RegExp args) = Some r) by reflexivity.
  destruct (code_search_filters_sound Sample.getLatest
              (Sample.always (Sample.respond (Sample.found_code hits 3))) Rx.RegExp args tt
              (Sample.respond (Sample.found_code hits 3)) (Sample.found_code hits 3)
              (CodeSearch.mkCode "primary" 3 25 0 (map (Sample.hit "P1" "api") hits) true) r
              eq_refl eq_refl eq_refl eq_refl eq_refl Hr)
    as (Hsub & _ & Hslug & _).
  split; [exact Hr|]. split; [exact Hsub|]. exact (Hslug "api" eq_refl eq_refl).
Defined.

(** X12 on the glob [src/(], whose translation [^src/($] is no regular
    expression. *)
Lemma code_search_invalid_glob_witness :
  events <$> run (CodeSearch.bitbucketCodeSearchTool Sample.getLatest
                    (Sample.always (Sample.respond (Sample.found_code ["src/a.ts"] 1)))
                    Rx.RegExp (Sample.search_args "src/("))
  = Some [InProgress ["Searching for " +:+ JS.quote +:+ "TODO" +:+ JS.quote +:+ " in code..."];
          Error "Error searching Bitbucket code: Invalid regular expression: /^src/($/"].
Proof.
  exact (proj1 (code_search_invalid_glob Sample.getLatest
                  (Sample.always (Sample.respond (Sample.found_code ["src/a.ts"] 1)))
                  Rx.RegExp (Sample.search_args "src/(") tt
                  (Sample.respond (Sample.found_code ["src/a.ts"] 1))
                  (Sample.found_code ["src/a.ts"] 1)
                  (CodeSearch.mkCode "primary" 1 25 0 [Sample.hit "P1" "api" "src/a.ts"] true)
                  "src/(" (JS.mkExn "SyntaxError" "Invalid regular expression: /^src/($/")
                  eq_refl eq_refl eq_refl eq_refl eq_refl eq_refl eq_refl eq_refl)).
Defined.

(** ** bitbucket_read *)

Lemma prefix_empty (s : string) : String.prefix EmptyString s = true.
Proof. destruct s; reflexivity. Qed.

Lemma prefix_append (p s : string) : String.prefix p (p +:+ s) = true.
Proof.
  induction p as [|a p IH]; [apply prefix_empty|].
  rewrite append_cons, prefix_cons, Ascii.eqb_refl. exact IH.
Qed.

Lemma str_slice_append (p s : string) : JS.str_slice (String.length p) (p +:+ s) = s.
Proof. induction p as [|a p IH]; [reflexivity | exact IH]. Qed.

(** A path that does not start with a slash does not start with a text that
    does. *)
Lemma not_prefixed_by_slash (x p : string) :
  String.prefix "/" p = false -> String.prefix (String "/" x) p = false.
Proof.
  destruct p as [|c p]; [intros _; reflexivity|].
  rewrite !prefix_cons, prefix_empty, andb_true_r. intros ->. reflexivity.
Qed.

(** The normalisation, for any prefix that starts with a slash. *)
Lemma strip_spellings (q p : string) :
  let strip x :=
    let x := if JS.startsWith x "file://" then JS.str_slice 7 x else x in
    let x := if JS.startsWith x (String "/" q) then JS.str_slice (String.length (String "/" q)) x
             else x in
    if JS.startsWith x "/" then JS.str_slice 1 x else x in
  JS.startsWith p "/" = false -> JS.startsWith p "file://" = false ->
  strip p = p
  /\ strip (String "/" q +:+ p) = p
  /\ strip ("file://" +:+ String "/" q +:+ p) = p.
Proof.
  intros strip Hslash Hscheme. subst strip. cbv zeta. unfold JS.startsWith in *.
  split; [|split].
  - rewrite Hscheme, (not_prefixed_by_slash _ p Hslash), Hslash. reflexivity.
  - change (String.prefix "file://" (String "/" q +:+ p)) with false. cbv iota.
    rewrite prefix_append, str_slice_append, Hslash. reflexivity.
  - change (String.prefix "file://" ("file://" +:+ String "/" q +:+ p)) with true. cbv iota.
    change (JS.str_slice 7 ("file://" +:+ String "/" q +:+ p)) with (String "/" q +:+ p).
    rewrite prefix_append, str_slice_append, Hslash. reflexivity.
Qed.

(** X13: the three spellings of a file of a repository name the same
    relative path: the path itself, the path behind [/project/repository/],
    and the latter behind the scheme [file://], for every path that starts
    neither with a slash nor with [file://].  The second spelling is the
    path from which bitbucket_glob builds its file URIs. *)
Theorem read_path_spellings (project repository p : string) :
  JS.startsWith p "/" = false -> JS.startsWith p "file://" = false ->
  let prefix := "/" +:+ project +:+ "/" +:+ repository +:+ "/" in
  Read.relativePath project repository p = p
  /\ Read.relativePath project repository (prefix +:+ p) = p
  /\ Read.relativePath project repository ("file://" +:+ prefix +:+ p) = p.
Proof.
  intros Hslash Hscheme prefix.
  exact (strip_spellings (project +:+ "/" +:+ repository +:+ "/") p Hslash Hscheme).
Qed.

(** X13 on the path [src/a.ts] of the repository [P/r]. *)
Lemma read_path_spellings_witness :
  Read.relativePath "P" "r" "src/a.ts" = "src/a.ts"
  /\ Read.relativePath "P" "r" "/P/r/src/a.ts" = "src/a.ts"
  /\ Read.relativePath "P" "r" "file:///P/r/src/a.ts" = "src/a.ts".
Proof.
  exact (read_path_spellings "P" "r" "src/a.ts" eq_refl eq_refl).
Defined.

(** A text without a newline is one line. *)
Lemma split_one_line (s : string) :
  JS.includes s JS.newline = false -> JS.split "010" s = [s].
Proof.
  induction s as [|c s IH]; [reflexivity|].
  rewrite includes_cons. unfold JS.newline at 1. rewrite prefix_cons, prefix_empty, andb_true_r.
  intros H. apply orb_false_elim in H. destruct H as [Hc Hs].
  cbn [JS.split]. rewrite Ascii.eqb_sym, Hc, (IH Hs). reflexivity.
Qed.

Section ReadMore.

Import Read.

Context {Config URI : Type}.
Variable configService_getLatest : JS.Exn + Config.
Variable fetchFromBitbucketAPI : Request -> Config -> JS.Exn + BitbucketAPIResponse string.
Variable URI_from : string -> string -> URI.
Variable toURIString : URI -> string.
Variable toFilePathOrURI : string -> string.

Local Abbreviation tool :=
  (bitbucketReadTool configService_getLatest fetchFromBitbucketAPI
     URI_from toURIString toFilePathOrURI).

(** The run of the adapter, by what the collaborators answer. *)
Lemma read_run (args : BitbucketReadToolArgs) :
  let relative := relativePath (project args) (repository args) (path args) in
  let request := GET (bitbucketPath (project args) (repository args) relative) in
  let failed e := Error ("Error reading file: " +:+ JS.message_or_string e) in
  let progress :=
    ["Reading file " +:+ JS.quote +:+ path args +:+ JS.quote +:+ " from "
     +:+ project args +:+ "/" +:+ repository args +:+ "..."] in
    tool args [] =
    match configService_getLatest with
    | inl e => Returned tt [Next (InProgress progress); GetLatest; Next (failed e); Complete]
    | inr config =>
        match fetchFromBitbucketAPI request config with
        | inl e =>
            Returned tt [Next (InProgress progress); GetLatest; Fetch request; Next (failed e);
                         Complete]
        | inr response =>
            Returned tt
              [Next (InProgress progress); GetLatest; Fetch request;
               Next (if ok response then
                       Done (mkResult
                               (toFilePathOrURI
                                  (toURIString
                                     (URI_from "file"
                                        ("/" +:+ project args +:+ "/" +:+ repository args
                                         +:+ "/" +:+ relative))))
                               (numberedLines (read_range args)
                                  (default EmptyString (text response)))
                               None)
                     else
                       Error ("Failed to read file: " +:+ JS.toString (status response) +:+ " "
                              +:+ (if JS.truthy_string (statusText response)
                                   then statusText response else "Unknown error")));
               Complete]
        end
    end.
Proof.
  intros relative request failed progress.
  unfold bitbucketReadTool. run_async. fold relative request progress.
  destruct configService_getLatest as [e|config]; cbn [app]; [reflexivity|].
  destruct (fetchFromBitbucketAPI request config) as [e|response]; cbn [app]; [reflexivity|].
  destruct (ok response); cbn [negb]; [|reflexivity].
  replace (match text response with
           | Some t => if JS.truthy_string t then t else EmptyString
           | None => EmptyString
           end) with (default EmptyString (text response))
    by (destruct (text response) as [[|c t]|]; reflexivity).
  reflexivity.
Qed.

(** X14: whatever the collaborators answer, a run of bitbucket_read returns,
    its log starts with the progress event and follows the event protocol,
    and it sends at most one request: the GET of the raw file at [HEAD],
    addressed by the normalised path. *)
Theorem read_protocol (args : BitbucketReadToolArgs) :
  exists progress log,
    tool args [] = Returned tt (Next (InProgress progress) :: log)
    /\ conforms (Next (InProgress progress) :: log) = true
    /\ (fetches log = []
        \/ fetches log
           = [GET ("rest/api/1.0/projects/" +:+ project args +:+ "/repos/" +:+ repository args
                   +:+ "/raw/"
                   +:+ relativePath (project args) (repository args) (path args)
                   +:+ "?at=HEAD")]).
Proof.
  rewrite (read_run args). eexists.
  destruct configService_getLatest as [e|config].
  { eexists. split; [reflexivity|]. split; [reflexivity | left; reflexivity]. }
  destruct (fetchFromBitbucketAPI _ config) as [e|response].
  { eexists. split; [reflexivity|]. split; [reflexivity | right; reflexivity]. }
  eexists. split; [reflexivity|]. split; [|right; reflexivity].
  cbn [conforms]. destruct (ok response); reflexivity.
Qed.

(** X15: a response that is not ok ends the run with one error event that
    names the status and the status text, or [Unknown error] when the
    status text is empty, whatever text the response carries; a rejected
    configuration or request ends it with one error event that carries the
    message of the exception, or its name when the message is empty.  In
    both cases the progress event comes first and no done event is
    emitted. *)
Theorem read_failures (args : BitbucketReadToolArgs) :
  let relative := relativePath (project args) (repository args) (path args) in
  let request := GET (bitbucketPath (project args) (repository args) relative) in
  let progress :=
    InProgress ["Reading file " +:+ JS.quote +:+ path args +:+ JS.quote +:+ " from "
                +:+ project args +:+ "/" +:+ repository args +:+ "..."] in
  (forall config response,
      configService_getLatest = inr config ->
      fetchFromBitbucketAPI request config = inr response -> ok response = false ->
      events <$> run (tool args)
      = Some [progress;
              Error ("Failed to read file: " +:+ JS.toString (status response) +:+ " "
                     +:+ (if JS.truthy_string (statusText response)
                          then statusText response else "Unknown error"))])
  /\ (forall e,
        configService_getLatest = inl e
        \/ (exists config, configService_getLatest = inr config
                           /\ fetchFromBitbucketAPI request config = inl e) ->
        events <$> run (tool args)
        = Some [progress;
                Error ("Error reading file: "
                       +:+ (if JS.truthy_string (JS.message e) then JS.message e
                            else JS.name e))]).
Proof.
  intros relative request progress. pose proof (read_run args) as Hrun. cbv zeta in Hrun.
  fold relative request in Hrun. split.
  - intros config response Hc Hf Hok. unfold run. rewrite Hrun, Hc, Hf, Hok. reflexivity.
  - intros e Hrejected.
    assert (Htext : JS.message_or_string e
                    = if JS.truthy_string (JS.message e) then JS.message e else JS.name e).
    { unfold JS.message_or_string, JS.String_of. destruct (JS.truthy_string (JS.message e));
        reflexivity. }
    rewrite <- Htext.
    destruct Hrejected as [He | (config & Hc & Hf)]; unfold run; rewrite Hrun.
    + rewrite He. reflexivity.
    + rewrite Hc, Hf. reflexivity.
Qed.

(** X16: a file without a newline, the empty file included, is delivered as
    the one line [1: ] followed by its text when no range is given; in
    particular an ok response without text gives the content [1: ], not the
    empty content. *)
Theorem read_one_line_file (args : BitbucketReadToolArgs) config response :
  let relative := relativePath (project args) (repository args) (path args) in
  configService_getLatest = inr config ->
  fetchFromBitbucketAPI (GET (bitbucketPath (project args) (repository args) relative)) config
  = inr response ->
  ok response = true ->
  JS.includes (default EmptyString (text response)) JS.newline = false ->
  read_range args = None ->
  content <$> result_of (tool args) = Some ("1: " +:+ default EmptyString (text response)).
Proof.
  intros relative Hc Hf Hok Hline Hrange.
  pose proof (read_run args) as Hrun. cbv zeta in Hrun. fold relative in Hrun.
  unfold result_of, run. rewrite Hrun, Hc, Hf, Hok. cbn [log_of].
  unfold done_result, events. cbn [omap head fmap option_fmap option_map content].
  unfold numberedLines. rewrite (split_one_line _ Hline), Hrange. reflexivity.
Qed.

End ReadMore.

(** X15 on a server that answers 503 without a status text and on a
    configuration service that rejects. *)
Lemma read_failures_witness :
  let args := Read.mkArgs "P" "r" "src/a.ts" None in
  let events_with getLatest server :=
    events <$> run (Read.bitbucketReadTool getLatest server
                      Sample.URI_from Sample.toURIString Sample.toFilePathOrURI args) in
  let progress :=
    InProgress ["Reading file " +:+ JS.quote +:+ "src/a.ts" +:+ JS.quote +:+ " from P/r..."] in
  events_with Sample.getLatest (Sample.always Sample.unavailable)
  = Some [progress; Error "Failed to read file: 503 Unknown error"]
  /\ events_with Sample.no_config (Sample.always (Sample.raw_file Sample.five_lines))
     = Some [progress; Error "Error reading file: no configuration"].
Proof.
  intros args events_with progress. split.
  - exact (proj1 (read_failures Sample.getLatest (Sample.always Sample.unavailable)
                    Sample.URI_from Sample.toURIString Sample.toFilePathOrURI args)
             tt Sample.unavailable eq_refl eq_refl eq_refl).
  - exact (proj2 (read_failures Sample.no_config
                    (Sample.always (Sample.raw_file Sample.five_lines))
                    Sample.URI_from Sample.toURIString Sample.toFilePathOrURI args)
             (JS.Error "no configuration") (or_introl eq_refl)).
Defined.

(** X16 on the empty file. *)
Lemma read_one_line_file_witness :
  Read.content <$>
    result_of (Read.bitbucketReadTool Sample.getLatest
                 (Sample.always (Sample.raw_file EmptyString))
                 Sample.URI_from Sample.toURIString Sample.toFilePathOrURI
                 (Read.mkArgs "P" "r" "src/empty.txt" None))
  = Some "1: ".
Proof.
  exact (read_one_line_file Sample.getLatest (Sample.always (Sample.raw_file EmptyString))
           Sample.URI_from Sample.toURIString Sample.toFilePathOrURI
           (Read.mkArgs "P" "r" "src/empty.txt" None) tt (Sample.raw_file EmptyString)
           eq_refl eq_refl eq_refl eq_refl eq_refl).
Defined.

(** ** bitbucket_glob *)

Lemma slice_sublist {A} (l : list A) (a b : Z) : JS.slice l a b `sublist_of` l.
Proof.
  unfold JS.slice. etransitivity; [apply sublist_take | apply sublist_drop].
Qed.

Lemma map_sublist {A B} (f : A -> B) (l1 l2 : list A) :
  l1 `sublist_of` l2 -> map f l1 `sublist_of` map f l2.
Proof.
  induction 1; cbn [map]; [constructor | apply sublist_skip | apply sublist_cons]; assumption.
Qed.

(** The events of a log made of the progress event, the configuration, some
    requests and a last event. *)
Lemma events_around_requests {R} (progress last : ToolRun R) (requests : list Request) :
  events ([Next progress; GetLatest] ++ map Fetch requests ++ [Next last; Complete])
  = [progress; last].
Proof.
  assert (H : events (R:=R) (map Fetch requests) = []).
  { induction requests as [|q qs IH]; [reflexivity | exact IH]. }
  unfold events in *. rewrite !omap_app, H. reflexivity.
Qed.

Lemma conforms_around_requests {R} (progress : list string) (last : ToolRun R)
  (requests : list Request) :
  conforms ([Next (InProgress progress); GetLatest] ++ map Fetch requests
            ++ [Next last; Complete])
  = is_terminal last.
Proof.
  change (conforms (map Fetch requests ++ [Next last; Complete]) = is_terminal last).
  induction requests as [|q qs IH]; [destruct last; reflexivity|]. exact IH.
Qed.

Section TraversalMore.

Import Glob.

Context {Config : Type}.
Variable fetchFromBitbucketAPI :
  Request -> Config -> JS.Exn + BitbucketAPIResponse BitbucketBrowseResponse.
Variable project repository : string.
Variable config : Config.

Local Abbreviation loop := (fetchDirectory_from fetchFromBitbucketAPI project repository config).
Local Abbreviation page_at := (Glob.page_at fetchFromBitbucketAPI project repository config).

(** The loop over items that are all files appends their paths. *)
Lemma forOf_files f (items : list BitbucketFileItem) allFiles
  (log : list (Effect (list string))) :
  Forall (fun item => type item = FILE) items ->
  forOf (visit f) items allFiles log = Returned (allFiles ++ map itemPath items) log.
Proof.
  intros Hfiles. revert allFiles.
  induction Hfiles as [|item rest Ht _ IH]; intros allFiles.
  - cbn. rewrite app_nil_r. reflexivity.
  - rewrite forOf_cons. unfold visit at 1. rewrite Ht. unfold ret. rewrite IH.
    cbn [map]. rewrite <- app_assoc. reflexivity.
Qed.

(** What a loop over the items of a page adds to the file list does not
    depend on the list it is added to. *)
Lemma forOf_visit_appends f :
  (forall p allFiles log files log',
      f p allFiles log = Returned files log' ->
      exists new, files = allFiles ++ new
                  /\ forall others, f p others log = Returned (others ++ new) log') ->
  forall items allFiles log files log',
    forOf (visit f) items allFiles log = Returned files log' ->
    exists new, files = allFiles ++ new
                /\ forall others,
                     forOf (visit f) items others log = Returned (others ++ new) log'.
Proof.
  intros Hf items. induction items as [|item rest IH]; intros allFiles log files log' Hrun.
  - injection Hrun as <- <-. exists []. split; [rewrite app_nil_r; reflexivity|].
    intros others. cbn. unfold ret. rewrite app_nil_r. reflexivity.
  - rewrite forOf_cons in Hrun. unfold visit at 1 in Hrun.
    destruct (type item) eqn:Ht.
    + unfold ret in Hrun. destruct (IH _ _ _ _ Hrun) as (new & -> & Hothers).
      exists (itemPath item :: new). split; [rewrite <- app_assoc; reflexivity|].
      intros others. rewrite forOf_cons. unfold visit at 1. rewrite Ht. unfold ret.
      rewrite Hothers, <- app_assoc. reflexivity.
    + destruct (f (itemPath item) allFiles log) as [|e l1|a1 l1] eqn:E; try discriminate.
      destruct (Hf _ _ _ _ _ E) as (new1 & -> & Hothers1).
      destruct (IH _ _ _ _ Hrun) as (new2 & -> & Hothers2).
      exists (new1 ++ new2). split; [rewrite app_assoc; reflexivity|].
      intros others. rewrite forOf_cons. unfold visit at 1. rewrite Ht.
      rewrite Hothers1, Hothers2, app_assoc. reflexivity.
Qed.

(** X17: the traversal only appends.  The list a paging loop returns is the
    list it was entered with, followed by the files it found, and the files
    it finds do not depend on the list it was entered with: no path gathered
    before is dropped, moved or repeated by a later directory. *)
Theorem glob_traversal_appends fuel :
  forall path start allFiles log files log',
    fetchDirectory_from fetchFromBitbucketAPI project repository config
      fuel path start allFiles log = Returned files log' ->
    exists new,
      files = allFiles ++ new
      /\ forall others,
          fetchDirectory_from fetchFromBitbucketAPI project repository config
            fuel path start others log = Returned (others ++ new) log'.
Proof.
  induction fuel as [|fuel IH]; intros path start allFiles log files log' Hrun;
    [discriminate|].
  destruct (fetch_cases fetchFromBitbucketAPI project repository config path start)
    as [[e He] | [Hfail | [page Hpage]]].
  - rewrite (loop_rejected _ _ _ _ _ _ _ _ _ _ He) in Hrun. discriminate.
  - rewrite (loop_failed _ _ _ _ _ _ _ _ _ Hfail) in Hrun. injection Hrun as <- <-.
    exists []. split; [rewrite app_nil_r; reflexivity|].
    intros others. rewrite (loop_failed _ _ _ _ _ _ _ _ _ Hfail), app_nil_r. reflexivity.
  - rewrite (loop_page _ _ _ _ _ _ _ _ _ page Hpage) in Hrun.
    destruct (forOf (visit (fun p => loop fuel p 0)) (values page) allFiles
                (log ++ [Fetch (browse project repository path start)]))
      as [|e l1|a1 l1] eqn:E; try discriminate.
    destruct (forOf_visit_appends (fun p => loop fuel p 0) (fun p => IH p 0) _ _ _ _ _ E)
      as (new1 & -> & Hothers1).
    destruct (isLastPage page) eqn:El.
    + injection Hrun as <- <-. exists new1. split; [reflexivity|].
      intros others. rewrite (loop_page _ _ _ _ _ _ _ _ _ page Hpage), Hothers1, El.
      reflexivity.
    + destruct (IH _ _ _ _ _ _ Hrun) as (new2 & -> & Hothers2).
      exists (new1 ++ new2). split; [rewrite app_assoc; reflexivity|].
      intros others. rewrite (loop_page _ _ _ _ _ _ _ _ _ page Hpage), Hothers1, El.
      rewrite Hothers2, app_assoc. reflexivity.
Qed.

(** X18: a page that is not the last one and names no next page, or the
    next page 0, stalls the loop: the cursor stays where it is and the same
    page is fetched again, so the loop returns for no amount of fuel; when
    the page lists only files it is pending for every amount of fuel. *)
Theorem glob_stalled_page_never_returns path start page :
  page_at path start = Some page ->
  isLastPage page = false ->
  nextPageStart page = None \/ nextPageStart page = Some 0 ->
  (forall fuel allFiles log files log',
      loop fuel path start allFiles log <> Returned files log')
  /\ (Forall (fun item => type item = FILE) (values page) ->
      forall fuel allFiles log, loop fuel path start allFiles log = Pending).
Proof.
  intros Hpage Hlast Hnext.
  assert (Hstay : next_start page start = start).
  { unfold next_start. destruct Hnext as [-> | ->]; [reflexivity|].
    rewrite Hlast. reflexivity. }
  split.
  - intros fuel. induction fuel as [|fuel IH]; intros allFiles log files log'; [discriminate|].
    rewrite (loop_page _ _ _ _ _ _ _ _ _ page Hpage), Hlast, Hstay.
    destruct (forOf _ _ _ _); [discriminate | discriminate | apply IH].
  - intros Hfiles fuel. induction fuel as [|fuel IH]; intros allFiles log; [reflexivity|].
    rewrite (loop_page _ _ _ _ _ _ _ _ _ page Hpage), (forOf_files _ _ _ _ Hfiles).
    rewrite Hlast, Hstay. apply IH.
Qed.

End TraversalMore.

(** X17 on the sample repository: entered with a list that already holds a
    path, the traversal returns that list followed by the four files. *)
Lemma glob_traversal_appends_witness :
  exists log,
    Glob.fetchDirectory_from Sample.tree_server "P" "r" tt 4 EmptyString 0 ["README.md"] []
    = Returned (["README.md"] ++ ["a.ts"; "dir/c.ts"; "dir/sub/d.ts"; "b.js"]) log.
Proof.
  destruct (glob_traversal_appends Sample.tree_server "P" "r" tt 4 EmptyString 0 [] [] _ _
              sample_traversal) as (new & Hnew & Hothers).
  cbn [app] in Hnew. subst new. eexists. exact (Hothers ["README.md"]).
Defined.

(** X18 on a server whose root page lists one file, is not the last page
    and names no next page: the traversal is pending for every fuel. *)
Lemma glob_stalled_page_never_returns_witness :
  Glob.page_at Sample.stalled_server "P" "r" tt EmptyString 0
  = Some (Glob.mkChildren [Sample.file ["a.ts"]] false None)
  /\ forall fuel, Glob.fetchAllFiles Sample.stalled_server "P" "r" tt fuel [] = Pending.
Proof.
  split; [reflexivity|]. intros fuel.
  apply (glob_stalled_page_never_returns Sample.stalled_server "P" "r" tt EmptyString 0
           (Glob.mkChildren [Sample.file ["a.ts"]] false None)
           eq_refl eq_refl (or_introl eq_refl)).
  repeat constructor.
Defined.

Section GlobMore.

Import Glob.

Context {Config URI : Type}.
Variable configService_getLatest : JS.Exn + Config.
Variable fetchFromBitbucketAPI :
  Request -> Config -> JS.Exn + BitbucketAPIResponse BitbucketBrowseResponse.
Variable picomatch : string -> JS.Exn + (string -> bool).
Variable URI_from : string -> string -> URI.
Variable toURIString : URI -> string.
Variable toFilePathOrURI : string -> string.

Local Abbreviation tool :=
  (bitbucketGlobTool configService_getLatest fetchFromBitbucketAPI picomatch
     URI_from toURIString toFilePathOrURI).
Local Abbreviation delivered := (Glob.delivered URI_from toURIString toFilePathOrURI).
Local Abbreviation traverse := (fetchAllFiles fetchFromBitbucketAPI).

(** The run of the adapter, by what the collaborators answer and by the
    outcome of the traversal. *)
Lemma glob_outcome fuel (args : BitbucketGlobToolArgs) :
  let failed e := Error ("Error matching files: " +:+ JS.message_or_string e) in
  match configService_getLatest with
  | inl e =>
      tool fuel args [] = Returned tt [Next (progress args); GetLatest; Next (failed e); Complete]
  | inr config =>
      match traverse (project args) (repository args) config fuel [] with
      | Pending => tool fuel args [] = Pending
      | Threw e log =>
          exists requests,
            log = map Fetch requests
            /\ tool fuel args [] =
               Returned tt ([Next (progress args); GetLatest] ++ map Fetch requests
                            ++ [Next (failed e); Complete])
      | Returned files log =>
          exists requests,
            log = map Fetch requests
            /\ tool fuel args [] =
               Returned tt ([Next (progress args); GetLatest] ++ map Fetch requests
                            ++ [Next (match picomatch (filePattern args) with
                                      | inl e => failed e
                                      | inr isMatch => Done (delivered args isMatch files)
                                      end);
                                Complete])
      end
  end.
Proof.
  intros failed.
  unfold bitbucketGlobTool, fetchAllFiles, fetchDirectory, onFiles. run_async.
  destruct configService_getLatest as [e|config]; cbn [app]; [reflexivity|].
  pose proof (loop_quiet fetchFromBitbucketAPI (project args) (repository args) config fuel
                EmptyString 0 [] []) as Hq.
  pose proof (loop_framed fetchFromBitbucketAPI (project args) (repository args) config fuel
                EmptyString 0 [] [Next (progress args); GetLatest] []) as Hf.
  cbn [app] in Hf. rewrite Hf.
  destruct (fetchDirectory_from _ _ _ _ fuel EmptyString 0 [] []) as [|e log|files log];
    [reflexivity | |]; destruct Hq as [requests ->]; exists requests;
    (split; [reflexivity|]); cbn [shift app].
  - rewrite <- !app_assoc. reflexivity.
  - destruct (picomatch (filePattern args)); rewrite <- !app_assoc; reflexivity.
Qed.

(** X19: an exception never escapes from bitbucket_glob.  While the
    traversal is pending so is the run; otherwise the run returns, and its
    log starts with the progress event and follows the event protocol: one
    done or error event, then the completion. *)
Theorem glob_protocol fuel (args : BitbucketGlobToolArgs) :
  match tool fuel args [] with
  | Pending =>
      exists config,
        configService_getLatest = inr config
        /\ traverse (project args) (repository args) config fuel [] = Pending
  | Threw _ _ => False
  | Returned _ log =>
      conforms log = true /\ exists rest, log = Next (progress args) :: GetLatest :: rest
  end.
Proof.
  pose proof (glob_outcome fuel args) as H. cbv zeta in H.
  destruct configService_getLatest as [e|config].
  { rewrite H. split; [reflexivity | eexists; reflexivity]. }
  destruct (traverse (project args) (repository args) config fuel [])
    as [|e log|files log] eqn:E.
  - rewrite H. exists config. split; [reflexivity | exact E].
  - destruct H as (requests & _ & ->). split; [|eexists; reflexivity].
    unfold progress. apply conforms_around_requests.
  - destruct H as (requests & _ & ->). split; [|eexists; reflexivity].
    unfold progress. rewrite conforms_around_requests.
    destruct (picomatch (filePattern args)); reflexivity.
Qed.

(** X20: unlike a response that is not ok, a rejection is fatal.  When the
    configuration service rejects, the run is the progress event and one
    error event, and no request is sent; when the traversal throws, as it
    does as soon as one of its requests is rejected, the run ends with one
    error event and delivers no file, whatever was gathered before. *)
Theorem glob_rejections_are_fatal fuel (args : BitbucketGlobToolArgs) :
  let failed e :=
    Error ("Error matching files: "
           +:+ (if JS.truthy_string (JS.message e) then JS.message e else JS.name e)) in
  (forall e, configService_getLatest = inl e ->
     tool fuel args [] = Returned tt [Next (progress args); GetLatest; Next (failed e); Complete])
  /\ (forall config e log,
        configService_getLatest = inr config ->
        traverse (project args) (repository args) config fuel [] = Threw e log ->
        events <$> run (tool fuel args) = Some [progress args; failed e]
        /\ result_of (tool fuel args) = None)
  /\ (forall config e,
        fetchFromBitbucketAPI (browse (project args) (repository args) EmptyString 0) config
        = inl e ->
        traverse (project args) (repository args) config (S fuel) []
        = Threw e [Fetch (browse (project args) (repository args) EmptyString 0)]).
Proof.
  intros failed.
  assert (Htext : forall e, JS.message_or_string e
                  = if JS.truthy_string (JS.message e) then JS.message e else JS.name e).
  { intros e. unfold JS.message_or_string, JS.String_of.
    destruct (JS.truthy_string (JS.message e)); reflexivity. }
  pose proof (glob_outcome fuel args) as H. cbv zeta in H. split; [|split].
  - intros e He. rewrite He in H |- *. unfold failed. rewrite <- Htext. exact H.
  - intros config e log Hc Hrun. rewrite Hc in H |- *. rewrite Hrun in H.
    destruct H as (requests & _ & Htool).
    unfold result_of, run, done_result. rewrite Htool. cbn [log_of fmap option_fmap option_map].
    rewrite events_around_requests. unfold failed. rewrite <- Htext. split; reflexivity.
  - intros config e Hf. unfold fetchAllFiles, fetchDirectory.
    rewrite (loop_rejected _ _ _ _ _ _ _ _ _ e Hf). reflexivity.
Qed.

(** X21: the pattern is compiled only after the traversal.  When
    [picomatch] refuses the pattern, every request of the traversal has
    been sent before the error event is emitted, and no file is
    delivered. *)
Theorem glob_pattern_is_compiled_last fuel (args : BitbucketGlobToolArgs) config files log e :
  configService_getLatest = inr config ->
  traverse (project args) (repository args) config fuel [] = Returned files log ->
  picomatch (filePattern args) = inl e ->
  tool fuel args [] =
  Returned tt
    ([Next (progress args); GetLatest] ++ log
     ++ [Next (Error ("Error matching files: "
                      +:+ (if JS.truthy_string (JS.message e) then JS.message e
                           else JS.name e)));
         Complete])
  /\ result_of (tool fuel args) = None.
Proof.
  intros Hc Hrun Hp.
  assert (Htext : JS.message_or_string e
                  = if JS.truthy_string (JS.message e) then JS.message e else JS.name e).
  { unfold JS.message_or_string, JS.String_of.
    destruct (JS.truthy_string (JS.message e)); reflexivity. }
  pose proof (glob_outcome fuel args) as H. cbv zeta in H.
  rewrite Hc in H |- *. rewrite Hrun, Hp in H. destruct H as (requests & -> & Htool).
  rewrite <- Htext. split; [exact Htool|].
  unfold result_of, run, done_result. rewrite Htool. cbn [log_of].
  rewrite events_around_requests. reflexivity.
Qed.

(** X22: the files delivered are file URIs of traversed paths that the
    matcher accepts, in the order of the traversal, with none added; and
    with a positive limit (100 when none is given) and an offset that is
    not negative, at most [limit] files are delivered. *)
Theorem glob_result_is_bounded fuel (args : BitbucketGlobToolArgs) config isMatch files log :
  configService_getLatest = inr config ->
  picomatch (filePattern args) = inr isMatch ->
  traverse (project args) (repository args) config fuel [] = Returned files log ->
  exists result,
    result_of (tool fuel args) = Some result
    /\ result `sublist_of`
         map (fileUri URI_from toURIString toFilePathOrURI (project args) (repository args))
           (List.filter isMatch files)
    /\ (0 < default 100 (limit args) -> 0 <= default 0 (offset args) ->
        Z.of_nat (length result) <= default 100 (limit args)).
Proof.
  intros Hc Hp Hrun. exists (delivered args isMatch files).
  split; [exact (glob_result _ _ _ _ _ _ _ _ _ _ _ _ Hc Hp Hrun)|].
  unfold Glob.delivered, paginate, JS.slice_from. split.
  - apply map_sublist. destruct (JS.truthy_number _); apply slice_sublist.
  - intros Hl Ho. unfold JS.truthy_number.
    destruct (default 100 (limit args) =? 0) eqn:E; [lia|]. cbn [negb].
    rewrite length_map, slice_nonneg, length_take by lia. lia.
Qed.

(** X23: an offset at or beyond the number of matching files is no error:
    with a limit that is not negative, the adapter delivers the empty
    list. *)
Theorem glob_offset_beyond_matches fuel (args : BitbucketGlobToolArgs) config isMatch files log :
  configService_getLatest = inr config ->
  picomatch (filePattern args) = inr isMatch ->
  traverse (project args) (repository args) config fuel [] = Returned files log ->
  0 <= default 100 (limit args) ->
  Z.of_nat (length (List.filter isMatch files)) <= default 0 (offset args) ->
  events <$> run (tool fuel args) = Some [progress args; Done []].
Proof.
  intros Hc Hp Hrun Hl Ho.
  rewrite (glob_events _ _ _ _ _ _ _ _ _ _ _ _ Hc Hp Hrun).
  unfold Glob.delivered, paginate, JS.slice_from.
  assert (Hdrop : drop (Z.to_nat (default 0 (offset args))) (List.filter isMatch files) = []).
  { apply skipn_all2. lia. }
  destruct (JS.truthy_number _); rewrite slice_nonneg by lia; rewrite Hdrop, firstn_nil;
    reflexivity.
Qed.

End GlobMore.

(** X20 on a configuration service that rejects and on a server that rejects
    every request. *)
Lemma glob_rejections_are_fatal_witness :
  let args := Sample.glob_args ".ts" None None in
  Glob.bitbucketGlobTool Sample.no_config Sample.tree_server Sample.picomatch
    Sample.URI_from Sample.toURIString Sample.toFilePathOrURI 4 args []
  = Returned tt [Next (Glob.progress args); GetLatest;
                 Next (Error "Error matching files: no configuration"); Complete]
  /\ events <$> run (Sample.glob Sample.rejecting 4 args)
     = Some [Glob.progress args; Error "Error matching files: socket hang up"].
Proof.
  intros args. split.
  - exact (proj1 (glob_rejections_are_fatal Sample.no_config Sample.tree_server
                    Sample.picomatch Sample.URI_from Sample.toURIString
                    Sample.toFilePathOrURI 4 args) (JS.Error "no configuration") eq_refl).
  - exact (proj1 (proj1 (proj2 (glob_rejections_are_fatal Sample.getLatest Sample.rejecting
                                  Sample.picomatch Sample.URI_from Sample.toURIString
                                  Sample.toFilePathOrURI 4 args))
                    tt (JS.Error "socket hang up") _ eq_refl eq_refl)).
Defined.

(** X21 on the sample repository and the empty pattern: the five requests
    of the traversal precede the error event. *)
Lemma glob_pattern_is_compiled_last_witness :
  let args := Sample.glob_args EmptyString None None in
  Sample.glob Sample.tree_server 4 args []
  = Returned tt
      ([Next (Glob.progress args); GetLatest]
       ++ map Fetch
            [GET (Sample.url EmptyString 0); GET (Sample.url "secret" 0);
             GET (Sample.url "dir" 0); GET (Sample.url "dir/sub" 0);
             GET (Sample.url EmptyString 3)]
       ++ [Next (Error "Error matching files: Expected pattern to be a non-empty string");
           Complete]).
Proof.
  intros args.
  exact (proj1 (glob_pattern_is_compiled_last Sample.getLatest Sample.tree_server
                  Sample.picomatch Sample.URI_from Sample.toURIString Sample.toFilePathOrURI
                  4 args tt _ _
                  (JS.mkExn "TypeError" "Expected pattern to be a non-empty string")
                  eq_refl sample_traversal eq_refl)).
Defined.

(** X22 on the sample repository, the pattern [.ts], the limit 2 and the
    offset 0: two of the three matching files are delivered. *)
Lemma glob_result_is_bounded_witness :
  exists result,
    result_of (Sample.glob Sample.tree_server 4 (Sample.glob_args ".ts" (Some 2) (Some 0)))
    = Some result
    /\ result `sublist_of`
         ["file:///P/r/a.ts"; "file:///P/r/dir/c.ts"; "file:///P/r/dir/sub/d.ts"]
    /\ Z.of_nat (length result) <= 2.
Proof.
  destruct (glob_result_is_bounded Sample.getLatest Sample.tree_server Sample.picomatch
              Sample.URI_from Sample.toURIString Sample.toFilePathOrURI
              4 (Sample.glob_args ".ts" (Some 2) (Some 0)) tt (Sample.ends_with ".ts") _ _
              eq_refl eq_refl sample_traversal)
    as (result & Hresult & Hsub & Hlen).
  exists result. split; [exact Hresult|]. split; [exact Hsub|].
  apply Hlen; [reflexivity | discriminate].
Defined.

(** X23 on the sample repository and the pattern [.ts], which three files
    match, with the offset 3. *)
Lemma glob_offset_beyond_matches_witness :
  let args := Sample.glob_args ".ts" None (Some 3) in
  events <$> run (Sample.glob Sample.tree_server 4 args) = Some [Glob.progress args; Done []].
Proof.
  intros args.
  apply (glob_offset_beyond_matches Sample.getLatest Sample.tree_server Sample.picomatch
           Sample.URI_from Sample.toURIString Sample.toFilePathOrURI
           4 args tt (Sample.ends_with ".ts") _ _ eq_refl eq_refl sample_traversal);
    [discriminate | vm_compute; discriminate].
Defined.
